(** * Harvest pipeline of the Telegram media bot (bot3.py, bot4.py)

    A shallow embedding of [harvest_and_post_media] and of the helpers it
    calls, as they are written in the two scripts of the repository:

    - bot3.py fetches the media of each page in a sequential [for] loop;
    - bot4.py hands each page to [download_and_post_media], which runs one
      coroutine per message under [asyncio.gather] and a semaphore of 5.

    Everything outside the scripts (Telethon, the disk, the operator typing
    at the prompts, the asyncio event loop) is an [Env] over an abstract
    world; the scripts are functions in a small state-and-exception monad
    over that world, the Python local variables and a trace of the calls and
    log lines they make. *)

From Stdlib Require Import ZArith String List Bool Lia.
From stdpp Require Import base tactics list functions.
Import ListNotations.

Local Open Scope Z_scope.
Local Open Scope string_scope.
Local Open Scope list_scope.

(** ** Messages as the scripts look at them *)

(** [hasattr(attr, "duration")] and [attr.duration]. *)
Record Attribute := { duration : option Z }.

Record Document := { mime_type : string; attributes : list Attribute }.

(** [message.media]: the scripts test [isinstance] against
    [MessageMediaPhoto] and [MessageMediaDocument]; the document of the
    latter may be an object without [mime_type] (the counting pass guards
    this with [hasattr]), which is [None] here. *)
Inductive Media :=
| MessageMediaPhoto
| MessageMediaDocument (document : option Document)
| MessageMediaOther.

Record Message := { msg_id : Z; media : option Media }.

Record Group := { group_name : string; group_id : Z }.

(** ['video' in mime_type] *)
Fixpoint contains (needle hay : string) : bool :=
  String.prefix needle hay ||
  match hay with
  | EmptyString => false
  | String _ rest => contains needle rest
  end.

(** [messages[-1].id] of a page that is not empty. *)
Definition last_id (messages : list Message) : Z :=
  msg_id (List.last messages {| msg_id := 0; media := None |}).

(** ** Exceptions, the environment and the trace *)

(** The exceptions of a run; all of them are instances of [Exception], which
    is what the handlers of the scripts catch. *)
Inductive Exn :=
| TypeError
| AttributeError
| NameError (name : string)
| ValueError
| OSError
| RPCError.

(** What a call into a library gives back. *)
Inductive Reply (A : Type) :=
| Returns (a : A)
| Raises (e : Exn).
Arguments Returns {A} a.
Arguments Raises {A} e.

(** The calls the pipeline makes to the outside, over a world [W]:
    - [os.makedirs(group_dir, exist_ok=True)];
    - [client.get_messages(group.id, offset_id=.., limit=..)];
    - [int(input(prompt).strip())];
    - [message.download_media(file=group_dir)];
    - [os.path.exists(file_name)];
    - [client.send_file(target_group, media_path)];
    - the order in which the event loop advances the coroutines of one
      [asyncio.gather] batch (indices into the page), up to the moment it
      gets back to the caller of [gather]. *)
Record Env (W : Type) := {
  os_makedirs : string -> W -> Reply unit * W;
  get_messages : Z -> Z -> Z -> W -> Reply (list Message) * W;
  input_int : string -> W -> Reply Z * W;
  download_media : Message -> string -> W -> Reply (option string) * W;
  os_path_exists : string -> W -> bool;
  send_file : string -> string -> W -> Reply unit * W;
  event_loop : list Message -> W -> list nat
}.
Arguments os_makedirs {W} _ _ _.
Arguments get_messages {W} _ _ _ _ _.
Arguments input_int {W} _ _ _.
Arguments download_media {W} _ _ _ _.
Arguments os_path_exists {W} _ _ _.
Arguments send_file {W} _ _ _ _.
Arguments event_loop {W} _ _ _.

Inductive Level := INFO | WARNING | ERROR.

(** The [logging] lines of the two scripts. *)
Inductive LogLine :=
| Fetching_messages (group : string)
| Found (photos videos : Z) (group : string)
| Downloading (photos videos : Z) (group : string)
| Already_exists (file_name : string)
| Downloaded_photo (file_name : string)
| Downloaded_video (file_name : string)
| Skipped_long_video (seconds : Z)
| Successfully_sent (media_path target_group : string)
| Failed_to_send (media_path target_group : string) (e : Exn)
| Completed (group : string)
| Error_harvesting (group : string) (e : Exn).

(** What a run leaves behind: the calls of [logging.info], [.warning] and
    [.error] (bot4.py sets the threshold to WARNING, so its INFO calls
    print nothing), and the calls of [download_media] and
    [post_media_to_group] it made. *)
Inductive Event :=
| Log (level : Level) (line : LogLine)
| Download_started (message : Z) (group_dir : string)
| Post_called (target_group file_name : string).

(** The local variables of [harvest_and_post_media] and of
    [download_and_post_media]. [requested_photos] and [requested_videos]
    name the first binding of [download_photos] and [download_videos]
    (the operator's answer), which the scripts overwrite with the minimum. *)
Inductive Var :=
| offset_id | photo_count | video_count
| requested_photos | requested_videos
| download_photos | download_videos
| downloaded_photos | downloaded_videos.

#[global] Instance Var_eq_dec : EqDecision Var.
Proof. solve_decision. Defined.

Abbreviation Locals := (Var -> Z).

Definition no_locals : Locals := fun _ => 0.

Definition limit : Z := 100.
Definition max_video_duration : Z := 10 * 60.

(** ** The monad of the scripts

    A computation runs on a state (the outside world, the trace so far, the
    local variables) and returns a value, raises a Python exception, or runs
    out of the fuel that bounds the two [while True] loops. *)

Record State (W : Type) := {
  world : W;
  trace : list Event;
  vars : Locals
}.
Arguments world {W} _.
Arguments trace {W} _.
Arguments vars {W} _.

Inductive Outcome (A : Type) :=
| Returned (a : A)
| Raised (e : Exn)
| Out_of_fuel.
Arguments Returned {A} a.
Arguments Raised {A} e.
Arguments Out_of_fuel {A}.

Definition M (W A : Type) : Type := State W -> Outcome A * State W.

Section Monad.
Context {W : Type}.

Definition ret {A} (a : A) : M W A := fun st => (Returned a, st).

Definition bind {A B} (m : M W A) (k : A -> M W B) : M W B :=
  fun st =>
    match m st with
    | (Returned a, st') => k a st'
    | (Raised e, st') => (Raised e, st')
    | (Out_of_fuel, st') => (Out_of_fuel, st')
    end.

Definition raise {A} (e : Exn) : M W A := fun st => (Raised e, st).

Definition out_of_fuel {A} : M W A := fun st => (Out_of_fuel, st).

Definition read (x : Var) : M W Z := fun st => (Returned (vars st x), st).

Definition assign (x : Var) (v : Z) : M W unit :=
  fun st =>
    (Returned tt,
     {| world := world st; trace := trace st; vars := <[x := v]> (vars st) |}).

Definition emit (ev : Event) : M W unit :=
  fun st =>
    (Returned tt,
     {| world := world st; trace := trace st ++ [ev]; vars := vars st |}).

Definition logging (level : Level) (line : LogLine) : M W unit :=
  emit (Log level line).

(** A call into the environment. *)
Definition call {A} (f : W -> Reply A * W) : M W A :=
  fun st =>
    let (r, w) := f (world st) in
    let st' := {| world := w; trace := trace st; vars := vars st |} in
    match r with
    | Returns a => (Returned a, st')
    | Raises e => (Raised e, st')
    end.

(** A pure look at the world. *)
Definition peek {A} (f : W -> A) : M W A :=
  fun st => (Returned (f (world st)), st).

(** [try: body  except Exception as e: handler e] *)
Definition try_except (body : M W unit) (handler : Exn -> M W unit) : M W unit :=
  fun st =>
    match body st with
    | (Raised e, st') => handler e st'
    | r => r
    end.

(** Runs [m] and hands its exception, if any, over as a value: what an
    asyncio task does with the exception of its coroutine. *)
Definition attempt {A} (m : M W A) : M W (Reply A) :=
  fun st =>
    match m st with
    | (Returned a, st') => (Returned (Returns a), st')
    | (Raised e, st') => (Returned (Raises e), st')
    | (Out_of_fuel, st') => (Out_of_fuel, st')
    end.

(** A function call: the body runs on a frame of its own, which is dropped
    when the call returns or raises; the caller's variables are as they
    were. *)
Definition with_frame {A} (frame : Locals) (body : M W A) : M W A :=
  fun st =>
    let (r, st') :=
      body {| world := world st; trace := trace st; vars := frame |} in
    (r, {| world := world st'; trace := trace st'; vars := vars st |}).
End Monad.

Declare Scope py_scope.
Delimit Scope py_scope with py.
Notation "x <- m ;; k" := (bind m (fun x => k))
  (at level 100, m at next level, right associativity) : py_scope.
Notation "m ;; k" := (bind m (fun _ => k))
  (at level 100, right associativity) : py_scope.
Local Open Scope py_scope.

Section Loops.
Context {W : Type}.

(** [for x in xs: body x] *)
Fixpoint for_each {A} (body : A -> M W unit) (xs : list A) : M W unit :=
  match xs with
  | [] => ret tt
  | x :: rest => body x ;; for_each body rest
  end.
End Loops.

(** ** What both scripts do before they fetch

    Lines 71-110 of bot3.py and 171-210 of bot4.py are the same text. *)

Section Counting.
Context {W : Type} (env : Env W).

(** The body of the counting loop, for one message. *)
Definition count_message (message : Message) : M W unit :=
  match media message with
  | Some MessageMediaPhoto =>
      n <- read photo_count ;; assign photo_count (n + 1)
  | Some (MessageMediaDocument (Some doc)) =>
      if contains "video" (mime_type doc)
      then n <- read video_count ;; assign video_count (n + 1)
      else ret tt
  | _ => ret tt
  end.

(** [# First pass: Count the number of photos and videos] *)
Fixpoint first_pass (fuel : nat) (group : Group) : M W unit :=
  match fuel with
  | O => out_of_fuel
  | S fuel' =>
      offset <- read offset_id ;;
      messages <- call (get_messages env (group_id group) offset limit) ;;
      match messages with
      | [] => ret tt
      | _ :: _ =>
          for_each count_message messages ;;
          assign offset_id (last_id messages) ;;
          first_pass fuel' group
      end
  end.

Definition group_dir (group : Group) : string := "media/" ++ group_name group.

Definition photos_prompt (group : Group) : string :=
  "How many photos to download from " ++ group_name group ++ " (0 to skip): ".

Definition videos_prompt (group : Group) : string :=
  "How many videos to download from " ++ group_name group ++ " (0 to skip): ".

(** From [os.makedirs] to the end of the first pass. *)
Definition count_media (fuel : nat) (group : Group) : M W unit :=
  call (os_makedirs env (group_dir group)) ;;
  logging INFO (Fetching_messages (group_name group)) ;;
  assign offset_id 0 ;;
  assign photo_count 0 ;;
  assign video_count 0 ;;
  first_pass fuel group ;;
  photos <- read photo_count ;;
  videos <- read video_count ;;
  logging INFO (Found photos videos (group_name group)).

(** The two prompts and
    [download_photos = min(download_photos, photo_count)],
    [download_videos = min(download_videos, video_count)]. *)
Definition ask_quota (group : Group) : M W unit :=
  answer <- call (input_int env (photos_prompt group)) ;;
  assign requested_photos answer ;;
  answer <- call (input_int env (videos_prompt group)) ;;
  assign requested_videos answer ;;
  requested <- read requested_photos ;;
  available <- read photo_count ;;
  assign download_photos (Z.min requested available) ;;
  requested <- read requested_videos ;;
  available <- read video_count ;;
  assign download_videos (Z.min requested available) ;;
  photos <- read download_photos ;;
  videos <- read download_videos ;;
  logging INFO (Downloading photos videos (group_name group)).
End Counting.

Definition is_photo (m : Media) : bool :=
  match m with MessageMediaPhoto => true | _ => false end.

(** [file_name] where a log line or a call formats it. *)
Definition path_of (file_name : option string) : string :=
  match file_name with Some path => path | None => "None" end.

(** ** bot3.py: the sequential fetch *)

Module Bot3.
Section Script.
Context {W : Type} (env : Env W).

(** [post_media_to_group(client, target_group, media_path)] *)
Definition post_media_to_group (target_group media_path : string) : M W unit :=
  emit (Post_called target_group media_path) ;;
  try_except
    (call (send_file env target_group media_path) ;;
     logging INFO (Successfully_sent media_path target_group))
    (fun e => logging ERROR (Failed_to_send media_path target_group e)).

(** [file_name = await message.download_media(file=group_dir)] *)
Definition download (message : Message) (dir : string) : M W (option string) :=
  emit (Download_started (msg_id message) dir) ;;
  call (download_media env message dir).

(** [os.path.exists(file_name)]; on [None] it raises [TypeError]. *)
Definition path_exists (file_name : option string) : M W bool :=
  match file_name with
  | None => raise TypeError
  | Some path => peek (os_path_exists env path)
  end.

(** The body of [for message in messages:] in the second pass
    (lines 123-152). *)
Definition fetch_message (dir target_group : string) (message : Message)
  : M W unit :=
  match media message with
  | None => ret tt
  | Some m =>
      downloaded <- read downloaded_photos ;;
      wanted <- read download_photos ;;
      if is_photo m && (downloaded <? wanted)%Z then
        file_name <- download message dir ;;
        found <- path_exists file_name ;;
        if found then logging INFO (Already_exists (path_of file_name))
        else
          n <- read downloaded_photos ;;
          assign downloaded_photos (n + 1) ;;
          logging INFO (Downloaded_photo (path_of file_name)) ;;
          post_media_to_group target_group (path_of file_name)
      else
        match m with
        | MessageMediaDocument doc =>
            mime <- match doc with
                    | Some d => ret (mime_type d)
                    | None => raise AttributeError
                    end ;;
            downloaded <- read downloaded_videos ;;
            wanted <- read download_videos ;;
            if contains "video" mime && (downloaded <? wanted)%Z then
              file_name <- download message dir ;;
              found <- path_exists file_name ;;
              if found then logging INFO (Already_exists (path_of file_name))
              else
                n <- read downloaded_videos ;;
                assign downloaded_videos (n + 1) ;;
                logging INFO (Downloaded_video (path_of file_name)) ;;
                post_media_to_group target_group (path_of file_name)
            else ret tt
        | _ => ret tt
        end
  end.

(** The second [while True:] loop (lines 117-155). *)
Fixpoint fetch_pages (fuel : nat) (group : Group) (target_group : string)
  : M W unit :=
  match fuel with
  | O => out_of_fuel
  | S fuel' =>
      offset <- read offset_id ;;
      messages <- call (get_messages env (group_id group) offset limit) ;;
      match messages with
      | [] => ret tt
      | _ :: _ =>
          for_each (fetch_message (group_dir group) target_group) messages ;;
          assign offset_id (last_id messages) ;;
          fetch_pages fuel' group target_group
      end
  end.

(** [# Second pass], from [downloaded_photos = 0] on. *)
Definition second_pass (fuel : nat) (group : Group) (target_group : string)
  : M W unit :=
  assign downloaded_photos 0 ;;
  assign downloaded_videos 0 ;;
  assign offset_id 0 ;;
  fetch_pages fuel group target_group.

(** The body of [for group in selected_groups:], not yet guarded. *)
Definition harvest_body (fuel : nat) (group : Group) (target_group : string)
  : M W unit :=
  count_media env fuel group ;;
  ask_quota env group ;;
  second_pass fuel group target_group ;;
  logging INFO (Completed (group_name group)).

(** [try: ... except Exception as e: logging.error(...)] around it. *)
Definition harvest_group (fuel : nat) (target_group : string) (group : Group)
  : M W unit :=
  try_except
    (harvest_body fuel group target_group)
    (fun e => logging ERROR (Error_harvesting (group_name group) e)).

(** [harvest_and_post_media], from the loop over the selected groups on;
    the prompts that choose [selected_groups] and [target_group_input]
    come before it. *)
Definition harvest_and_post_media (fuel : nat) (target_group : string)
    (selected_groups : list Group) : M W unit :=
  for_each (harvest_group fuel target_group) selected_groups.
End Script.
End Bot3.

(** ** bot4.py: the concurrent fetch *)

Module Bot4.

Inductive Kind := Photo | Video.

(** Where the coroutine [download_and_post(message)] stands: not yet past
    [async with semaphore], suspended in [await message.download_media(..)],
    returned, or ended by an exception. *)
Inductive Task :=
| Waiting
| In_download (kind : Kind)
| Finished
| Failed (e : Exn).

(** The semaphore and the tasks of one [download_and_post_media] call; task
    [i] runs [download_and_post(messages[i])]. *)
Record Batch := { semaphore : nat; tasks : list Task }.

Definition settled (t : Task) : bool :=
  match t with Finished | Failed _ => true | _ => false end.

Definition too_long (attr : Attribute) : bool :=
  match duration attr with
  | Some seconds => (seconds >? max_video_duration)%Z
  | None => false
  end.

(** [file_name and ...] *)
Definition truthy (file_name : option string) : bool :=
  match file_name with
  | Some path => negb (path =? "")%string
  | None => false
  end.

Section Script.
Context {W : Type} (env : Env W).

(** bot4.py calls [post_media_to_group] but neither defines nor imports
    it: evaluating the name raises [NameError]. *)
Definition post_media_to_group (target_group media_path : string) : M W unit :=
  raise (NameError "post_media_to_group").

(** [download_and_post] from the semaphore to its first suspension: it
    either returns ([None]) or is left waiting for a download. The counters
    it reads are the [nonlocal] ones of the enclosing call. *)
Definition start_task (dir : string) (message : Message) : M W (option Kind) :=
  match media message with
  | None => ret None
  | Some m =>
      downloaded <- read downloaded_photos ;;
      wanted <- read download_photos ;;
      if is_photo m && (downloaded <? wanted)%Z then
        emit (Download_started (msg_id message) dir) ;;
        ret (Some Photo)
      else
        match m with
        | MessageMediaDocument doc =>
            d <- match doc with
                 | Some d => ret d
                 | None => raise AttributeError
                 end ;;
            downloaded <- read downloaded_videos ;;
            wanted <- read download_videos ;;
            if contains "video" (mime_type d) && (downloaded <? wanted)%Z then
              match List.find too_long (attributes d) with
              | Some attr =>
                  logging WARNING
                    (Skipped_long_video (default 0 (duration attr))) ;;
                  ret None
              | None =>
                  emit (Download_started (msg_id message) dir) ;;
                  ret (Some Video)
              end
            else ret None
        | _ => ret None
        end
  end.

(** [download_and_post] from the moment its download ends. *)
Definition finish_task (dir target_group : string) (message : Message)
    (kind : Kind) : M W unit :=
  file_name <- call (download_media env message dir) ;;
  found <- match file_name with
           | Some path => peek (os_path_exists env path)
           | None => ret false
           end ;;
  if truthy file_name && negb found then
    match kind with
    | Photo =>
        n <- read downloaded_photos ;;
        assign downloaded_photos (n + 1) ;;
        logging INFO (Downloaded_photo (path_of file_name)) ;;
        post_media_to_group target_group (path_of file_name)
    | Video =>
        n <- read downloaded_videos ;;
        assign downloaded_videos (n + 1) ;;
        logging INFO (Downloaded_video (path_of file_name)) ;;
        post_media_to_group target_group (path_of file_name)
    end
  else ret tt.

(** The event loop runs task [i] up to its next suspension. A task that
    cannot move (blocked on the semaphore, or over) stays as it is. *)
Definition advance (dir target_group : string) (messages : list Message)
    (i : nat) (b : Batch) : M W Batch :=
  match messages !! i, tasks b !! i with
  | Some message, Some Waiting =>
      match semaphore b with
      | O => ret b
      | S free =>
          r <- attempt (start_task dir message) ;;
          ret match r with
              | Returns (Some kind) =>
                  {| semaphore := free;
                     tasks := <[i := In_download kind]> (tasks b) |}
              | Returns None =>
                  {| semaphore := S free;
                     tasks := <[i := Finished]> (tasks b) |}
              | Raises e =>
                  {| semaphore := S free;
                     tasks := <[i := Failed e]> (tasks b) |}
              end
      end
  | Some message, Some (In_download kind) =>
      r <- attempt (finish_task dir target_group message kind) ;;
      ret {| semaphore := S (semaphore b);
             tasks := <[i := match r with
                             | Returns _ => Finished
                             | Raises e => Failed e
                             end]> (tasks b) |}
  | _, _ => ret b
  end.

(** The steps the event loop makes on the tasks of a batch, in the order
    [schedule], with nobody waiting for their results: no task is
    cancelled, and a task that fails stops no other. *)
Fixpoint run_ready (dir target_group : string) (messages : list Message)
    (schedule : list nat) (b : Batch) : M W Batch :=
  match schedule with
  | [] => ret b
  | i :: rest =>
      b' <- advance dir target_group messages i b ;;
      run_ready dir target_group messages rest b'
  end.

(** [await asyncio.gather( *tasks )], called without [return_exceptions]:
    the event loop advances the tasks in the order [schedule], up to the
    moment the caller runs again. When every task has returned, [gather]
    returns. The exception of the first task to fail is the one the caller
    gets, but not at once: the failed coroutine has released its permit,
    which wakes a waiting sibling, and the tasks that are ready run before
    the caller does. So the rest of [schedule] is run, whatever else fails
    in it, and then the first exception is raised. No task is cancelled:
    those still pending at that moment stay on the loop, and the steps they
    make while the script awaits something else are steps of no call of
    [gather]. A schedule that ends with tasks pending and none failed
    leaves [gather] waiting. *)
Fixpoint gather (dir target_group : string) (messages : list Message)
    (schedule : list nat) (b : Batch) : M W Batch :=
  match schedule with
  | [] => if forallb settled (tasks b) then ret b else out_of_fuel
  | i :: rest =>
      if forallb settled (tasks b) then ret b
      else
        b' <- advance dir target_group messages i b ;;
        match tasks b' !! i with
        | Some (Failed e) =>
            run_ready dir target_group messages rest b' ;;
            raise e
        | _ => gather dir target_group messages rest b'
        end
  end.

(** The frame of a [download_and_post_media] call: its parameters. *)
Definition parameters (downloaded_photos' downloaded_videos'
    download_photos' download_videos' : Z) : Locals :=
  <[downloaded_photos := downloaded_photos']>
    (<[downloaded_videos := downloaded_videos']>
       (<[download_photos := download_photos']>
          (<[download_videos := download_videos']> no_locals))).

(** The body of [download_and_post_media], run on its own frame. *)
Definition run_batch (dir target_group : string) (messages : list Message)
  : M W Batch :=
  schedule <- peek (event_loop env messages) ;;
  gather dir target_group messages schedule
    {| semaphore := 5; tasks := map (fun _ => Waiting) messages |}.

(** [download_and_post_media(client, group_dir, target_group_input,
    messages, downloaded_photos, downloaded_videos, download_photos,
    download_videos)]: the four integers are passed by value. *)
Definition download_and_post_media (dir target_group : string)
    (messages : list Message)
    (downloaded_photos' downloaded_videos'
     download_photos' download_videos' : Z) : M W unit :=
  with_frame
    (parameters downloaded_photos' downloaded_videos'
                download_photos' download_videos')
    (run_batch dir target_group messages ;; ret tt).

(** The second [while True:] loop (lines 217-225). *)
Fixpoint fetch_pages (fuel : nat) (group : Group) (target_group : string)
  : M W unit :=
  match fuel with
  | O => out_of_fuel
  | S fuel' =>
      offset <- read offset_id ;;
      messages <- call (get_messages env (group_id group) offset limit) ;;
      match messages with
      | [] => ret tt
      | _ :: _ =>
          dp <- read downloaded_photos ;;
          dv <- read downloaded_videos ;;
          qp <- read download_photos ;;
          qv <- read download_videos ;;
          download_and_post_media (group_dir group) target_group messages
            dp dv qp qv ;;
          assign offset_id (last_id messages) ;;
          fetch_pages fuel' group target_group
      end
  end.

(** [# Second pass], from [downloaded_photos = 0] on. *)
Definition second_pass (fuel : nat) (group : Group) (target_group : string)
  : M W unit :=
  assign downloaded_photos 0 ;;
  assign downloaded_videos 0 ;;
  assign offset_id 0 ;;
  fetch_pages fuel group target_group.

Definition harvest_body (fuel : nat) (group : Group) (target_group : string)
  : M W unit :=
  count_media env fuel group ;;
  ask_quota env group ;;
  second_pass fuel group target_group ;;
  logging INFO (Completed (group_name group)).

Definition harvest_group (fuel : nat) (target_group : string) (group : Group)
  : M W unit :=
  try_except
    (harvest_body fuel group target_group)
    (fun e => logging ERROR (Error_harvesting (group_name group) e)).

(** [harvest_and_post_media], from the loop over the selected groups on. *)
Definition harvest_and_post_media (fuel : nat) (target_group : string)
    (selected_groups : list Group) : M W unit :=
  for_each (harvest_group fuel target_group) selected_groups.
End Script.
End Bot4.

(** ** A simulated environment

    A disk, an operator, a chat server with Telethon's pagination
    ([offset_id = 0] starts at the newest message, otherwise the messages
    older than [offset_id]) and an event loop that visits the tasks of a
    batch round-robin. Used to run the scripts on concrete inputs. *)

Module Sim.

Record World := {
  disk : list string;                (* the files that exist *)
  typed : list (Reply Z);            (* what the operator will type *)
  chats : list (Z * list Message);   (* history per group, newest first *)
  page_size : nat;                   (* messages the server hands out at once *)
  broken : list Z;                   (* messages whose download raises *)
  locked : list string               (* directories that cannot be created *)
}.

Definition on_disk (path : string) (w : World) : bool :=
  existsb (String.eqb path) (disk w).

Definition with_disk (d : list string) (w : World) : World :=
  {| disk := d; typed := typed w; chats := chats w;
     page_size := page_size w; broken := broken w; locked := locked w |}.

Definition with_typed (t : list (Reply Z)) (w : World) : World :=
  {| disk := disk w; typed := t; chats := chats w;
     page_size := page_size w; broken := broken w; locked := locked w |}.

Definition makedirs (dir : string) (w : World) : Reply unit * World :=
  if existsb (String.eqb dir) (locked w) then (Raises OSError, w)
  else (Returns tt, w).

Fixpoint history_of (gid : Z) (cs : list (Z * list Message))
  : option (list Message) :=
  match cs with
  | [] => None
  | (g, h) :: rest => if (g =? gid)%Z then Some h else history_of gid rest
  end.

Definition older_than (offset : Z) (m : Message) : bool :=
  (offset =? 0)%Z || (msg_id m <? offset)%Z.

Definition messages (gid offset lim : Z) (w : World)
  : Reply (list Message) * World :=
  match history_of gid (chats w) with
  | None => (Raises RPCError, w)
  | Some h =>
      (Returns (firstn (Nat.min (page_size w) (Z.to_nat lim))
                       (List.filter (older_than offset) h)), w)
  end.

Definition answer (prompt : string) (w : World) : Reply Z * World :=
  match typed w with
  | [] => (Raises ValueError, w)
  | r :: rest => (r, with_typed rest w)
  end.

Definition file_of (dir : string) (message : Z) : string :=
  dir ++ "/" ++
  String (Ascii.ascii_of_nat (48 + Z.to_nat (message mod 10))) ".bin".

(** A download writes the file and returns its path. *)
Definition download (message : Message) (dir : string) (w : World)
  : Reply (option string) * World :=
  if existsb (Z.eqb (msg_id message)) (broken w) then (Raises RPCError, w)
  else
    match media message with
    | None => (Returns None, w)
    | Some _ =>
        let path := file_of dir (msg_id message) in
        (Returns (Some path), with_disk (path :: disk w) w)
    end.

Definition send (target path : string) (w : World) : Reply unit * World :=
  (Returns tt, w).

Definition round_robin (ms : list Message) (w : World) : list nat :=
  let n := length ms in
  List.concat (repeat (seq 0 n) (n + 2)).

Definition env : Env World := {|
  os_makedirs := makedirs;
  get_messages := messages;
  input_int := answer;
  download_media := download;
  os_path_exists := on_disk;
  send_file := send;
  event_loop := round_robin
|}.

(** The same, but the files vanish before [os.path.exists] looks. *)
Definition forgetful_download (message : Message) (dir : string) (w : World)
  : Reply (option string) * World :=
  (fst (download message dir w), w).

Definition forgetful : Env World := {|
  os_makedirs := makedirs;
  get_messages := messages;
  input_int := answer;
  download_media := forgetful_download;
  os_path_exists := on_disk;
  send_file := send;
  event_loop := round_robin
|}.

(** A disk on which every file a download names is found. *)
Definition rerun : Env World := {|
  os_makedirs := makedirs;
  get_messages := messages;
  input_int := answer;
  download_media := download;
  os_path_exists := fun _ _ => true;
  send_file := send;
  event_loop := round_robin
|}.

Definition photo (i : Z) : Message :=
  {| msg_id := i; media := Some MessageMediaPhoto |}.

Definition video (i : Z) (seconds : option Z) : Message :=
  {| msg_id := i;
     media := Some (MessageMediaDocument
                      (Some {| mime_type := "video/mp4";
                               attributes := [ {| duration := seconds |} ] |})) |}.

Definition text (i : Z) : Message := {| msg_id := i; media := None |}.

Definition start (w : World) : State World :=
  {| world := w; trace := []; vars := no_locals |}.

Definition counters {W} (st : State W) : Z * Z :=
  (vars st downloaded_photos, vars st downloaded_videos).

End Sim.


(** * The rest of the scripts

    The prompts that come before the loop over the groups, [join_groups]
    and the credentials file of bot4.py. *)

From Stdlib Require Import Ascii.
From stdpp Require Import gmap strings.
Local Open Scope Z_scope.
Local Open Scope string_scope.
Local Open Scope list_scope.
Local Open Scope py_scope.

(** [s.split(",")]: the pieces between the commas; never an empty list. *)
Fixpoint split_commas (s : string) : list string :=
  match s with
  | EmptyString => [""]
  | String c rest =>
      if Ascii.eqb c ","%char then "" :: split_commas rest
      else
        match split_commas rest with
        | piece :: pieces => String c piece :: pieces
        | [] => [String c ""]
        end
  end.

(** An entry of [client.get_dialogs()]. *)
Record Dialog := {
  dialog_name : string;
  dialog_id : Z;
  is_group : bool;
  is_channel : bool
}.

(** A value and the content of a JSON file, as far as the scripts tell
    them apart: a string, [null] or something else; an object, another
    JSON value (which is either truthy or not) or no JSON at all. *)
Inductive Value :=
| Str (s : string)
| Null
| Other_value.

Inductive Content :=
| Dict (d : gmap string Value)
| Other_json (truthy : bool)
| Not_json.

(** What else the scripts call, over a world [W]:
    - [await client.get_dialogs()];
    - [input(prompt)];
    - [s.strip()], [s.lower()] and [int(s)] on strings;
    - [await client(JoinChannelRequest(item))];
    - [os.path.exists(CREDENTIALS_FILE)] with [open(.., "r")] and the
      parsing of [json.load], and [open(.., "w")] with [json.dump]. *)
Record Host (W : Type) := {
  get_dialogs : W -> Reply (list Dialog) * W;
  input : string -> W -> Reply string * W;
  strip : string -> string;
  lower : string -> string;
  int_of_str : string -> Reply Z;
  join_channel : string -> W -> Reply unit * W;
  read_credentials : W -> Reply (option Content) * W;
  write_credentials : Content -> W -> Reply unit * W
}.
Arguments get_dialogs {W} _ _.
Arguments input {W} _ _ _.
Arguments strip {W} _ _.
Arguments lower {W} _ _.
Arguments int_of_str {W} _ _.
Arguments join_channel {W} _ _ _.
Arguments read_credentials {W} _ _.
Arguments write_credentials {W} _ _ _.

(** ** Choosing the groups (bot3.py lines 40-66, bot4.py lines 137-166) *)

(** [[dialog for dialog in dialogs if dialog.is_group or dialog.is_channel]] *)
Definition groups_of (dialogs : list Dialog) : list Dialog :=
  List.filter (fun dialog => is_group dialog || is_channel dialog) dialogs.


(** [[groups[idx] for idx in selected_indices if 0 <= idx < len(groups)]] *)
Definition selected_groups (groups : list Dialog) (selected_indices : list Z)
  : list Dialog :=
  flat_map
    (fun idx =>
       if (0 <=? idx)%Z && (idx <? Z.of_nat (length groups))%Z
       then match groups !! Z.to_nat idx with
            | Some group => [group]
            | None => []
            end
       else [])
    selected_indices.

(** [group.name] and [group.id], all the loop uses of a dialog. *)
Definition as_group (dialog : Dialog) : Group :=
  {| group_name := dialog_name dialog; group_id := dialog_id dialog |}.

(** How [harvest_and_post_media] ends: one of its two early returns (each
    after a [logging.error] of its own), or after the loop. *)
Inductive Harvest :=
| Not_a_member
| No_valid_groups
| Harvested.

Definition numbers_prompt : string :=
  "Enter the numbers of the groups you want to harvest media from (comma-separated): ".

Section Choosing.
Context {W : Type} (host : Host W).

(** [[int(idx.strip()) - 1 for idx in selected_indices]]: the first piece
    that is not an integer raises. *)
Fixpoint indices_of (pieces : list string) : M W (list Z) :=
  match pieces with
  | [] => ret []
  | idx :: rest =>
      number <- call (fun w => (int_of_str host (strip host idx), w)) ;;
      indices <- indices_of rest ;;
      ret (number - 1 :: indices)
  end.

(** From [get_dialogs] to the groups the loop will go through, or to one
    of the two early returns. The [print] lines are left out. *)
Definition choose_groups : M W (Harvest + list Dialog) :=
  dialogs <- call (get_dialogs host) ;;
  match groups_of dialogs with
  | [] => ret (inl Not_a_member)
  | (_ :: _) as groups =>
      line <- call (input host numbers_prompt) ;;
      selected_indices <- indices_of (split_commas line) ;;
      match selected_groups groups selected_indices with
      | [] => ret (inl No_valid_groups)
      | (_ :: _) as selected => ret (inr selected)
      end
  end.
End Choosing.

(** The whole of [harvest_and_post_media]: bot3.py asks for the target
    group before anything else, bot4.py once the groups are chosen. *)
Module Script3.
Section Script.
Context {W : Type} (env : Env W) (host : Host W).

Definition target_prompt : string :=
  "Enter the target group username or ID to post media to: ".

Definition harvest_and_post_media (fuel : nat) : M W Harvest :=
  target_group_input <- call (input host target_prompt) ;;
  chosen <- choose_groups host ;;
  match chosen with
  | inl early => ret early
  | inr selected =>
      Bot3.harvest_and_post_media env fuel (strip host target_group_input)
        (map as_group selected) ;;
      ret Harvested
  end.
End Script.
End Script3.

Module Script4.

(** What [join_groups] logs for an item. *)
Inductive JoinLog :=
| Joined_username (item : string)
| Joined_invite_link (item : string)
| Failed_to_join (item : string) (e : Exn).

(** The exceptions of the credentials functions: [KeyError] of a missing
    key, the error of [json.load] on a file that is not JSON, the
    [TypeError] of subscripting a value that is no dictionary, and what
    [input] or the file raised. *)
Inductive CredError :=
| KeyError (key : string)
| JSONDecodeError
| Not_subscriptable
| Raised_by_host (e : Exn).

Inductive Result (A : Type) :=
| Gives (a : A)
| Fails (e : CredError).
Arguments Gives {A} a.
Arguments Fails {A} e.

Definition CREDENTIALS_FILE : string := "credentials.json".

Definition target_prompt : string :=
  "Enter the username or invite link of the target group where media will be posted: ".

Definition join_prompt : string :=
  "Enter the group invite links or usernames (comma-separated): ".

(** The dictionary [save_credentials] dumps. *)
Definition credentials_dict (api_id api_hash session_name phone_number : Value)
  : gmap string Value :=
  <["API_ID" := api_id]>
    (<["API_HASH" := api_hash]>
       (<["SESSION_NAME" := session_name]>
          (<["PHONE_NUMBER" := phone_number]> ∅))).

(** [if saved_credentials:] *)
Definition truthy (saved : option Content) : bool :=
  match saved with
  | Some (Dict d) => negb (bool_decide (d = ∅))
  | Some (Other_json t) => t
  | Some Not_json => false
  | None => false
  end.

Section Script.
Context {W : Type} (env : Env W) (host : Host W).

Definition harvest_and_post_media (fuel : nat) : M W Harvest :=
  chosen <- choose_groups host ;;
  match chosen with
  | inl early => ret early
  | inr selected =>
      target_group_input <- call (input host target_prompt) ;;
      Bot4.harvest_and_post_media env fuel (strip host target_group_input)
        (map as_group selected) ;;
      ret Harvested
  end.

(** The loop of [join_groups]: both branches of the test on ['@'] send the
    same request; every exception is caught and logged. *)
Fixpoint join_each (items : list string) (w : W) : list JoinLog * W :=
  match items with
  | [] => ([], w)
  | item :: rest =>
      let (r, w1) := join_channel host item w in
      let line :=
        match r with
        | Returns _ =>
            if String.prefix "@" item then Joined_username item
            else Joined_invite_link item
        | Raises e => Failed_to_join item e
        end in
      let (lines, w2) := join_each rest w1 in
      (line :: lines, w2)
  end.

(** [join_groups(client)], with the lines it logs as its result. *)
Definition join_groups (w : W) : Reply (list JoinLog) * W :=
  let (r, w1) := input host join_prompt w in
  match r with
  | Raises e => (Raises e, w1)
  | Returns line =>
      let (lines, w2) :=
        join_each (map (strip host) (split_commas line)) w1 in
      (Returns lines, w2)
  end.

(** [save_credentials(api_id, api_hash, session_name, phone_number)]; its
    [logging.info] line is left out. *)
Definition save_credentials (api_id api_hash session_name phone_number : Value)
    (w : W) : Result unit * W :=
  let (r, w1) :=
    write_credentials host
      (Dict (credentials_dict api_id api_hash session_name phone_number)) w in
  match r with
  | Returns _ => (Gives tt, w1)
  | Raises e => (Fails (Raised_by_host e), w1)
  end.

(** [load_credentials()]: the parsed file, or [None] when there is none. *)
Definition load_credentials (w : W) : Result (option Content) * W :=
  let (r, w1) := read_credentials host w in
  match r with
  | Raises e => (Fails (Raised_by_host e), w1)
  | Returns None => (Gives None, w1)
  | Returns (Some Not_json) => (Fails JSONDecodeError, w1)
  | Returns (Some content) => (Gives (Some content), w1)
  end.

(** [answer.strip().lower() == "yes"] *)
Definition says_yes (answer : string) : bool :=
  String.eqb (lower host (strip host answer)) "yes".

(** The tuple [get_credentials] builds from the saved dictionary. *)
Definition saved_tuple (saved : Content)
  : Result (Value * Value * Value * Value) :=
  match saved with
  | Dict d =>
      match d !! "API_ID" with
      | None => Fails (KeyError "API_ID")
      | Some api_id =>
          match d !! "API_HASH" with
          | None => Fails (KeyError "API_HASH")
          | Some api_hash =>
              match d !! "SESSION_NAME" with
              | None => Fails (KeyError "SESSION_NAME")
              | Some session_name =>
                  Gives (api_id, api_hash, session_name,
                         default Null (d !! "PHONE_NUMBER"))
              end
          end
      end
  | _ => Fails Not_subscriptable
  end.

(** One [input(prompt)], with what to do with the line. *)
Definition ask {A} (prompt : string) (k : string -> W -> Result A * W)
    (w : W) : Result A * W :=
  let (r, w1) := input host prompt w in
  match r with
  | Raises e => (Fails (Raised_by_host e), w1)
  | Returns line => k line w1
  end.

(** [# Prompt for new credentials], to the end of [get_credentials]. *)
Definition new_credentials : W -> Result (Value * Value * Value * Value) * W :=
  ask "Enter your API ID: " (fun api_id =>
  ask "Enter your API Hash: " (fun api_hash =>
  ask "Enter a session name: " (fun session_name =>
  ask "Enter your phone number (with country code, e.g., +123456789): "
    (fun phone_number =>
  ask "Do you want to save these credentials for future use? (yes/no): "
    (fun save w =>
       let typed := (Str (strip host api_id), Str (strip host api_hash),
                     Str (strip host session_name),
                     Str (strip host phone_number)) in
       if says_yes save then
         let (r, w1) :=
           save_credentials (Str (strip host api_id))
             (Str (strip host api_hash)) (Str (strip host session_name))
             (Str (strip host phone_number)) w in
         match r with
         | Gives _ => (Gives typed, w1)
         | Fails e => (Fails e, w1)
         end
       else (Gives typed, w)))))).

(** [get_credentials()] *)
Definition get_credentials (w : W)
  : Result (Value * Value * Value * Value) * W :=
  let (r, w1) := load_credentials w in
  match r with
  | Fails e => (Fails e, w1)
  | Gives saved_credentials =>
      if truthy saved_credentials then
        ask "Saved credentials found. Do you want to use them? (yes/no): "
          (fun use_saved w2 =>
             if says_yes use_saved then
               (match saved_credentials with
                | Some saved => saved_tuple saved
                | None => Fails Not_subscriptable
                end, w2)
             else new_credentials w2)
          w1
      else new_credentials w1
  end.
End Script.
End Script4.

(** ** Concrete runs *)

Module Scenario.
Import Sim.

Definition channel : Group := {| group_name := "g"; group_id := 7 |}.

(** Three messages served two per page; the video lasts 700 seconds. The
    operator asks for five of each. *)
Definition mixed : World := {|
  disk := [];
  typed := [Returns 5; Returns 5];
  chats := [(7, [photo 3; video 2 (Some 700); photo 1])];
  page_size := 2;
  broken := [];
  locked := []
|}.

Definition mixed_pages : list (list Message) :=
  [[photo 3; video 2 (Some 700)]; [photo 1]].

(** One photo; the operator types -1 at the photo prompt. *)
Definition negative_request : World := {|
  disk := [];
  typed := [Returns (-1); Returns 0];
  chats := [(7, [photo 1])];
  page_size := 100;
  broken := [];
  locked := []
|}.

(** The states a run on [channel] goes through. *)
Definition counted (env : Env World) (w : World) : State World :=
  snd (count_media env 5 channel (start w)).

Definition asked (env : Env World) (w : World) : State World :=
  snd (ask_quota env channel (counted env w)).

Definition fetched (env : Env World) (w : World) : State World :=
  snd (Bot3.second_pass env 5 channel "t" (asked env w)).

Definition harvested (env : Env World) (w : World) : State World :=
  snd (Bot3.harvest_group env 5 "t" channel (start w)).

(** In the middle of a fetch pass: counters at zero, quotas [qp] and [qv]. *)
Definition fetching (qp qv : Z) (w : World) : State World :=
  {| world := w; trace := []; vars := Bot4.parameters 0 0 qp qv |}.

(** The same channel when the three files are on the disk already. *)
Definition already : World :=
  with_disk ["media/g/3.bin"; "media/g/2.bin"; "media/g/1.bin"] mixed.

End Scenario.

Module Scenario2.
Import Sim.

Definition first_channel : Group := {| group_name := "a"; group_id := 1 |}.
Definition second_channel : Group := {| group_name := "b"; group_id := 2 |}.

(** Two groups; the directory of the first cannot be created. *)
Definition locked_first : World := {|
  disk := [];
  typed := [Returns 1; Returns 0];
  chats := [(1, [photo 9]); (2, [photo 4])];
  page_size := 100;
  broken := [];
  locked := ["media/a"]
|}.

(** Two pages of one photo each; the download of the first photo raises. *)
Definition broken_first : World := {|
  disk := [];
  typed := [Returns 2; Returns 0];
  chats := [(7, [photo 2; photo 1])];
  page_size := 1;
  broken := [2];
  locked := []
|}.

(** A page of two photos. *)
Definition two_photos : list Message := [photo 2; photo 1].

(** Both coroutines of that page suspended in their download. *)
Definition both_in_download : Bot4.Batch :=
  {| Bot4.semaphore := 3;
     Bot4.tasks := [Bot4.In_download Bot4.Photo; Bot4.In_download Bot4.Photo] |}.

End Scenario2.

(** ** A simulated terminal, account and credentials file *)

Module Desk.

Record Desk := {
  lines : list string;          (* what the operator will type *)
  file : option Content;        (* credentials.json *)
  listed : list Dialog;         (* the dialogs of the account *)
  refused : list string         (* the groups that cannot be joined *)
}.

Definition World : Type := Desk * Sim.World.

Definition with_lines (l : list string) (d : Desk) : Desk :=
  {| lines := l; file := file d; listed := listed d; refused := refused d |}.

Definition with_file (f : option Content) (d : Desk) : Desk :=
  {| lines := lines d; file := f; listed := listed d; refused := refused d |}.

Definition type_line (prompt : string) (w : World) : Reply string * World :=
  match lines (fst w) with
  | [] => (Raises OSError, w)
  | l :: rest => (Returns l, (with_lines rest (fst w), snd w))
  end.

Fixpoint lstrip (s : string) : string :=
  match s with
  | String c rest => if Ascii.eqb c " " then lstrip rest else s
  | EmptyString => s
  end.

Fixpoint rstrip (s : string) : string :=
  match s with
  | EmptyString => EmptyString
  | String c rest =>
      let rest' := rstrip rest in
      if Ascii.eqb c " " && String.eqb rest' "" then "" else String c rest'
  end.

Definition spaces_off (s : string) : string := rstrip (lstrip s).

Definition lower_char (c : ascii) : ascii :=
  let n := Ascii.nat_of_ascii c in
  if (65 <=? n)%nat && (n <=? 90)%nat then Ascii.ascii_of_nat (n + 32) else c.

Fixpoint lower_case (s : string) : string :=
  match s with
  | EmptyString => EmptyString
  | String c rest => String (lower_char c) (lower_case rest)
  end.

Fixpoint digits (acc : Z) (s : string) : option Z :=
  match s with
  | EmptyString => Some acc
  | String c rest =>
      let n := Ascii.nat_of_ascii c in
      if (48 <=? n)%nat && (n <=? 57)%nat
      then digits (10 * acc + Z.of_nat (n - 48)) rest
      else None
  end.

Definition decimal (s : string) : Reply Z :=
  match s with
  | EmptyString => Raises ValueError
  | String c rest =>
      if Ascii.eqb c "-" then
        match rest, digits 0 rest with
        | String _ _, Some n => Returns (- n)
        | _, _ => Raises ValueError
        end
      else
        match digits 0 s with
        | Some n => Returns n
        | None => Raises ValueError
        end
  end.

Definition join (item : string) (w : World) : Reply unit * World :=
  if existsb (String.eqb item) (refused (fst w)) then (Raises RPCError, w)
  else (Returns tt, w).

Definition host : Host World := {|
  get_dialogs := fun w => (Returns (listed (fst w)), w);
  input := type_line;
  strip := spaces_off;
  lower := lower_case;
  int_of_str := decimal;
  join_channel := join;
  read_credentials := fun w => (Returns (file (fst w)), w);
  write_credentials := fun c w => (Returns tt, (with_file (Some c) (fst w), snd w))
|}.

(** The environment of the fetch, on the second half of the world. *)
Definition on_snd {A} (f : Sim.World -> Reply A * Sim.World) (w : World)
  : Reply A * World :=
  let (r, s) := f (snd w) in (r, (fst w, s)).

Definition env : Env World := {|
  os_makedirs := fun dir => on_snd (Sim.makedirs dir);
  get_messages := fun gid offset lim => on_snd (Sim.messages gid offset lim);
  input_int := fun prompt => on_snd (Sim.answer prompt);
  download_media := fun message dir => on_snd (Sim.download message dir);
  os_path_exists := fun path w => Sim.on_disk path (snd w);
  send_file := fun target path => on_snd (Sim.send target path);
  event_loop := fun ms w => Sim.round_robin ms (snd w)
|}.

Definition chat : Dialog :=
  {| dialog_name := "friend"; dialog_id := 3;
     is_group := false; is_channel := false |}.

Definition club : Dialog :=
  {| dialog_name := "g"; dialog_id := 7;
     is_group := true; is_channel := false |}.

Definition news : Dialog :=
  {| dialog_name := "news"; dialog_id := 8;
     is_group := false; is_channel := true |}.

(** An account with a private chat, a group and a channel. *)
Definition desk (typed : list string) : Desk :=
  {| lines := typed; file := None; listed := [chat; club; news];
     refused := ["@closed"] |}.

Definition start (typed : list string) : State World :=
  {| world := (desk typed, Scenario.mixed); trace := []; vars := no_locals |}.

(** The credentials a run has saved. *)
Definition saved : Content :=
  Dict (Script4.credentials_dict (Str "12345") (Str "abc") (Str "me")
          (Str "+100")).

End Desk.

Module Desk2.
Import Sim.

(** The operator types 0 at both prompts. *)
Definition nothing_wanted : World := with_typed [Returns 0; Returns 0] Scenario.mixed.

(** The operator types a word at the photo prompt. *)
Definition word_typed : World := with_typed [Raises ValueError] Scenario.mixed.

(** Downloads that come back with no file name. *)
Definition silent : Env World := {|
  os_makedirs := makedirs;
  get_messages := messages;
  input_int := answer;
  download_media := fun _ _ w => (Returns None, w);
  os_path_exists := on_disk;
  send_file := send;
  event_loop := round_robin
|}.

(** A page with a photo and a text, and its batch when both are done. *)
Definition photo_and_text : list Message := [photo 3; text 2].

Definition both_finished : Bot4.Batch :=
  {| Bot4.semaphore := 5; Bot4.tasks := [Bot4.Finished; Bot4.Finished] |}.

(** A document whose content type is missing. *)
Definition bare_document : Message :=
  {| msg_id := 5; media := Some (MessageMediaDocument None) |}.

(** The first page of the channel. *)
Definition first_page : list Message := [photo 3; video 2 (Some 700)].

End Desk2.
(** * Properties

    The predicates the statements below are written with. *)

(** [preserves P m]: whatever [m] does (return, raise, run out of fuel), it
    leaves a state in which [P] holds again. *)
Definition preserves {W A} (P : State W -> Prop) (m : M W A) : Prop :=
  forall st, P st -> P (snd (m st)).

(** Photo and video as the counting pass classifies them: video by declared
    content type; the attributes are not looked at. *)
Definition is_photo_message (m : Message) : bool :=
  match media m with
  | Some MessageMediaPhoto => true
  | _ => false
  end.

Definition is_video_message (m : Message) : bool :=
  match media m with
  | Some (MessageMediaDocument (Some doc)) => contains "video" (mime_type doc)
  | _ => false
  end.

Definition tally (kind : Message -> bool) (messages : list Message) : Z :=
  Z.of_nat (length (List.filter kind messages)).

Section Pages.
Context {W : Type} (env : Env W).

(** The pages the server hands out for a group from [offset] on, up to
    the empty page that ends the history; each request starts at the id
    of the last message of the page before. *)
Inductive paged (gid : Z) : Z -> W -> list (list Message) -> W -> Prop :=
| paged_end offset w w' :
    get_messages env gid offset limit w = (Returns [], w') ->
    paged gid offset w [] w'
| paged_more offset w page w' pages w'' :
    get_messages env gid offset limit w = (Returns page, w') ->
    page <> [] ->
    paged gid (last_id page) w' pages w'' ->
    paged gid offset w (page :: pages) w''.

(** The state after counting [pages], against the state before. *)
Definition counted (pages : list (list Message)) (w' : W)
    (st st' : State W) : Prop :=
  world st' = w' /\
  trace st' = trace st /\
  vars st' photo_count =
    vars st photo_count + tally is_photo_message (concat pages) /\
  vars st' video_count =
    vars st video_count + tally is_video_message (concat pages).
End Pages.

(** The fetch pass started with the variables [f0]: it has touched the two
    counters and [offset_id] only, and each counter is within its quota, or
    at zero if the quota is negative. *)
Definition within_quota (f0 f : Locals) : Prop :=
  (forall x, x <> downloaded_photos -> x <> downloaded_videos ->
             x <> offset_id -> f x = f0 x) /\
  f downloaded_photos <= Z.max 0 (f0 download_photos) /\
  f downloaded_videos <= Z.max 0 (f0 download_videos).

(** The calls of [post_media_to_group] in a trace. *)
Definition is_post (ev : Event) : bool :=
  match ev with Post_called _ _ => true | _ => false end.

Definition posts (t : list Event) : list Event := List.filter is_post t.

(** The calls of [download_media] in a trace. *)
Definition is_download (ev : Event) : bool :=
  match ev with Download_started _ _ => true | _ => false end.

Definition downloads (t : list Event) : list Event := List.filter is_download t.

(** What is assumed of Telethon and of the disk where a statement says so:
    - a download that returns a path has left a file at that path;
    - a download removes no file;
    - every download returns the path of a file that was there before it
      (the files of an earlier run). *)
Definition materializes {W} (env : Env W) : Prop :=
  forall message dir w path w',
    download_media env message dir w = (Returns (Some path), w') ->
    os_path_exists env path w' = true.

Definition keeps_files {W} (env : Env W) : Prop :=
  forall message dir w path,
    os_path_exists env path w = true ->
    os_path_exists env path (snd (download_media env message dir w)) = true.

Definition files_all_exist {W} (env : Env W) : Prop :=
  forall message dir w path w',
    download_media env message dir w = (Returns (Some path), w') ->
    os_path_exists env path w = true.

(** Since the variables were [f] and the posts [n], nothing but [offset_id]
    has been assigned and nothing has been posted. *)
Definition idle {W} (f : Locals) (n : list Event) (st : State W) : Prop :=
  (forall x, x <> offset_id -> vars st x = f x) /\ posts (trace st) = n.

(** After the fetch pass of either script the counters are at zero, the
    quotas are what they were, and nothing was posted. *)
Definition nothing_counted {W} (st st' : State W) : Prop :=
  vars st' downloaded_photos = 0 /\
  vars st' downloaded_videos = 0 /\
  vars st' download_photos = vars st download_photos /\
  vars st' download_videos = vars st download_videos /\
  posts (trace st') = posts (trace st).

Section ByValue.
Context {W : Type} (env : Env W).

(** The second loop of bot4.py as claim C10 describes it: every page is
    handed the same four integers, those the caller held when the loop
    began. *)
Fixpoint fetch_pages_by_value (dp dv qp qv : Z) (fuel : nat) (group : Group)
    (target_group : string) : M W unit :=
  match fuel with
  | O => out_of_fuel
  | S fuel' =>
      offset <- read offset_id ;;
      messages <- call (get_messages env (group_id group) offset limit) ;;
      match messages with
      | [] => ret tt
      | _ :: _ =>
          Bot4.download_and_post_media env (group_dir group) target_group
            messages dp dv qp qv ;;
          assign offset_id (last_id messages) ;;
          fetch_pages_by_value dp dv qp qv fuel' group target_group
      end
  end.
End ByValue.

(** The error lines of a trace. *)
Definition is_error (ev : Event) : bool :=
  match ev with Log ERROR _ => true | _ => false end.

Definition errors (t : list Event) : list Event := List.filter is_error t.

(** ** Further predicates *)

(** The messages the fetch pass looks at twice: photos, and documents
    whose content type says video. *)
Definition is_wanted (m : Message) : bool :=
  is_photo_message m || is_video_message m.

(** The tasks of a batch that are suspended in a download, and those that
    have not started. *)
Definition is_in_download (t : Bot4.Task) : bool :=
  match t with Bot4.In_download _ => true | _ => false end.

Definition is_waiting (t : Bot4.Task) : bool :=
  match t with Bot4.Waiting => true | _ => false end.

Definition in_flight (b : Bot4.Batch) : nat :=
  length (List.filter is_in_download (Bot4.tasks b)).

Definition not_started (b : Bot4.Batch) : nat :=
  length (List.filter is_waiting (Bot4.tasks b)).

Definition has_failed (t : Bot4.Task) : bool :=
  match t with Bot4.Failed _ => true | _ => false end.

(** Both quotas are used up: no counter is below its quota. *)
Definition quotas_spent (f : Locals) : Prop :=
  f download_photos <= f downloaded_photos /\
  f download_videos <= f downloaded_videos.

(** Since the downloads were [n], the quotas have stayed used up and no
    download has been started. *)
Definition skipping {W} (n : list Event) (st : State W) : Prop :=
  quotas_spent (vars st) /\ downloads (trace st) = n.

Section Steps.
Context {W : Type} (env : Env W).

(** The steps the event loop makes on a batch, in the order [schedule],
    whether or not [gather] is still waiting for them. *)
Fixpoint steps (dir target_group : string) (messages : list Message)
    (schedule : list nat) (b : Bot4.Batch) : M W Bot4.Batch :=
  match schedule with
  | [] => ret b
  | i :: rest =>
      b' <- Bot4.advance env dir target_group messages i b ;;
      steps dir target_group messages rest b'
  end.
End Steps.

(** The download of message [i] of a page, as the trace records it. *)
Definition download_of (dir : string) (messages : list Message) (i : nat)
  : option Event :=
  match messages !! i with
  | Some m => Some (Download_started (msg_id m) dir)
  | None => None
  end.

(** The batch [run_batch] starts from. *)
Definition fresh_batch (messages : list Message) : Bot4.Batch :=
  {| Bot4.semaphore := 5;
     Bot4.tasks := map (fun _ => Bot4.Waiting) messages |}.

(** The world once a join request has been sent for each of [items], in
    order, whatever the answers were. *)
Definition requests_sent {W} (host : Host W) (items : list string) (w : W)
  : W :=
  fold_left (fun w item => snd (join_channel host item w)) items w.


Definition has_comma (s : string) : bool := contains "," s.


(** ** What a page costs when the downloads leave their files *)

(** A kind is open while its counter is below its quota. *)
Definition photos_open (f : Locals) : bool :=
  (f downloaded_photos <? f download_photos)%Z.

Definition videos_open (f : Locals) : bool :=
  (f downloaded_videos <? f download_videos)%Z.

(** A video none of whose attributes is over the limit of bot4.py. *)
Definition is_short_video (m : Message) : bool :=
  match media m with
  | Some (MessageMediaDocument (Some doc)) =>
      contains "video" (mime_type doc)
      && match List.find Bot4.too_long (attributes doc) with
         | Some _ => false
         | None => true
         end
  | _ => false
  end.

(** The messages of a page each script hands to [download_media] when the
    variables are [f] as the page begins and stay so. *)
Definition taken_by_bot3 (f : Locals) (m : Message) : bool :=
  photos_open f && is_photo_message m || videos_open f && is_video_message m.

Definition taken_by_bot4 (f : Locals) (m : Message) : bool :=
  photos_open f && is_photo_message m || videos_open f && is_short_video m.

(** The downloads of the tasks of a batch that have left the semaphore
    behind, in the order of the page. *)
Fixpoint started_of (f : Locals) (dir : string) (ts : list Bot4.Task)
    (ms : list Message) : list Event :=
  match ts, ms with
  | t :: ts', m :: ms' =>
      (if negb (is_waiting t) && taken_by_bot4 f m
       then [Download_started (msg_id m) dir] else [])
      ++ started_of f dir ts' ms'
  | _, _ => []
  end.

(** A batch on its way: the variables are those of the frame [f], and the
    downloads since [base] are those of the tasks that have left the
    semaphore behind. *)
Definition taking {W} (f : Locals) (base : list Event) (dir : string)
    (messages : list Message) (b : Bot4.Batch) (st : State W) : Prop :=
  vars st = f /\
  Permutation (downloads (trace st))
              (base ++ started_of f dir (Bot4.tasks b) messages).

(** * Further concrete runs *)

(** ** A batch in which a download fails *)

Module Scenario3.
Import Sim.

(** Seven photos on one page; the download of the newest one raises. The
    operator asks for seven photos. *)
Definition seven : list Message :=
  [photo 7; photo 6; photo 5; photo 4; photo 3; photo 2; photo 1].

Definition seven_photos : World := {|
  disk := [];
  typed := [Returns 7; Returns 0];
  chats := [(7, seven)];
  page_size := 100;
  broken := [7];
  locked := []
|}.

(** The second loop of bot4.py about to ask for the first page. *)
Definition loop_head : State World :=
  {| world := seven_photos; trace := [];
     vars := Bot4.parameters 0 0 7 0 |}.

(** What the steps of the event loop leave of the batch of that page. *)
Definition after_page : Outcome Bot4.Batch * State World :=
  steps env "media/g" "t" seven (round_robin seven seven_photos)
    (fresh_batch seven) loop_head.

Definition left_behind : Bot4.Batch :=
  match fst after_page with
  | Returned b => b
  | _ => fresh_batch seven
  end.

(** The state in which the loop of the group gets the exception. *)
Definition delivered : State World :=
  {| world := world (snd after_page); trace := trace (snd after_page);
     vars := vars loop_head |}.

End Scenario3.

(** ** Ten photos, one asked for *)

Module Scenario4.
Import Sim.

Definition ten : list Message :=
  [photo 10; photo 9; photo 8; photo 7; photo 6;
   photo 5; photo 4; photo 3; photo 2; photo 1].

(** One page of ten photos; the operator asks for one photo and no
    video. *)
Definition ten_photos : World := {|
  disk := [];
  typed := [Returns 1; Returns 0];
  chats := [(7, ten)];
  page_size := 100;
  broken := [];
  locked := []
|}.

(** The page is about to be fetched: counters at zero, a quota of one
    photo. *)
Definition page_begins : State World := Scenario.fetching 1 0 ten_photos.

(** The page in the loop of bot3.py and in a batch of bot4.py. *)
Definition after_loop : Outcome unit * State World :=
  for_each (Bot3.fetch_message env "media/g" "t") ten page_begins.

Definition after_batch : Outcome unit * State World :=
  Bot4.download_and_post_media env "media/g" "t" ten 0 0 1 0 page_begins.

(** The whole run on the group, in either script. *)
Definition harvested3 : State World :=
  snd (Bot3.harvest_group env 5 "t" Scenario.channel (start ten_photos)).

Definition harvested4 : State World :=
  snd (Bot4.harvest_group env 5 "t" Scenario.channel (start ten_photos)).

End Scenario4.
(** * Proofs *)

(** ** Invariants of computations *)

Section Preservation.
Context {W : Type}.
Implicit Types P : State W -> Prop.

Lemma preserves_ret {A} P (a : A) : preserves P (ret a).
Proof. intros st H. exact H. Qed.

Lemma preserves_raise {A} P e : preserves P (@raise W A e).
Proof. intros st H. exact H. Qed.

Lemma preserves_out_of_fuel {A} P : preserves P (@out_of_fuel W A).
Proof. intros st H. exact H. Qed.

Lemma preserves_read P x : preserves P (read x).
Proof. intros st H. exact H. Qed.

Lemma preserves_peek {A} P (f : W -> A) : preserves P (peek f).
Proof. intros st H. exact H. Qed.

Lemma preserves_bind {A B} P (m : M W A) (k : A -> M W B) :
  preserves P m -> (forall a, preserves P (k a)) -> preserves P (bind m k).
Proof.
  intros Hm Hk st H. unfold bind.
  specialize (Hm st H). destruct (m st) as [[a | e |] st']; cbn in *.
  - apply Hk, Hm.
  - exact Hm.
  - exact Hm.
Qed.

Lemma preserves_try P (body : M W unit) handler :
  preserves P body -> (forall e, preserves P (handler e)) ->
  preserves P (try_except body handler).
Proof.
  intros Hb Hh st H. unfold try_except.
  specialize (Hb st H). destruct (body st) as [[a | e |] st']; cbn in *.
  - exact Hb.
  - apply Hh, Hb.
  - exact Hb.
Qed.

Lemma preserves_attempt {A} P (m : M W A) :
  preserves P m -> preserves P (attempt m).
Proof.
  intros Hm st H. unfold attempt.
  specialize (Hm st H). destruct (m st) as [[a | e |] st']; exact Hm.
Qed.

Lemma preserves_for_each {A} P (body : A -> M W unit) xs :
  (forall x, preserves P (body x)) -> preserves P (for_each body xs).
Proof.
  intros Hb. induction xs as [| x xs IH]; cbn [for_each].
  - apply preserves_ret.
  - apply preserves_bind; [apply Hb | intros _; exact IH].
Qed.

(** A property of the local variables alone survives every call into the
    environment and every trace entry. *)
Lemma preserves_call {A} (V : Locals -> Prop) (f : W -> Reply A * W) :
  preserves (fun st => V (vars st)) (call f).
Proof.
  intros st H. unfold call. destruct (f (world st)) as [[a | e] w]; exact H.
Qed.

Lemma preserves_emit (V : Locals -> Prop) ev :
  preserves (fun st : State W => V (vars st)) (emit ev).
Proof. intros st H. exact H. Qed.

Lemma preserves_assign (V : Locals -> Prop) x v :
  (forall f, V f -> V (<[x := v]> f)) ->
  preserves (fun st : State W => V (vars st)) (assign x v).
Proof. intros HV st H. cbn. apply HV, H. Qed.

(** The caller's variables survive a call made on a frame of its own. *)
Lemma with_frame_vars {A} frame (body : M W A) st :
  vars (snd (with_frame frame body st)) = vars st.
Proof.
  unfold with_frame.
  destruct (body _) as [r st']. reflexivity.
Qed.

Lemma preserves_with_frame {A} (V : Locals -> Prop) frame (body : M W A) :
  preserves (fun st => V (vars st)) (with_frame frame body).
Proof. intros st H. cbn beta. rewrite with_frame_vars. exact H. Qed.
End Preservation.

(** What every step of the event loop preserves, [gather] preserves, and
    so do the steps made with nobody waiting. *)
Section EventLoop.
Context {W : Type} (env : Env W) (P : State W -> Prop).
Context (dir target : string) (messages : list Message).
Hypothesis Hstep :
  forall i b, preserves P (Bot4.advance env dir target messages i b).

Lemma preserves_run_ready schedule : forall b,
  preserves P (Bot4.run_ready env dir target messages schedule b).
Proof.
  induction schedule as [| i rest IH]; intros b; cbn [Bot4.run_ready].
  - apply preserves_ret.
  - apply preserves_bind; [apply Hstep | exact IH].
Qed.

Lemma preserves_steps schedule : forall b,
  preserves P (steps env dir target messages schedule b).
Proof.
  induction schedule as [| i rest IH]; intros b; cbn [steps].
  - apply preserves_ret.
  - apply preserves_bind; [apply Hstep | exact IH].
Qed.

Lemma preserves_gather schedule : forall b,
  preserves P (Bot4.gather env dir target messages schedule b).
Proof.
  induction schedule as [| i rest IH]; intros b; cbn [Bot4.gather];
    destruct (forallb Bot4.settled (Bot4.tasks b)).
  - apply preserves_ret.
  - apply preserves_out_of_fuel.
  - apply preserves_ret.
  - apply preserves_bind; [apply Hstep | intros b'].
    destruct (Bot4.tasks b' !! i) as [[| | | e] |]; try apply IH.
    apply preserves_bind; [apply preserves_run_ready | intros _].
    apply preserves_raise.
Qed.
End EventLoop.

(** Unfolds the monad on the goal. *)
Ltac unfold_monad :=
  unfold bind, ret, raise, out_of_fuel, read, assign, logging, emit, call,
    peek, try_except, attempt in *;
  cbn [fst snd world trace vars] in *.

(** Reads variables back after assignments. *)
Ltac lookup :=
  cbn [fst snd world trace vars] in *;
  repeat first
    [ rewrite fn_lookup_insert
    | rewrite fn_lookup_insert_ne by discriminate ].

Ltac lookup_in H :=
  cbn [fst snd world trace vars] in H;
  repeat first
    [ rewrite fn_lookup_insert in H
    | rewrite fn_lookup_insert_ne in H by discriminate ].

(** Splits on the next thing a computation in the goal waits for. *)
Ltac split_next :=
  match goal with
  | |- context [match ?x with _ => _ end] =>
      lazymatch x with
      | context [match _ with _ => _ end] => fail
      | _ => destruct x eqn:?
      end
  end;
  cbn [fst snd world trace vars] in *.

(** ** The counting pass (claim C7) *)


Section Count.
Context {W : Type} (env : Env W).


Lemma tally_cons kind m ms :
  tally kind (m :: ms) = (if kind m then 1 else 0) + tally kind ms.
Proof.
  unfold tally. cbn [List.filter]. destruct (kind m); cbn [length]; lia.
Qed.

Lemma tally_app kind ms ms' :
  tally kind (ms ++ ms') = tally kind ms + tally kind ms'.
Proof.
  unfold tally. rewrite List.filter_app, length_app. lia.
Qed.

Lemma count_message_spec message (st : State W) :
  exists st',
    count_message message st = (Returned tt, st') /\
    world st' = world st /\ trace st' = trace st /\
    vars st' offset_id = vars st offset_id /\
    vars st' photo_count =
      vars st photo_count + (if is_photo_message message then 1 else 0) /\
    vars st' video_count =
      vars st video_count + (if is_video_message message then 1 else 0).
Proof.
  unfold count_message, is_photo_message, is_video_message.
  destruct (media message) as [[| [doc |] |] |]; unfold_monad;
    try (eexists; split; [reflexivity |]; lookup; repeat split; lia).
  destruct (contains "video" (mime_type doc)); unfold_monad;
    (eexists; split; [reflexivity |]; lookup; repeat split; lia).
Qed.

Lemma count_page_spec messages : forall st : State W,
  exists st',
    for_each count_message messages st = (Returned tt, st') /\
    world st' = world st /\ trace st' = trace st /\
    vars st' offset_id = vars st offset_id /\
    vars st' photo_count =
      vars st photo_count + tally is_photo_message messages /\
    vars st' video_count =
      vars st video_count + tally is_video_message messages.
Proof.
  induction messages as [| m ms IH]; intros st; cbn [for_each].
  - exists st. unfold ret, tally. cbn. repeat split; lia.
  - destruct (count_message_spec m st) as (st1 & E1 & Hw & Ht & Ho & Hp & Hv).
    destruct (IH st1) as (st2 & E2 & Hw2 & Ht2 & Ho2 & Hp2 & Hv2).
    exists st2. unfold bind. rewrite E1, E2. rewrite !tally_cons.
    repeat split; try congruence; lia.
Qed.

Lemma first_pass_drains group pages : forall offset w w',
  paged env (group_id group) offset w pages w' ->
  forall fuel (st : State W),
    (length pages < fuel)%nat ->
    vars st offset_id = offset -> world st = w ->
    exists st',
      first_pass env fuel group st = (Returned tt, st') /\
      counted pages w' st st'.
Proof.
  induction 1 as [offset w w' Hget | offset w page w' pages w'' Hget Hne _ IH];
    intros fuel st Hfuel Hoff Hw; subst offset w;
    (destruct fuel as [| fuel]; [cbn in Hfuel; lia |]);
    cbn [first_pass]; unfold bind at 1, read; cbn [vars];
    unfold bind at 1, call; rewrite Hget.
  - eexists. split; [reflexivity |]. unfold counted, tally. cbn.
    repeat split; lia.
  - destruct page as [| m page]; [congruence |].
    set (st1 := {| world := w'; trace := trace st; vars := vars st |}).
    destruct (count_page_spec (m :: page) st1)
      as (st2 & E2 & Hw2 & Ht2 & Ho2 & Hp2 & Hv2).
    unfold bind at 1. fold st1. rewrite E2.
    unfold bind at 1, assign.
    match goal with |- context [first_pass env fuel group ?s] =>
      destruct (IH fuel s) as (st' & E' & Hw' & Ht' & Hp' & Hv')
    end; [cbn in Hfuel |- *; lia | reflexivity | exact Hw2 |].
    exists st'. split; [exact E' |].
    cbn [world trace vars] in *. unfold counted.
    cbn [concat]. rewrite !tally_app.
    rewrite fn_lookup_insert_ne in Hp', Hv' by discriminate.
    subst st1. cbn [world trace vars] in *.
    repeat split; try congruence; lia.
Qed.

Lemma first_pass_returned group : forall fuel (st st' : State W),
  first_pass env fuel group st = (Returned tt, st') ->
  exists pages,
    (length pages < fuel)%nat /\
    paged env (group_id group) (vars st offset_id) (world st) pages (world st') /\
    counted pages (world st') st st'.
Proof.
  induction fuel as [| fuel IH]; intros st st' Hrun; cbn [first_pass] in Hrun.
  - discriminate.
  - unfold bind at 1, read in Hrun; cbn [vars] in Hrun.
    unfold bind at 1, call in Hrun.
    destruct (get_messages env (group_id group) (vars st offset_id) limit
                (world st)) as [[page | e] w'] eqn:Hget; [| discriminate].
    destruct page as [| m page].
    + injection Hrun as <-. exists []. cbn [world].
      split; [cbn; lia |]. split; [apply paged_end, Hget |].
      unfold counted, tally. cbn. repeat split; lia.
    + set (st1 := {| world := w'; trace := trace st; vars := vars st |}) in *.
      destruct (count_page_spec (m :: page) st1)
        as (st2 & E2 & Hw2 & Ht2 & Ho2 & Hp2 & Hv2).
      unfold bind at 1 in Hrun. rewrite E2 in Hrun.
      unfold bind at 1, assign in Hrun.
      apply IH in Hrun as (pages & Hlen & Hpaged & Hw' & Ht' & Hp' & Hv').
      cbn [world trace vars] in *.
      rewrite fn_lookup_insert in Hpaged.
      rewrite fn_lookup_insert_ne in Hp', Hv' by discriminate.
      exists ((m :: page) :: pages). split; [cbn; lia |]. split.
      * eapply paged_more; [exact Hget | discriminate |].
        rewrite Hw2 in Hpaged. exact Hpaged.
      * unfold counted. cbn [concat]. rewrite !tally_app.
        subst st1. cbn [world trace vars] in *.
        repeat split; try congruence; lia.
Qed.
End Count.

(** ** The counters of [harvest_and_post_media] and the quotas (claim C8) *)


Lemma within_quota_offset f0 f v :
  within_quota f0 f -> within_quota f0 (<[offset_id := v]> f).
Proof.
  intros (Hframe & Hp & Hv). repeat split.
  - intros x ? ? ?. rewrite fn_lookup_insert_ne by congruence. auto.
  - rewrite fn_lookup_insert_ne by discriminate. exact Hp.
  - rewrite fn_lookup_insert_ne by discriminate. exact Hv.
Qed.

Lemma within_quota_photo f0 f :
  within_quota f0 f ->
  f downloaded_photos < f download_photos ->
  within_quota f0 (<[downloaded_photos := f downloaded_photos + 1]> f).
Proof.
  intros (Hframe & Hp & Hv) Hlt.
  rewrite (Hframe download_photos) in Hlt by discriminate.
  repeat split.
  - intros x ? ? ?. rewrite fn_lookup_insert_ne by congruence. auto.
  - rewrite fn_lookup_insert. lia.
  - rewrite fn_lookup_insert_ne by discriminate. exact Hv.
Qed.

Lemma within_quota_video f0 f :
  within_quota f0 f ->
  f downloaded_videos < f download_videos ->
  within_quota f0 (<[downloaded_videos := f downloaded_videos + 1]> f).
Proof.
  intros (Hframe & Hp & Hv) Hlt.
  rewrite (Hframe download_videos) in Hlt by discriminate.
  repeat split.
  - intros x ? ? ?. rewrite fn_lookup_insert_ne by congruence. auto.
  - rewrite fn_lookup_insert_ne by discriminate. exact Hp.
  - rewrite fn_lookup_insert. lia.
Qed.

Lemma within_quota_reset f :
  within_quota f
    (<[offset_id := 0]>
       (<[downloaded_videos := 0]> (<[downloaded_photos := 0]> f))).
Proof.
  repeat split.
  - intros x ? ? ?. rewrite !fn_lookup_insert_ne by congruence. reflexivity.
  - rewrite fn_lookup_insert_ne, fn_lookup_insert_ne, fn_lookup_insert
      by discriminate. lia.
  - rewrite fn_lookup_insert_ne, fn_lookup_insert by discriminate. lia.
Qed.

(** The guard [downloaded < wanted] that let the step through. *)
Ltac use_guard :=
  match goal with
  | G : _ && (_ <? _)%Z = true |- _ =>
      apply andb_prop in G as [_ G]; apply Z.ltb_lt in G; exact G
  end.

Section Bounds.
Context {W : Type} (env : Env W).

Lemma bot3_fetch_message_within_quota f0 dir target message :
  preserves (fun st : State W => within_quota f0 (vars st))
    (Bot3.fetch_message env dir target message).
Proof.
  intros st H.
  unfold Bot3.fetch_message, Bot3.download, Bot3.path_exists,
    Bot3.post_media_to_group.
  unfold_monad. repeat split_next; try exact H.
  all: first [ apply within_quota_photo | apply within_quota_video ];
    [exact H | use_guard].
Qed.

Lemma bot3_fetch_pages_within_quota f0 group target fuel :
  preserves (fun st : State W => within_quota f0 (vars st))
    (Bot3.fetch_pages env fuel group target).
Proof.
  induction fuel as [| fuel IH]; cbn [Bot3.fetch_pages].
  - apply preserves_out_of_fuel.
  - apply preserves_bind; [apply preserves_read | intros offset].
    apply preserves_bind;
      [apply (preserves_call (within_quota f0)) | intros [| m ms]].
    + apply preserves_ret.
    + apply preserves_bind;
        [apply preserves_for_each; intros x;
         apply bot3_fetch_message_within_quota | intros _].
      apply preserves_bind; [| intros _; exact IH].
      apply (preserves_assign (within_quota f0)).
      intros f. apply within_quota_offset.
Qed.

Lemma bot4_fetch_pages_within_quota f0 group target fuel :
  preserves (fun st : State W => within_quota f0 (vars st))
    (Bot4.fetch_pages env fuel group target).
Proof.
  induction fuel as [| fuel IH]; cbn [Bot4.fetch_pages].
  - apply preserves_out_of_fuel.
  - apply preserves_bind; [apply preserves_read | intros offset].
    apply preserves_bind;
      [apply (preserves_call (within_quota f0)) | intros [| m ms]].
    + apply preserves_ret.
    + do 4 (apply preserves_bind; [apply preserves_read | intros ?]).
      apply preserves_bind;
        [apply (preserves_with_frame (within_quota f0)) | intros _].
      apply preserves_bind; [| intros _; exact IH].
      apply (preserves_assign (within_quota f0)).
      intros f. apply within_quota_offset.
Qed.

Lemma bot3_second_pass_within_quota fuel group target (st : State W) :
  within_quota (vars st)
    (vars (snd (Bot3.second_pass env fuel group target st))).
Proof.
  unfold Bot3.second_pass. unfold_monad.
  apply (bot3_fetch_pages_within_quota (vars st)). cbn [vars].
  apply within_quota_reset.
Qed.

Lemma bot4_second_pass_within_quota fuel group target (st : State W) :
  within_quota (vars st)
    (vars (snd (Bot4.second_pass env fuel group target st))).
Proof.
  unfold Bot4.second_pass. unfold_monad.
  apply (bot4_fetch_pages_within_quota (vars st)). cbn [vars].
  apply within_quota_reset.
Qed.

(** What [ask_quota] leaves when the operator answers both prompts with
    integers. *)
Lemma ask_quota_answered group (st : State W) rp rv w1 w2 :
  input_int env (photos_prompt group) (world st) = (Returns rp, w1) ->
  input_int env (videos_prompt group) w1 = (Returns rv, w2) ->
  exists st1,
    ask_quota env group st = (Returned tt, st1) /\
    vars st1 requested_photos = rp /\
    vars st1 requested_videos = rv /\
    vars st1 photo_count = vars st photo_count /\
    vars st1 video_count = vars st video_count /\
    vars st1 download_photos = Z.min rp (vars st photo_count) /\
    vars st1 download_videos = Z.min rv (vars st video_count).
Proof.
  intros H1 H2. unfold ask_quota. unfold_monad.
  rewrite H1. cbn [world]. rewrite H2.
  eexists. split; [reflexivity |]. lookup. repeat split.
Qed.

(** The tallies of the counting pass are sums of page tallies from zero. *)
Lemma count_media_returned fuel group (st st' : State W) :
  count_media env fuel group st = (Returned tt, st') ->
  exists pages w,
    paged env (group_id group) 0 w pages (world st') /\
    vars st' photo_count = tally is_photo_message (concat pages) /\
    vars st' video_count = tally is_video_message (concat pages).
Proof.
  unfold count_media. unfold bind at 1, call.
  destruct (os_makedirs env (group_dir group) (world st)) as [[[] | e] w];
    [| discriminate].
  unfold bind at 1, logging, emit. unfold bind at 1, assign.
  unfold bind at 1. unfold bind at 1. unfold bind at 1.
  cbn [world trace vars].
  match goal with |- context [first_pass env fuel group ?s] =>
    destruct (first_pass env fuel group s) as [[[] | e |] st1] eqn:Hrun
  end; try discriminate.
  apply first_pass_returned in Hrun as (pages & _ & Hpaged & _ & _ & Hp & Hv).
  unfold_monad. intros [= <-]. lookup. lookup_in Hpaged. lookup_in Hp.
  lookup_in Hv.
  exists pages, w. repeat split; [exact Hpaged | lia | lia].
Qed.
End Bounds.

(** ** The loop over the selected groups *)

Section Groups.
Context {W : Type}.

Lemma for_each_app {A} (body : A -> M W unit) xs ys (st : State W) :
  for_each body (xs ++ ys) st = (for_each body xs ;; for_each body ys) st.
Proof.
  revert st. induction xs as [| x xs IH]; intros st; cbn [for_each app].
  - reflexivity.
  - unfold bind. destruct (body x st) as [[[] | e |] st1]; try reflexivity.
    rewrite IH. reflexivity.
Qed.

(** A loop whose body is wrapped in a handler that only logs never raises. *)
Lemma guarded_loop_never_raises {A} (body : A -> M W unit)
    (line : A -> Exn -> LogLine) xs : forall (st : State W) e,
  fst (for_each
         (fun x => try_except (body x) (fun e => logging ERROR (line x e)))
         xs st) <> Raised e.
Proof.
  induction xs as [| x xs IH]; intros st e; cbn [for_each].
  - discriminate.
  - unfold bind, try_except.
    destruct (body x st) as [[[] | e' |] st1]; cbn; try discriminate; apply IH.
Qed.

Lemma guarded_loop_reaches {A} (body : A -> M W unit)
    (line : A -> Exn -> LogLine) before x after (st : State W) :
  let step x := try_except (body x) (fun e => logging ERROR (line x e)) in
  fst (for_each step before st) <> Out_of_fuel ->
  for_each step (before ++ x :: after) st =
  (step x ;; for_each step after) (snd (for_each step before st)).
Proof.
  intros step Hfuel. rewrite for_each_app. unfold bind at 1.
  pose proof (guarded_loop_never_raises body line before st) as Hraise.
  fold step in Hraise.
  destruct (for_each step before st) as [[[] | e |] st1]; cbn [fst snd] in *.
  - reflexivity.
  - exfalso. exact (Hraise e eq_refl).
  - congruence.
Qed.
End Groups.

(** ** Downloads whose file is there when [os.path.exists] looks *)

Lemma posts_app t t' : posts (t ++ t') = posts t ++ posts t'.
Proof. apply List.filter_app. Qed.

Lemma keeps_all_materializes {W} (env : Env W) :
  keeps_files env -> files_all_exist env -> materializes env.
Proof.
  intros Hkeep Hall message dir w path w' Hdl.
  specialize (Hkeep message dir w path (Hall _ _ _ _ _ Hdl)).
  rewrite Hdl in Hkeep. exact Hkeep.
Qed.

(** Closes a branch in which the file of a finished download is missing,
    when [known] proves from the download that it is there. *)
Ltac file_is_there known :=
  match goal with
  | Hd : download_media ?env _ _ _ = (Returns (Some ?p), ?w) |- _ =>
      let E := fresh "E" in
      assert (E : os_path_exists env p w = true) by known Hd;
      match goal with
      | Hx : os_path_exists _ p w = false |- _ => congruence
      | Hx : _ && negb (os_path_exists _ p w) = true |- _ =>
          rewrite E, andb_false_r in Hx; discriminate
      end
  end.

Ltac same_posts :=
  rewrite ?posts_app; cbn [posts List.filter is_post]; rewrite ?app_nil_r.

Section Still.
Context {W : Type} (env : Env W).

(** A step whose download leaves its file in place assigns no variable and
    posts nothing. *)
Lemma bot3_fetch_message_still dir target message (st : State W) :
  (forall p w',
      download_media env message dir (world st) = (Returns (Some p), w') ->
      os_path_exists env p w' = true) ->
  let st' := snd (Bot3.fetch_message env dir target message st) in
  vars st' = vars st /\ posts (trace st') = posts (trace st).
Proof.
  intros Hlocal.
  unfold Bot3.fetch_message, Bot3.download, Bot3.path_exists,
    Bot3.post_media_to_group.
  unfold_monad. repeat split_next;
    try file_is_there
      ltac:(fun Hd => first [exact (Hlocal _ _ Hd) | exact (Hlocal _ _ eq_refl)]).
  all: split; [reflexivity | cbn [trace]; same_posts; reflexivity].
Qed.

Lemma bot4_finish_task_still dir target message kind (st : State W) :
  (forall p w',
      download_media env message dir (world st) = (Returns (Some p), w') ->
      os_path_exists env p w' = true) ->
  let st' := snd (Bot4.finish_task env dir target message kind st) in
  vars st' = vars st /\ posts (trace st') = posts (trace st).
Proof.
  intros Hlocal.
  unfold Bot4.finish_task, Bot4.post_media_to_group, Bot4.truthy.
  unfold_monad. repeat split_next;
    try file_is_there
      ltac:(fun Hd => first [exact (Hlocal _ _ Hd) | exact (Hlocal _ _ eq_refl)]);
    try discriminate.
  all: split; [reflexivity | cbn [trace]; same_posts; reflexivity].
Qed.
End Still.

Section Idle.
Context {W : Type} (env : Env W).
Hypothesis Hmat : materializes env.

Lemma bot3_fetch_message_idle f n dir target message :
  preserves (idle (W := W) f n) (Bot3.fetch_message env dir target message).
Proof.
  intros st [Hv Hp].
  unfold Bot3.fetch_message, Bot3.download, Bot3.path_exists,
    Bot3.post_media_to_group.
  unfold_monad. repeat split_next;
    try file_is_there ltac:(fun Hd => exact (Hmat _ _ _ _ _ Hd)).
  all: split; [exact Hv | cbn [trace]; same_posts; exact Hp].
Qed.

Lemma idle_call {A} f n (g : W -> Reply A * W) :
  preserves (idle f n) (call g).
Proof.
  intros st H. unfold call. destruct (g (world st)) as [[a | e] w]; exact H.
Qed.

Lemma idle_offset f n v : preserves (idle (W := W) f n) (assign offset_id v).
Proof.
  intros st [Hv Hp]. split; [| exact Hp].
  intros x Hx. cbn. rewrite fn_lookup_insert_ne by congruence. auto.
Qed.

Lemma bot3_fetch_pages_idle f n group target fuel :
  preserves (idle f n) (Bot3.fetch_pages env fuel group target).
Proof.
  induction fuel as [| fuel IH]; cbn [Bot3.fetch_pages].
  - apply preserves_out_of_fuel.
  - apply preserves_bind; [apply preserves_read | intros offset].
    apply preserves_bind; [apply idle_call | intros [| m ms]].
    + apply preserves_ret.
    + apply preserves_bind;
        [apply preserves_for_each; intros x; apply bot3_fetch_message_idle
        | intros _].
      apply preserves_bind; [apply idle_offset | intros _; exact IH].
Qed.

Lemma bot4_start_task_idle f n dir message :
  preserves (idle (W := W) f n) (Bot4.start_task dir message).
Proof.
  intros st [Hv Hp]. unfold Bot4.start_task.
  unfold_monad. repeat split_next.
  all: split; [exact Hv | cbn [trace]; same_posts; exact Hp].
Qed.

Lemma bot4_finish_task_idle f n dir target message kind :
  preserves (idle f n) (Bot4.finish_task env dir target message kind).
Proof.
  intros st [Hv Hp].
  unfold Bot4.finish_task, Bot4.post_media_to_group, Bot4.truthy.
  unfold_monad. repeat split_next;
    try file_is_there ltac:(fun Hd => exact (Hmat _ _ _ _ _ Hd));
    try discriminate.
  all: split; [exact Hv | cbn [trace]; same_posts; exact Hp].
Qed.

Lemma bot4_advance_idle f n dir target messages i b :
  preserves (idle f n) (Bot4.advance env dir target messages i b).
Proof.
  unfold Bot4.advance.
  destruct (messages !! i) as [message |]; [| apply preserves_ret].
  destruct (Bot4.tasks b !! i) as [[| kind | |] |]; try apply preserves_ret.
  - destruct (Bot4.semaphore b); [apply preserves_ret |].
    apply preserves_bind; [| intros r; apply preserves_ret].
    apply preserves_attempt, bot4_start_task_idle.
  - apply preserves_bind; [| intros r; apply preserves_ret].
    apply preserves_attempt, bot4_finish_task_idle.
Qed.

Lemma bot4_gather_idle f n dir target messages schedule : forall b,
  preserves (idle f n) (Bot4.gather env dir target messages schedule b).
Proof.
  apply preserves_gather. intros i b. apply bot4_advance_idle.
Qed.

Lemma bot4_run_batch_idle f n dir target messages :
  preserves (idle f n) (Bot4.run_batch env dir target messages).
Proof.
  unfold Bot4.run_batch.
  apply preserves_bind; [apply preserves_peek | intros schedule].
  apply bot4_gather_idle.
Qed.

Lemma bot4_download_and_post_media_idle f n dir target messages dp dv qp qv :
  preserves (idle f n)
    (Bot4.download_and_post_media env dir target messages dp dv qp qv).
Proof.
  intros st [Hv Hp]. unfold Bot4.download_and_post_media.
  split; [rewrite with_frame_vars; exact Hv |].
  unfold with_frame.
  match goal with |- context [bind ?m ?k ?s] =>
    pose proof (preserves_bind (idle (vars s) n) m k
                  (bot4_run_batch_idle _ n dir target messages)
                  (fun _ => preserves_ret _ tt) s) as Hin;
    destruct (bind m k s) as [r st']
  end.
  cbn [snd trace] in *. apply Hin. split; [reflexivity | exact Hp].
Qed.

Lemma bot4_fetch_pages_idle f n group target fuel :
  preserves (idle f n) (Bot4.fetch_pages env fuel group target).
Proof.
  induction fuel as [| fuel IH]; cbn [Bot4.fetch_pages].
  - apply preserves_out_of_fuel.
  - apply preserves_bind; [apply preserves_read | intros offset].
    apply preserves_bind; [apply idle_call | intros [| m ms]].
    + apply preserves_ret.
    + do 4 (apply preserves_bind; [apply preserves_read | intros ?]).
      apply preserves_bind;
        [apply bot4_download_and_post_media_idle | intros _].
      apply preserves_bind; [apply idle_offset | intros _; exact IH].
Qed.

Lemma idle_after_reset (st : State W) st' :
  idle (<[downloaded_videos := 0]> (<[downloaded_photos := 0]> (vars st)))
       (posts (trace st)) st' ->
  nothing_counted st st'.
Proof.
  intros [Hv Hp]. unfold nothing_counted.
  rewrite !Hv by discriminate. lookup. repeat split. exact Hp.
Qed.

Lemma bot3_second_pass_idle fuel group target (st : State W) :
  nothing_counted st (snd (Bot3.second_pass env fuel group target st)).
Proof.
  apply idle_after_reset. unfold Bot3.second_pass. unfold_monad.
  apply bot3_fetch_pages_idle. split; [| reflexivity].
  intros x Hx. cbn [vars]. rewrite fn_lookup_insert_ne by congruence.
  reflexivity.
Qed.

Lemma bot4_second_pass_idle fuel group target (st : State W) :
  nothing_counted st (snd (Bot4.second_pass env fuel group target st)).
Proof.
  apply idle_after_reset. unfold Bot4.second_pass. unfold_monad.
  apply bot4_fetch_pages_idle. split; [| reflexivity].
  intros x Hx. cbn [vars]. rewrite fn_lookup_insert_ne by congruence.
  reflexivity.
Qed.
End Idle.

(** The simulated downloads write their file, remove none, and the files
    are looked up by name. *)
Lemma sim_materializes : materializes Sim.env.
Proof.
  intros message dir w path w' H. cbn in H. unfold Sim.download in H.
  destruct (existsb _ (Sim.broken w)); [discriminate |].
  destruct (media message); [| discriminate].
  injection H as <- <-. cbn. rewrite String.eqb_refl. reflexivity.
Qed.

Lemma sim_keeps_files : keeps_files Sim.env.
Proof.
  intros message dir w path H. cbn in *. unfold Sim.download.
  destruct (existsb _ (Sim.broken w)); [exact H |].
  destruct (media message); [| exact H].
  cbn. unfold Sim.on_disk in *. cbn. rewrite H. apply orb_true_r.
Qed.

(** ** The counters of a batch are copies *)

Section Copies.
Context {W : Type} (env : Env W).

Lemma download_and_post_media_vars dir target messages dp dv qp qv
    (st : State W) :
  vars (snd (Bot4.download_and_post_media env dir target messages
               dp dv qp qv st)) = vars st.
Proof. apply with_frame_vars. Qed.

Lemma bot4_fetch_pages_by_value group target fuel : forall st : State W,
  Bot4.fetch_pages env fuel group target st =
  fetch_pages_by_value env
    (vars st downloaded_photos) (vars st downloaded_videos)
    (vars st download_photos) (vars st download_videos)
    fuel group target st.
Proof.
  induction fuel as [| fuel IH]; intros st;
    cbn [Bot4.fetch_pages fetch_pages_by_value]; [reflexivity |].
  unfold_monad.
  destruct (get_messages env (group_id group) (vars st offset_id) limit
              (world st)) as [[[| m ms] | e] w]; try reflexivity.
  cbn [vars].
  match goal with |- context [Bot4.download_and_post_media ?e ?d ?t ?ms
                                ?a ?b ?c ?d' ?s] =>
    pose proof (download_and_post_media_vars d t ms a b c d' s) as Hv;
    destruct (Bot4.download_and_post_media e d t ms a b c d' s)
      as [[[] | e' |] st2]
  end; try reflexivity.
  cbn [snd vars] in Hv. rewrite IH. cbn [vars].
  rewrite !fn_lookup_insert_ne by discriminate. rewrite Hv. reflexivity.
Qed.

(** The fetch pass of bot4.py assigns [offset_id] and nothing else. *)
Lemma bot4_fetch_pages_vars (V : Locals -> Prop) group target fuel :
  (forall f v, V f -> V (<[offset_id := v]> f)) ->
  preserves (fun st : State W => V (vars st))
    (Bot4.fetch_pages env fuel group target).
Proof.
  intros HV. induction fuel as [| fuel IH]; cbn [Bot4.fetch_pages].
  - apply preserves_out_of_fuel.
  - apply preserves_bind; [apply preserves_read | intros offset].
    apply preserves_bind; [apply (preserves_call V) | intros [| m ms]].
    + apply preserves_ret.
    + do 4 (apply preserves_bind; [apply preserves_read | intros ?]).
      apply preserves_bind; [apply (preserves_with_frame V) | intros _].
      apply preserves_bind; [| intros _; exact IH].
      apply (preserves_assign V). intros f. apply HV.
Qed.

Lemma bot4_second_pass_counters fuel group target (st : State W) :
  let st' := snd (Bot4.second_pass env fuel group target st) in
  vars st' downloaded_photos = 0 /\ vars st' downloaded_videos = 0.
Proof.
  unfold Bot4.second_pass. unfold_monad.
  apply (bot4_fetch_pages_vars
           (fun f => f downloaded_photos = 0 /\ f downloaded_videos = 0)).
  - intros f v [Hp Hv].
    rewrite !fn_lookup_insert_ne by discriminate. split; assumption.
  - cbn [vars]. lookup. split; reflexivity.
Qed.
End Copies.

(** ** The tasks of a batch *)

Section Tasks.
Context {W : Type} (env : Env W).

(** Advancing task [i] leaves the other tasks where they stand. *)
Lemma advance_others dir target messages i b (st : State W) b' st' j :
  Bot4.advance env dir target messages i b st = (Returned b', st') ->
  j <> i -> Bot4.tasks b' !! j = Bot4.tasks b !! j.
Proof.
  unfold Bot4.advance. intros Hrun Hne.
  destruct (messages !! i) as [message |];
    [| injection Hrun as <- _; reflexivity].
  destruct (Bot4.tasks b !! i) as [[| kind | |] |];
    try (injection Hrun as <- _; reflexivity).
  - destruct (Bot4.semaphore b); [injection Hrun as <- _; reflexivity |].
    unfold_monad.
    destruct (Bot4.start_task dir message st) as [[[k |] | e |] st1];
      try discriminate; injection Hrun as <- _; cbn [Bot4.tasks];
      apply list_lookup_insert_ne; congruence.
  - unfold_monad.
    destruct (Bot4.finish_task env dir target message kind st)
      as [[[] | e |] st1];
      try discriminate; injection Hrun as <- _; cbn [Bot4.tasks];
      apply list_lookup_insert_ne; congruence.
Qed.

Lemma find_too_long attrs attr :
  In attr attrs -> Bot4.too_long attr = true ->
  exists attr', List.find Bot4.too_long attrs = Some attr'.
Proof.
  intros Hin Hlong.
  destruct (List.find Bot4.too_long attrs) as [attr' |] eqn:Hfind.
  - exists attr'. reflexivity.
  - pose proof (List.find_none _ _ Hfind attr Hin). congruence.
Qed.

Lemma find_none_too_long attrs :
  (forall attr, In attr attrs -> Bot4.too_long attr = false) ->
  List.find Bot4.too_long attrs = None.
Proof.
  intros Hall.
  destruct (List.find Bot4.too_long attrs) as [attr' |] eqn:Hfind;
    [| reflexivity].
  apply List.find_some in Hfind as [Hin Hlong].
  rewrite (Hall _ Hin) in Hlong. discriminate.
Qed.
End Tasks.

Lemma rerun_keeps_files : keeps_files Sim.rerun.
Proof. intros message dir w path H. reflexivity. Qed.

Lemma rerun_files_all_exist : files_all_exist Sim.rerun.
Proof. intros message dir w path w' H. reflexivity. Qed.
(** * Traces and batches *)

(** ** Properties of the trace alone *)

Section TraceOnly.
Context {W : Type}.
Implicit Types T : list Event -> Prop.

Lemma trace_call {A} T (f : W -> Reply A * W) :
  preserves (fun st => T (trace st)) (call f).
Proof.
  intros st H. unfold call. destruct (f (world st)) as [[a | e] w]; exact H.
Qed.

Lemma trace_assign T x v :
  preserves (fun st : State W => T (trace st)) (assign x v).
Proof. intros st H. exact H. Qed.

Lemma trace_emit T ev :
  (forall t, T t -> T (t ++ [ev])) ->
  preserves (fun st : State W => T (trace st)) (emit ev).
Proof. intros HT st H. cbn. apply HT, H. Qed.

Lemma trace_with_frame {A} T frame (body : M W A) :
  preserves (fun st => T (trace st)) body ->
  preserves (fun st => T (trace st)) (with_frame frame body).
Proof.
  intros Hb st H. unfold with_frame.
  match goal with |- context [body ?s] =>
    specialize (Hb s H); destruct (body s) as [r st']
  end.
  exact Hb.
Qed.
End TraceOnly.

(** Walks through a computation, leaving the calls, assignments and trace
    entries to [leaf]. *)
Ltac walk leaf :=
  repeat first
    [ leaf
    | apply preserves_ret
    | apply preserves_raise
    | apply preserves_out_of_fuel
    | apply preserves_read
    | apply preserves_peek
    | apply preserves_bind; [| intros ?]
    | apply preserves_try; [| intros ?]
    | apply preserves_attempt
    | apply preserves_for_each; intros ?
    | match goal with
      | |- preserves _ (match ?x with _ => _ end) => destruct x
      end ].

Lemma downloads_app t t' : downloads (t ++ t') = downloads t ++ downloads t'.
Proof. apply List.filter_app. Qed.

Ltac same_downloads :=
  rewrite ?downloads_app; cbn [downloads List.filter is_download];
  rewrite ?app_nil_r.

(** ** The tasks of a batch, counted *)

Lemma count_insert {A} (f : A -> bool) (l : list A) : forall i old new,
  l !! i = Some old ->
  (length (List.filter f (<[i := new]> l)) + (if f old then 1 else 0)
   = length (List.filter f l) + (if f new then 1 else 0))%nat.
Proof.
  induction l as [| x l IH]; intros [| i] old new Hi; cbn in Hi;
    try discriminate.
  - injection Hi as ->. cbn [List.filter].
    change (<[0%nat := new]> (old :: l)) with (new :: l). cbn [List.filter].
    destruct (f old), (f new); cbn [length]; lia.
  - change (<[S i := new]> (x :: l)) with (x :: <[i := new]> l).
    cbn [List.filter]. specialize (IH i old new Hi).
    destruct (f x); cbn [length]; lia.
Qed.

Section Batches.
Context {W : Type} (env : Env W).

(** What one step of the event loop does to a batch and to the trace. *)
Lemma bot4_start_task_once dir message (st : State W) :
  exists r st',
    attempt (Bot4.start_task dir message) st = (Returned r, st') /\
    ((exists kind, r = Returns (Some kind) /\
        downloads (trace st') =
          downloads (trace st) ++ [Download_started (msg_id message) dir]) \/
     ((forall kind, r <> Returns (Some kind)) /\
      downloads (trace st') = downloads (trace st))).
Proof.
  unfold Bot4.start_task. unfold_monad. repeat split_next.
  all: eexists; eexists; (split; [reflexivity |]); cbn [trace].
  all: first
    [ left; eexists; split; [reflexivity |]; same_downloads; reflexivity
    | right; split; [intros kind'; discriminate |];
      same_downloads; reflexivity ].
Qed.

Lemma bot4_finish_task_starts_nothing dir target message kind (st : State W) :
  exists r st',
    attempt (Bot4.finish_task env dir target message kind) st
      = (Returned r, st') /\
    downloads (trace st') = downloads (trace st).
Proof.
  unfold Bot4.finish_task, Bot4.post_media_to_group.
  unfold_monad. repeat split_next.
  all: eexists; eexists; (split; [reflexivity |]); cbn [trace];
    same_downloads; reflexivity.
Qed.

Lemma bot4_advance_counts dir target messages i b (st : State W) :
  exists b' st',
    Bot4.advance env dir target messages i b st = (Returned b', st') /\
    length (Bot4.tasks b') = length (Bot4.tasks b) /\
    (Bot4.semaphore b' + in_flight b' = Bot4.semaphore b + in_flight b)%nat /\
    (length (downloads (trace st')) + not_started b'
     <= length (downloads (trace st)) + not_started b)%nat.
Proof.
  unfold Bot4.advance.
  destruct (messages !! i) as [message |];
    [| exists b, st; repeat split; lia].
  destruct (Bot4.tasks b !! i) as [[| kind | |] |] eqn:Htask;
    try (exists b, st; repeat split; lia).
  - destruct (Bot4.semaphore b) as [| free] eqn:Hsem;
      [exists b, st; repeat split; lia |].
    destruct (bot4_start_task_once dir message st)
      as (r & st' & Hrun & [(kind & -> & Ht) | (Hnot & Ht)]).
    + unfold bind. rewrite Hrun. unfold ret.
      eexists; eexists; (split; [reflexivity |]).
      unfold in_flight, not_started. cbn [Bot4.tasks Bot4.semaphore].
      pose proof (count_insert is_in_download (Bot4.tasks b) i _
                    (Bot4.In_download kind) Htask) as Hin.
      pose proof (count_insert is_waiting (Bot4.tasks b) i _
                    (Bot4.In_download kind) Htask) as Hwait.
      cbn [is_in_download is_waiting] in Hin, Hwait.
      rewrite length_insert, Ht, length_app. cbn [length].
      repeat split; lia.
    + unfold bind. rewrite Hrun. unfold ret.
      destruct r as [[kind |] | e]; [exfalso; exact (Hnot kind eq_refl) | |];
        eexists; eexists; (split; [reflexivity |]);
        unfold in_flight, not_started; cbn [Bot4.tasks Bot4.semaphore];
        rewrite length_insert, Ht.
      * pose proof (count_insert is_in_download (Bot4.tasks b) i _
                      Bot4.Finished Htask) as Hin.
        pose proof (count_insert is_waiting (Bot4.tasks b) i _
                      Bot4.Finished Htask) as Hwait.
        cbn [is_in_download is_waiting] in Hin, Hwait. repeat split; lia.
      * pose proof (count_insert is_in_download (Bot4.tasks b) i _
                      (Bot4.Failed e) Htask) as Hin.
        pose proof (count_insert is_waiting (Bot4.tasks b) i _
                      (Bot4.Failed e) Htask) as Hwait.
        cbn [is_in_download is_waiting] in Hin, Hwait. repeat split; lia.
  - destruct (bot4_finish_task_starts_nothing dir target message kind st)
      as (r & st' & Hrun & Ht).
    unfold bind. rewrite Hrun. unfold ret.
    eexists; eexists; (split; [reflexivity |]).
    unfold in_flight, not_started. cbn [Bot4.tasks Bot4.semaphore].
    rewrite length_insert, Ht.
    destruct r as [[] | e].
    + pose proof (count_insert is_in_download (Bot4.tasks b) i _
                    Bot4.Finished Htask) as Hin.
      pose proof (count_insert is_waiting (Bot4.tasks b) i _
                    Bot4.Finished Htask) as Hwait.
      cbn [is_in_download is_waiting] in Hin, Hwait. repeat split; lia.
    + pose proof (count_insert is_in_download (Bot4.tasks b) i _
                    (Bot4.Failed e) Htask) as Hin.
      pose proof (count_insert is_waiting (Bot4.tasks b) i _
                    (Bot4.Failed e) Htask) as Hwait.
      cbn [is_in_download is_waiting] in Hin, Hwait. repeat split; lia.
Qed.
End Batches.

Lemma fresh_batch_counts messages :
  in_flight (fresh_batch messages) = 0%nat /\
  not_started (fresh_batch messages) = length messages /\
  forall j e, Bot4.tasks (fresh_batch messages) !! j <> Some (Bot4.Failed e).
Proof.
  unfold in_flight, not_started, fresh_batch. cbn [Bot4.tasks].
  induction messages as [| m ms (IH1 & IH2 & IH3)]; cbn.
  - repeat split. intros j e. rewrite lookup_nil. discriminate.
  - repeat split; [exact IH1 | lia |].
    intros [| j] e; cbn; [discriminate | apply IH3].
Qed.


(** ** What [gather] does with the steps of the event loop *)

Section Gathering.
Context {W : Type} (env : Env W).
Context (dir target : string) (messages : list Message).

Lemma run_ready_steps schedule : forall b (st : State W),
  Bot4.run_ready env dir target messages schedule b st
  = steps env dir target messages schedule b st.
Proof.
  induction schedule as [| i rest IH]; intros b st;
    cbn [Bot4.run_ready steps]; [reflexivity |].
  unfold bind.
  destruct (Bot4.advance env dir target messages i b st) as [[b1 | e |] st1];
    [apply IH | reflexivity | reflexivity].
Qed.

Lemma advance_returns i b (st : State W) :
  exists b' st',
    Bot4.advance env dir target messages i b st = (Returned b', st').
Proof.
  destruct (bot4_advance_counts env dir target messages i b st)
    as (b' & st' & Hadv & _).
  exists b', st'. exact Hadv.
Qed.

Lemma steps_return schedule : forall b (st : State W),
  exists b' st',
    steps env dir target messages schedule b st = (Returned b', st').
Proof.
  induction schedule as [| i rest IH]; intros b st; cbn [steps].
  - exists b, st. reflexivity.
  - destruct (advance_returns i b st) as (b1 & st1 & Hadv).
    destruct (IH b1 st1) as (b' & st' & Hrun).
    exists b', st'. unfold bind. rewrite Hadv. exact Hrun.
Qed.

(** A task that is over does not move. *)
Lemma advance_over i b (st : State W) t :
  Bot4.tasks b !! i = Some t -> Bot4.settled t = true ->
  Bot4.advance env dir target messages i b st = (Returned b, st).
Proof.
  intros Ht Hover. unfold Bot4.advance. rewrite Ht.
  destruct (messages !! i); [| reflexivity].
  destruct t; try discriminate; reflexivity.
Qed.

Lemma advance_all_over i b (st : State W) :
  forallb Bot4.settled (Bot4.tasks b) = true ->
  Bot4.advance env dir target messages i b st = (Returned b, st).
Proof.
  intros Hall.
  destruct (Bot4.tasks b !! i) as [t |] eqn:Ht.
  - apply (advance_over i b st t Ht).
    rewrite forallb_forall in Hall. apply Hall.
    apply list_elem_of_In, list_elem_of_lookup. exists i. exact Ht.
  - unfold Bot4.advance. rewrite Ht.
    destruct (messages !! i); reflexivity.
Qed.

Lemma steps_all_over schedule : forall b (st : State W),
  forallb Bot4.settled (Bot4.tasks b) = true ->
  steps env dir target messages schedule b st = (Returned b, st).
Proof.
  induction schedule as [| i rest IH]; intros b st Hall; cbn [steps].
  - reflexivity.
  - unfold bind. rewrite (advance_all_over i b st Hall). apply IH, Hall.
Qed.

(** [gather] changes nothing in what the tasks do: whether it returns,
    raises or is left waiting, the state it leaves is the state the steps
    of the schedule leave. *)
Lemma gather_state schedule : forall b (st : State W),
  snd (Bot4.gather env dir target messages schedule b st)
  = snd (steps env dir target messages schedule b st).
Proof.
  induction schedule as [| i rest IH]; intros b st; cbn [Bot4.gather steps].
  - destruct (forallb Bot4.settled (Bot4.tasks b)); reflexivity.
  - destruct (forallb Bot4.settled (Bot4.tasks b)) eqn:Hall.
    + unfold bind. rewrite (advance_all_over i b st Hall).
      rewrite (steps_all_over rest b st Hall). reflexivity.
    + unfold bind.
      destruct (advance_returns i b st) as (b1 & st1 & Hadv). rewrite Hadv.
      destruct (Bot4.tasks b1 !! i) as [[| | | e] |]; try apply IH.
      rewrite run_ready_steps.
      destruct (steps_return rest b1 st1) as (b2 & st2 & Hrun).
      rewrite Hrun. reflexivity.
Qed.

Lemma no_failure_yet (b : Bot4.Batch) :
  (forall j e, Bot4.tasks b !! j <> Some (Bot4.Failed e)) ->
  existsb has_failed (Bot4.tasks b) = false.
Proof.
  intros Hok.
  destruct (existsb has_failed (Bot4.tasks b)) eqn:Hex; [| reflexivity].
  apply existsb_exists in Hex as (t & Hin & Hfailed).
  apply list_elem_of_In, list_elem_of_lookup in Hin as [j Hj].
  destruct t as [| | | e]; try discriminate.
  exfalso. exact (Hok j e Hj).
Qed.

(** The exception [gather] raises is that of the first task to fail, and
    it is raised after every later step of the schedule. *)
Lemma gather_raises_the_first_failure schedule :
  forall b (st : State W) b' st',
    (forall j e, Bot4.tasks b !! j <> Some (Bot4.Failed e)) ->
    steps env dir target messages schedule b st = (Returned b', st') ->
    existsb has_failed (Bot4.tasks b') = true ->
    exists before i later b1 st1 b2 st2 e,
      schedule = before ++ i :: later /\
      steps env dir target messages before b st = (Returned b1, st1) /\
      existsb has_failed (Bot4.tasks b1) = false /\
      Bot4.advance env dir target messages i b1 st1 = (Returned b2, st2) /\
      Bot4.tasks b2 !! i = Some (Bot4.Failed e) /\
      steps env dir target messages later b2 st2 = (Returned b', st') /\
      Bot4.gather env dir target messages schedule b st = (Raised e, st').
Proof.
  induction schedule as [| i rest IH]; intros b st b' st' Hok Hrun Hfailed.
  - cbn [steps] in Hrun. injection Hrun as <- <-.
    rewrite (no_failure_yet b Hok) in Hfailed. discriminate.
  - cbn [steps] in Hrun. unfold bind in Hrun.
    destruct (forallb Bot4.settled (Bot4.tasks b)) eqn:Hall.
    { rewrite (advance_all_over i b st Hall) in Hrun.
      rewrite (steps_all_over rest b st Hall) in Hrun.
      injection Hrun as <- <-.
      rewrite (no_failure_yet b Hok) in Hfailed. discriminate. }
    destruct (advance_returns i b st) as (b1 & st1 & Hadv).
    rewrite Hadv in Hrun.
    destruct (Bot4.tasks b1 !! i) as [t |] eqn:Hi.
    + destruct (has_failed t) eqn:Ht.
      * destruct t as [| | | e]; try discriminate.
        exists [], i, rest, b, st, b1, st1, e.
        repeat split; try assumption; try reflexivity.
        -- apply no_failure_yet, Hok.
        -- cbn [Bot4.gather]. rewrite Hall. unfold bind.
           rewrite Hadv, Hi, run_ready_steps, Hrun. reflexivity.
      * assert (Hok1 : forall j e, Bot4.tasks b1 !! j <> Some (Bot4.Failed e)).
        { intros j e. destruct (decide (j = i)) as [Heq | Hne].
          - subst j. rewrite Hi. intros Heq. injection Heq as ->.
            discriminate.
          - rewrite (advance_others env _ _ _ _ _ _ _ _ j Hadv Hne).
            apply Hok. }
        destruct (IH b1 st1 b' st' Hok1 Hrun Hfailed)
          as (before & k & later & b2 & st2 & b3 & st3 & e
              & -> & Hbefore & Hclean & Hstep & Hk & Hlater & Hgather).
        exists (i :: before), k, later, b2, st2, b3, st3, e.
        repeat split; try assumption.
        -- cbn [steps]. unfold bind. rewrite Hadv. exact Hbefore.
        -- cbn [Bot4.gather]. rewrite Hall. unfold bind. rewrite Hadv, Hi.
           destruct t; try discriminate; exact Hgather.
    + assert (Hok1 : forall j e, Bot4.tasks b1 !! j <> Some (Bot4.Failed e)).
      { intros j e. destruct (decide (j = i)) as [Heq | Hne].
        - subst j. rewrite Hi. discriminate.
        - rewrite (advance_others env _ _ _ _ _ _ _ _ j Hadv Hne).
          apply Hok. }
      destruct (IH b1 st1 b' st' Hok1 Hrun Hfailed)
        as (before & k & later & b2 & st2 & b3 & st3 & e
            & -> & Hbefore & Hclean & Hstep & Hk & Hlater & Hgather).
      exists (i :: before), k, later, b2, st2, b3, st3, e.
      repeat split; try assumption.
      -- cbn [steps]. unfold bind. rewrite Hadv. exact Hbefore.
      -- cbn [Bot4.gather]. rewrite Hall. unfold bind. rewrite Hadv, Hi.
         exact Hgather.
Qed.

(** The trace a call of [download_and_post_media] leaves is the one the
    steps of its schedule leave. *)
Lemma batch_trace dp dv qp qv (st : State W) :
  trace (snd (Bot4.download_and_post_media env dir target messages
                dp dv qp qv st))
  = trace (snd (steps env dir target messages
                  (event_loop env messages (world st)) (fresh_batch messages)
                  {| world := world st; trace := trace st;
                     vars := Bot4.parameters dp dv qp qv |})).
Proof.
  rewrite <- gather_state.
  unfold Bot4.download_and_post_media, with_frame, Bot4.run_batch.
  unfold bind, peek, ret. cbn [world].
  change {| Bot4.semaphore := 5;
            Bot4.tasks := map (fun _ => Bot4.Waiting) messages |}
    with (fresh_batch messages).
  destruct (Bot4.gather env dir target messages
              (event_loop env messages (world st)) (fresh_batch messages)
              {| world := world st; trace := trace st;
                 vars := Bot4.parameters dp dv qp qv |})
    as [[b' | e |] st']; reflexivity.
Qed.

(** A task that has failed stays failed. *)
Lemma steps_keep_failures schedule : forall b (st : State W) b' st' j e,
  steps env dir target messages schedule b st = (Returned b', st') ->
  Bot4.tasks b !! j = Some (Bot4.Failed e) ->
  Bot4.tasks b' !! j = Some (Bot4.Failed e).
Proof.
  induction schedule as [| i rest IH]; intros b st b' st' j e Hrun Hj;
    cbn [steps] in Hrun.
  - injection Hrun as <- <-. exact Hj.
  - unfold bind in Hrun.
    destruct (advance_returns i b st) as (b1 & st1 & Hadv).
    rewrite Hadv in Hrun. apply (IH b1 st1 b' st' j e Hrun).
    destruct (decide (j = i)) as [Heq | Hne].
    + subst j. rewrite (advance_over i b st _ Hj eq_refl) in Hadv.
      injection Hadv as <- <-. exact Hj.
    + rewrite (advance_others env _ _ _ _ _ _ _ _ j Hadv Hne). exact Hj.
Qed.
End Gathering.

(** ** No task logs an error *)

Lemma errors_app t t' : errors (t ++ t') = errors t ++ errors t'.
Proof. apply List.filter_app. Qed.

Ltac same_errors :=
  rewrite ?errors_app; cbn [errors List.filter is_error]; rewrite ?app_nil_r.

Ltac no_error_leaf :=
  idtac;
  match goal with
  | |- preserves (fun st => errors (trace st) = ?n) (call _) =>
      apply (trace_call (fun t => errors t = n))
  | |- preserves (fun st => errors (trace st) = ?n) (assign _ _) =>
      apply (trace_assign (fun t => errors t = n))
  | |- preserves (fun st => errors (trace st) = ?n) (emit _) =>
      apply (trace_emit (fun t => errors t = n));
      let t := fresh "t" in let H := fresh "H" in
      intros t H; same_errors; exact H
  | |- preserves (fun st => errors (trace st) = ?n) (logging _ _) =>
      apply (trace_emit (fun t => errors t = n));
      let t := fresh "t" in let H := fresh "H" in
      intros t H; same_errors; exact H
  end.

Lemma bot4_advance_logs_no_error {W} (env : Env W) n dir target messages i b :
  preserves (fun st => errors (trace st) = n)
    (Bot4.advance env dir target messages i b).
Proof.
  unfold Bot4.advance, Bot4.start_task, Bot4.finish_task,
    Bot4.post_media_to_group.
  walk no_error_leaf.
Qed.

(** ** A page when the downloads leave their files *)

Lemma started_of_same f dir ts : forall ms i t t',
  ts !! i = Some t -> is_waiting t = is_waiting t' ->
  started_of f dir (<[i := t']> ts) ms = started_of f dir ts ms.
Proof.
  induction ts as [| x ts IH]; intros ms [| i] t t' Hi Hw; cbn in Hi;
    try discriminate.
  - injection Hi as ->. change (<[0%nat := t']> (t :: ts)) with (t' :: ts).
    destruct ms as [| m ms]; [reflexivity |]. cbn [started_of].
    rewrite Hw. reflexivity.
  - change (<[S i := t']> (x :: ts)) with (x :: <[i := t']> ts).
    destruct ms as [| m ms]; [reflexivity |]. cbn [started_of].
    rewrite (IH ms i t t' Hi Hw). reflexivity.
Qed.

Lemma started_of_start f dir ts : forall ms i m t',
  ts !! i = Some Bot4.Waiting -> ms !! i = Some m -> is_waiting t' = false ->
  Permutation
    (started_of f dir (<[i := t']> ts) ms)
    ((if taken_by_bot4 f m then [Download_started (msg_id m) dir] else [])
     ++ started_of f dir ts ms).
Proof.
  induction ts as [| x ts IH]; intros ms [| i] m t' Hi Hm Hw; cbn in Hi;
    try discriminate; destruct ms as [| m0 ms]; cbn in Hm; try discriminate.
  - injection Hi as ->. injection Hm as ->.
    change (<[0%nat := t']> (Bot4.Waiting :: ts)) with (t' :: ts).
    cbn [started_of is_waiting negb andb app]. rewrite Hw. cbn [negb andb].
    reflexivity.
  - change (<[S i := t']> (x :: ts)) with (x :: <[i := t']> ts).
    cbn [started_of]. rewrite (IH ms i m t' Hi Hm Hw).
    rewrite !app_assoc. apply Permutation_app_tail, Permutation_app_comm.
Qed.

Lemma started_of_fresh f dir ms :
  started_of f dir (map (fun _ => Bot4.Waiting) ms) ms = [].
Proof.
  induction ms as [| m ms IH]; [reflexivity |].
  cbn [map started_of is_waiting negb andb app]. exact IH.
Qed.

Lemma started_of_finished f dir ts : forall ms,
  length ts = length ms ->
  Forall (fun t => t = Bot4.Finished) ts ->
  started_of f dir ts ms
  = map (fun m => Download_started (msg_id m) dir)
        (List.filter (taken_by_bot4 f) ms).
Proof.
  induction ts as [| t ts IH]; intros [| m ms] Hlen Hall; cbn in Hlen;
    try discriminate; [reflexivity |].
  apply Forall_cons in Hall as [-> Hall].
  cbn [started_of is_waiting negb andb List.filter].
  rewrite (IH ms) by (try assumption; lia).
  destruct (taken_by_bot4 f m); reflexivity.
Qed.

Section Taking.
Context {W : Type} (env : Env W).
Hypothesis Hmat : materializes env.

(** One turn of the loop of bot3.py that ends normally has downloaded its
    message if the kind is open, and has counted nothing. *)
Lemma bot3_fetch_message_takes dir target message (st st' : State W) :
  Bot3.fetch_message env dir target message st = (Returned tt, st') ->
  vars st' = vars st /\
  downloads (trace st') =
    downloads (trace st) ++
    (if taken_by_bot3 (vars st) message
     then [Download_started (msg_id message) dir] else []).
Proof.
  unfold Bot3.fetch_message, Bot3.download, Bot3.path_exists,
    Bot3.post_media_to_group, taken_by_bot3, photos_open, videos_open,
    is_photo_message, is_video_message.
  destruct (media message) as [[| [doc |] |] |]; cbn [is_photo andb orb];
    unfold_monad;
    destruct (vars st downloaded_photos <? vars st download_photos)%Z;
    destruct (vars st downloaded_videos <? vars st download_videos)%Z;
    rewrite ?andb_true_r, ?andb_false_r; cbn [andb orb].
  all: repeat split_next;
    try file_is_there ltac:(fun Hd => exact (Hmat _ _ _ _ _ Hd));
    try discriminate.
  all: intros [= <-]; cbn [vars trace]; split; [reflexivity |].
  all: same_downloads; rewrite ?app_nil_r; reflexivity.
Qed.

(** A task of bot4.py at the semaphore goes to its download exactly when
    its kind is open and, for a video, no attribute is over the limit. *)
Lemma bot4_start_task_takes dir message (st : State W) :
  exists r st',
    attempt (Bot4.start_task dir message) st = (Returned r, st') /\
    vars st' = vars st /\
    if taken_by_bot4 (vars st) message
    then (exists kind, r = Returns (Some kind)) /\
         downloads (trace st') =
           downloads (trace st) ++ [Download_started (msg_id message) dir]
    else (forall kind, r <> Returns (Some kind)) /\
         downloads (trace st') = downloads (trace st).
Proof.
  unfold Bot4.start_task, taken_by_bot4, photos_open, videos_open,
    is_photo_message, is_short_video.
  destruct (media message) as [[| [doc |] |] |]; cbn [is_photo andb orb];
    unfold_monad;
    destruct (vars st downloaded_photos <? vars st download_photos)%Z;
    destruct (vars st downloaded_videos <? vars st download_videos)%Z;
    rewrite ?andb_true_r, ?andb_false_r; cbn [andb orb].
  all: repeat split_next.
  all: eexists; eexists; (split; [reflexivity |]); cbn [vars trace];
    (split; [reflexivity |]).
  all: cbn [andb orb] in *; try discriminate; try congruence.
  all: first
    [ split; [eexists; reflexivity | same_downloads; reflexivity]
    | split; [intros kind'; discriminate | same_downloads; reflexivity] ].
Qed.

(** The end of a task whose download has left its file: nothing counted,
    nothing started. *)
Lemma bot4_finish_task_keeps dir target message kind (st : State W) :
  exists r st',
    attempt (Bot4.finish_task env dir target message kind) st
      = (Returned r, st') /\
    vars st' = vars st /\
    downloads (trace st') = downloads (trace st).
Proof.
  unfold Bot4.finish_task, Bot4.post_media_to_group, Bot4.truthy.
  unfold_monad. repeat split_next;
    try file_is_there ltac:(fun Hd => exact (Hmat _ _ _ _ _ Hd));
    try discriminate.
  all: eexists; eexists; (split; [reflexivity |]); cbn [vars trace];
    (split; [reflexivity | same_downloads; reflexivity]).
Qed.

Section Batch.
Context (dir target : string) (messages : list Message).
Context (f : Locals) (base : list Event).

Local Abbreviation taking := (taking f base dir messages).

Lemma bot4_advance_takes i b (st : State W) b1 st1 :
  taking b st ->
  Bot4.advance env dir target messages i b st = (Returned b1, st1) ->
  taking b1 st1.
Proof.
  intros [Hv Hd] Hadv. unfold Bot4.advance in Hadv.
  destruct (messages !! i) as [message |] eqn:Hm;
    [| injection Hadv as <- <-; split; assumption].
  destruct (Bot4.tasks b !! i) as [[| kind | |] |] eqn:Htask;
    try (injection Hadv as <- <-; split; assumption).
  - destruct (Bot4.semaphore b) as [| free];
      [injection Hadv as <- <-; split; assumption |].
    destruct (bot4_start_task_takes dir message st)
      as (r & st' & Hrun & Hvars & Hcase).
    unfold bind in Hadv. rewrite Hrun in Hadv. unfold ret in Hadv.
    injection Hadv as <- <-. rewrite Hv in Hcase.
    split; [congruence |].
    destruct (taken_by_bot4 f message) eqn:Htaken.
    + destruct Hcase as [[kind ->] Hdl]. cbn [Bot4.tasks].
      rewrite Hdl, Hd.
      rewrite (started_of_start f dir (Bot4.tasks b) messages i message
                 (Bot4.In_download kind) Htask Hm eq_refl).
      rewrite Htaken, <- app_assoc. apply Permutation_app_head.
      symmetry. apply Permutation_cons_append.
    + destruct Hcase as [Hnot Hdl]. rewrite Hdl, Hd.
      apply Permutation_app_head.
      destruct r as [[kind |] | e];
        [exfalso; exact (Hnot kind eq_refl) | |]; cbn [Bot4.tasks].
      * rewrite (started_of_start f dir (Bot4.tasks b) messages i message
                   Bot4.Finished Htask Hm eq_refl).
        rewrite Htaken. reflexivity.
      * rewrite (started_of_start f dir (Bot4.tasks b) messages i message
                   (Bot4.Failed e) Htask Hm eq_refl).
        rewrite Htaken. reflexivity.
  - destruct (bot4_finish_task_keeps dir target message kind st)
      as (r & st' & Hrun & Hvars & Hdl).
    unfold bind in Hadv. rewrite Hrun in Hadv. unfold ret in Hadv.
    injection Hadv as <- <-. split; [congruence |].
    cbn [Bot4.tasks]. rewrite Hdl, Hd.
    rewrite (started_of_same f dir (Bot4.tasks b) messages i
               (Bot4.In_download kind)
               (match r with
                | Returns _ => Bot4.Finished
                | Raises e => Bot4.Failed e
                end) Htask);
      [reflexivity | destruct r; reflexivity].
Qed.

Lemma bot4_gather_takes schedule : forall b (st : State W) b' st',
  taking b st ->
  Bot4.gather env dir target messages schedule b st = (Returned b', st') ->
  taking b' st'.
Proof.
  induction schedule as [| i rest IH]; intros b st b' st' Hinv Hrun;
    cbn [Bot4.gather] in Hrun;
    destruct (forallb Bot4.settled (Bot4.tasks b));
    unfold ret, out_of_fuel in Hrun; try discriminate;
    try (injection Hrun as <- <-; exact Hinv).
  unfold bind in Hrun.
  destruct (Bot4.advance env dir target messages i b st)
    as [[b1 | e |] st1] eqn:Hadv; try discriminate.
  pose proof (bot4_advance_takes i b st b1 st1 Hinv Hadv) as Hinv1.
  destruct (Bot4.tasks b1 !! i) as [[| | | e] |].
  4: { exfalso.
       destruct (Bot4.run_ready env dir target messages rest b1 st1)
         as [[b2 | e2 |] st2]; unfold raise in Hrun; discriminate. }
  all: exact (IH b1 st1 b' st' Hinv1 Hrun).
Qed.
End Batch.
End Taking.

Section Returning.
Context {W : Type} (env : Env W).

(** [gather] returns only once every task has returned. *)
Lemma gather_returned dir target messages schedule :
  forall b (st : State W) b' st',
    (forall j e, Bot4.tasks b !! j <> Some (Bot4.Failed e)) ->
    Bot4.gather env dir target messages schedule b st = (Returned b', st') ->
    length (Bot4.tasks b') = length (Bot4.tasks b) /\
    Forall (fun t => t = Bot4.Finished) (Bot4.tasks b').
Proof.
  assert (Hdone : forall b : Bot4.Batch,
             (forall j e, Bot4.tasks b !! j <> Some (Bot4.Failed e)) ->
             forallb Bot4.settled (Bot4.tasks b) = true ->
             Forall (fun t => t = Bot4.Finished) (Bot4.tasks b)).
  { intros b Hok Hall. apply Forall_lookup. intros j t Hj.
    rewrite forallb_forall in Hall.
    assert (Hin : In t (Bot4.tasks b)).
    { apply list_elem_of_In, list_elem_of_lookup. exists j. exact Hj. }
    specialize (Hall t Hin).
    destruct t as [| kind | | e]; try discriminate; [reflexivity |].
    exfalso. exact (Hok j e Hj). }
  induction schedule as [| i rest IH]; intros b st b' st' Hok Hrun;
    cbn [Bot4.gather] in Hrun;
    destruct (forallb Bot4.settled (Bot4.tasks b)) eqn:Hall;
    unfold ret, out_of_fuel in Hrun;
    try discriminate;
    try (injection Hrun as <- <-; split; [reflexivity | apply Hdone; assumption]).
  destruct (bot4_advance_counts env dir target messages i b st)
    as (b1 & st1 & Hadv & Hlen & _ & _).
  unfold bind in Hrun. rewrite Hadv in Hrun.
  assert (Hok1 : (forall e, Bot4.tasks b1 !! i <> Some (Bot4.Failed e)) ->
                 forall j e', Bot4.tasks b1 !! j <> Some (Bot4.Failed e')).
  { intros Hi j e'. destruct (decide (j = i)) as [Heq | Hne].
    - subst j. apply Hi.
    - rewrite (advance_others env _ _ _ _ _ _ _ _ j Hadv Hne). apply Hok. }
  destruct (Bot4.tasks b1 !! i) as [[| | | e] |].
  4: { exfalso.
       destruct (Bot4.run_ready env dir target messages rest b1 st1)
         as [[b2 | e2 |] st2]; unfold raise in Hrun; discriminate. }
  all: apply IH in Hrun as [Hlen' Hfin];
    [split; [congruence | exact Hfin] |];
    apply Hok1; intros e; discriminate.
Qed.
End Returning.

(** * The claims *)

(** C7. The counting pass drains the paginated history: when the server
    hands out the pages [pages] and then an empty page, the pass (given fuel
    for them) returns having requested every one of them, and has added to
    [photo_count] and [video_count] the number of photos and of videos in
    all of them; conversely it returns only after an empty page, with these
    tallies. A document counts as a video by its content type alone,
    whatever its attributes say about its duration. *)
Theorem counting_pass_drains_history :
  forall {W} (env : Env W) (group : Group) (fuel : nat) (st : State W),
    (forall pages w',
        paged env (group_id group) (vars st offset_id) (world st) pages w' ->
        (length pages < fuel)%nat ->
        exists st',
          first_pass env fuel group st = (Returned tt, st') /\
          counted pages w' st st') /\
    (forall st',
        first_pass env fuel group st = (Returned tt, st') ->
        exists pages,
          paged env (group_id group) (vars st offset_id) (world st) pages
            (world st') /\
          counted pages (world st') st st') /\
    (forall i mime attrs,
        contains "video" mime = true ->
        let message :=
          {| msg_id := i;
             media := Some (MessageMediaDocument
                              (Some {| mime_type := mime;
                                       attributes := attrs |})) |} in
        is_video_message message = true /\
        vars (snd (count_message message st)) video_count =
          vars st video_count + 1).
Proof.
  intros W env group fuel st. split; [| split].
  - intros pages w' Hpaged Hfuel.
    eapply first_pass_drains; eauto.
  - intros st' Hrun.
    apply first_pass_returned in Hrun as (pages & _ & Hpaged & Hcounted).
    exists pages. split; assumption.
  - intros i mime attrs Hmime message.
    assert (Hv : is_video_message message = true) by exact Hmime.
    split; [exact Hv |].
    destruct (count_message_spec message st) as (st' & E & _ & _ & _ & _ & Hc).
    rewrite E. cbn [snd]. rewrite Hc, Hv. reflexivity.
Qed.

Lemma counting_pass_drains_history_witness :
  exists st',
    first_pass Sim.env 3 Scenario.channel (Sim.start Scenario.mixed)
      = (Returned tt, st') /\
    vars st' photo_count = 2 /\ vars st' video_count = 1.
Proof.
  destruct (proj1 (counting_pass_drains_history Sim.env Scenario.channel 3
                     (Sim.start Scenario.mixed))
              Scenario.mixed_pages Scenario.mixed)
    as (st' & Hrun & _ & _ & Hp & Hv).
  - eapply paged_more; [reflexivity | discriminate |].
    eapply paged_more; [reflexivity | discriminate |].
    apply paged_end. reflexivity.
  - cbn. lia.
  - exists st'. split; [exact Hrun |]. split; [exact Hp | exact Hv].
Defined.

(** C1 (the code does otherwise). The quota does not bound what is
    downloaded. Where a finished download has left its file, as a download
    does, either script finds the file it has just written, takes it for
    one that was there already and counts nothing; so a kind whose counter
    is below its quota when a page begins is downloaded whole, whatever the
    quota: by bot3.py every photo and every video of the page, in order,
    by bot4.py every photo and every video with no attribute over the
    limit, in the order of the schedule. A kind whose counter has reached
    its quota is left alone. *)
Theorem quota_does_not_bound_the_downloads :
  forall {W} (env : Env W),
    materializes env ->
    forall (dir target : string) (messages : list Message) (st st' : State W),
      (for_each (Bot3.fetch_message env dir target) messages st
         = (Returned tt, st') ->
       vars st' = vars st /\
       downloads (trace st') =
         downloads (trace st) ++
         map (fun m => Download_started (msg_id m) dir)
             (List.filter (taken_by_bot3 (vars st)) messages)) /\
      (Bot4.download_and_post_media env dir target messages
         (vars st downloaded_photos) (vars st downloaded_videos)
         (vars st download_photos) (vars st download_videos) st
         = (Returned tt, st') ->
       vars st' = vars st /\
       Permutation
         (downloads (trace st'))
         (downloads (trace st) ++
          map (fun m => Download_started (msg_id m) dir)
              (List.filter (taken_by_bot4 (vars st)) messages))).
Proof.
  intros W env Hmat dir target messages st st'. split.
  - revert st. induction messages as [| m ms IH]; intros st Hrun;
      cbn [for_each] in Hrun.
    + injection Hrun as <-. cbn. rewrite app_nil_r. split; reflexivity.
    + unfold bind in Hrun.
      destruct (Bot3.fetch_message env dir target m st) as [[[] | e |] st1]
        eqn:Hm; try discriminate.
      destruct (bot3_fetch_message_takes env Hmat dir target m st st1 Hm)
        as [Hvars Hd].
      destruct (IH st1 Hrun) as [Hvars' Hd'].
      split; [congruence |].
      rewrite Hd', Hd, Hvars, <- app_assoc. cbn [List.filter].
      destruct (taken_by_bot3 (vars st) m); reflexivity.
  - intros Hrun.
    pose proof (download_and_post_media_vars env dir target messages
                  (vars st downloaded_photos) (vars st downloaded_videos)
                  (vars st download_photos) (vars st download_videos) st)
      as Hvars.
    rewrite Hrun in Hvars. cbn [snd] in Hvars. split; [exact Hvars |].
    unfold Bot4.download_and_post_media, with_frame, Bot4.run_batch in Hrun.
    unfold bind, peek, ret in Hrun. cbn [world trace vars] in Hrun.
    match type of Hrun with
    | context [Bot4.gather ?e ?d ?t ?ms ?sch ?b ?s] =>
        destruct (Bot4.gather e d t ms sch b s) as [[b' | e' |] st'']
          eqn:Hgather; try discriminate;
        pose proof (bot4_gather_takes e Hmat d t ms (vars s)
                      (downloads (trace st)) sch b s b' st'') as Htakes;
        pose proof (gather_returned e d t ms sch b s b' st'') as Hdone
    end.
    injection Hrun as <-. cbn [trace].
    destruct Hdone as [Hlen Hfin]; [| exact Hgather |].
    { exact (proj2 (proj2 (fresh_batch_counts messages))). }
    destruct Htakes as [_ Hperm]; [| exact Hgather |].
    { split; [reflexivity |]. cbn [trace vars Bot4.tasks].
      rewrite started_of_fresh, app_nil_r. reflexivity. }
    cbn [vars Bot4.tasks] in *. rewrite length_map in Hlen.
    rewrite (started_of_finished _ dir (Bot4.tasks b') messages Hlen Hfin)
      in Hperm.
    assert (Hsame : forall m,
               taken_by_bot4
                 (Bot4.parameters
                    (vars st downloaded_photos) (vars st downloaded_videos)
                    (vars st download_photos) (vars st download_videos)) m
               = taken_by_bot4 (vars st) m).
    { intros m. unfold taken_by_bot4, photos_open, videos_open,
        Bot4.parameters. lookup. reflexivity. }
    rewrite (List.filter_ext _ _ Hsame) in Hperm. exact Hperm.
Qed.

Lemma quota_does_not_bound_the_downloads_witness :
  (vars Scenario4.harvested3 download_photos = 1 /\
   vars Scenario4.harvested3 downloaded_photos = 0 /\
   length (downloads (trace Scenario4.harvested3)) = 10%nat) /\
  (vars Scenario4.harvested4 download_photos = 1 /\
   vars Scenario4.harvested4 downloaded_photos = 0 /\
   length (downloads (trace Scenario4.harvested4)) = 10%nat) /\
  (vars (snd Scenario4.after_loop) = vars Scenario4.page_begins /\
   downloads (trace (snd Scenario4.after_loop)) =
     downloads (trace Scenario4.page_begins) ++
     map (fun m => Download_started (msg_id m) "media/g")
         (List.filter (taken_by_bot3 (vars Scenario4.page_begins))
            Scenario4.ten)) /\
  (vars (snd Scenario4.after_batch) = vars Scenario4.page_begins /\
   Permutation
     (downloads (trace (snd Scenario4.after_batch)))
     (downloads (trace Scenario4.page_begins) ++
      map (fun m => Download_started (msg_id m) "media/g")
          (List.filter (taken_by_bot4 (vars Scenario4.page_begins))
             Scenario4.ten))).
Proof.
  split; [repeat split; vm_compute; reflexivity |].
  split; [repeat split; vm_compute; reflexivity |].
  split.
  - apply (proj1 (quota_does_not_bound_the_downloads Sim.env sim_materializes
                    "media/g" "t" Scenario4.ten Scenario4.page_begins
                    (snd Scenario4.after_loop))).
    vm_compute. reflexivity.
  - apply (proj2 (quota_does_not_bound_the_downloads Sim.env sim_materializes
                    "media/g" "t" Scenario4.ten Scenario4.page_begins
                    (snd Scenario4.after_batch))).
    vm_compute. reflexivity.
Defined.

(** C8 (amended). After the counting pass and the two prompts, each quota
    is min(requested, available); available is never negative, so the
    quota is non-negative whenever the number the operator typed is; and
    the fetch pass of either script never assigns the quota variables: at
    whatever point it stops they hold the same values, and the allowance
    left, quota minus counter in [harvest_and_post_media], is not negative
    when the request was not. *)
Theorem quota_is_min_of_requested_and_available :
  forall {W} (env : Env W) (group : Group) (target : string) (fuel0 : nat)
         (st0 st : State W) (rp rv : Z) (w1 w2 : W),
    count_media env fuel0 group st0 = (Returned tt, st) ->
    input_int env (photos_prompt group) (world st) = (Returns rp, w1) ->
    input_int env (videos_prompt group) w1 = (Returns rv, w2) ->
    let st1 := snd (ask_quota env group st) in
    vars st1 download_photos = Z.min rp (vars st photo_count) /\
    vars st1 download_videos = Z.min rv (vars st video_count) /\
    0 <= vars st photo_count /\ 0 <= vars st video_count /\
    (0 <= rp -> 0 <= vars st1 download_photos) /\
    (0 <= rv -> 0 <= vars st1 download_videos) /\
    forall (fuel : nat) (st' : State W),
      st' = snd (Bot3.second_pass env fuel group target st1) \/
      st' = snd (Bot4.second_pass env fuel group target st1) ->
      vars st' download_photos = vars st1 download_photos /\
      vars st' download_videos = vars st1 download_videos /\
      (0 <= rp -> 0 <= vars st' download_photos - vars st' downloaded_photos) /\
      (0 <= rv -> 0 <= vars st' download_videos - vars st' downloaded_videos).
Proof.
  intros W env group target fuel0 st0 st rp rv w1 w2 Hcount H1 H2 st1.
  destruct (ask_quota_answered env group st rp rv w1 w2 H1 H2)
    as (st1' & E & _ & _ & _ & _ & Hqp & Hqv).
  assert (Hst1 : st1 = st1') by (unfold st1; rewrite E; reflexivity).
  clearbody st1. subst st1'.
  destruct (count_media_returned env fuel0 group st0 st Hcount)
    as (pages & w & _ & Hp & Hv).
  assert (Hp0 : 0 <= vars st photo_count) by (rewrite Hp; unfold tally; lia).
  assert (Hv0 : 0 <= vars st video_count) by (rewrite Hv; unfold tally; lia).
  repeat split; try assumption; try lia.
  all: intros; match goal with
       | H : _ \/ _ |- _ => destruct H as [-> | ->]
       end.
  all: match goal with
       | |- context [Bot3.second_pass] =>
           destruct (bot3_second_pass_within_quota env fuel group target st1)
             as (Hframe & Hdp & Hdv)
       | |- context [Bot4.second_pass] =>
           destruct (bot4_second_pass_within_quota env fuel group target st1)
             as (Hframe & Hdp & Hdv)
       end.
  all: try (apply Hframe; discriminate).
  all: rewrite ?(Hframe download_photos), ?(Hframe download_videos)
         by discriminate; lia.
Qed.

Lemma quota_is_min_of_requested_and_available_witness :
  vars (Scenario.counted Sim.env Scenario.mixed) photo_count = 2 /\
  vars (Scenario.counted Sim.env Scenario.mixed) video_count = 1 /\
  vars (Scenario.asked Sim.env Scenario.mixed) download_photos
    = Z.min 5 (vars (Scenario.counted Sim.env Scenario.mixed) photo_count) /\
  vars (Scenario.asked Sim.env Scenario.mixed) download_videos
    = Z.min 5 (vars (Scenario.counted Sim.env Scenario.mixed) video_count).
Proof.
  split; [vm_compute; reflexivity |]. split; [vm_compute; reflexivity |].
  destruct (quota_is_min_of_requested_and_available Sim.env Scenario.channel
              "t" 5 (Sim.start Scenario.mixed)
              (Scenario.counted Sim.env Scenario.mixed) 5 5
              (Sim.with_typed [Returns 5] Scenario.mixed)
              (Sim.with_typed [] Scenario.mixed))
    as (Hp & Hv & _);
    [vm_compute; reflexivity | vm_compute; reflexivity
     | vm_compute; reflexivity |].
  split; [exact Hp | exact Hv].
Defined.

(** C8 as stated fails when the operator types a negative number: the
    photo quota starts at -1. *)
Lemma negative_request_gives_negative_quota :
  vars (Scenario.asked Sim.env Scenario.negative_request) download_photos
    = -1 /\
  ~ 0 <= vars (Scenario.asked Sim.env Scenario.negative_request)
           download_photos.
Proof.
  split; [vm_compute; reflexivity |].
  intros H. vm_compute in H. apply H. reflexivity.
Qed.

(** C6. In both scripts a failure raised while a group is processed is
    caught by the handler around the loop body, which logs it and returns;
    and whatever the groups before it did, failures included, a later group
    [B] is processed from the state they left and the loop goes on after
    it, provided none of the earlier scans went on for ever. *)
Theorem failed_group_does_not_stop_the_run :
  forall {W} (env : Env W) (fuel : nat) (target : string),
    (forall (A : Group) (st st' : State W) (e : Exn),
        Bot3.harvest_body env fuel A target st = (Raised e, st') ->
        Bot3.harvest_group env fuel target A st =
        (Returned tt,
         {| world := world st';
            trace := trace st' ++ [Log ERROR (Error_harvesting (group_name A) e)];
            vars := vars st' |})) /\
    (forall (before : list Group) (B : Group) (after : list Group)
            (st : State W),
        fst (Bot3.harvest_and_post_media env fuel target before st)
          <> Out_of_fuel ->
        Bot3.harvest_and_post_media env fuel target (before ++ B :: after) st =
        (Bot3.harvest_group env fuel target B ;;
         Bot3.harvest_and_post_media env fuel target after)
          (snd (Bot3.harvest_and_post_media env fuel target before st))) /\
    (forall (A : Group) (st st' : State W) (e : Exn),
        Bot4.harvest_body env fuel A target st = (Raised e, st') ->
        Bot4.harvest_group env fuel target A st =
        (Returned tt,
         {| world := world st';
            trace := trace st' ++ [Log ERROR (Error_harvesting (group_name A) e)];
            vars := vars st' |})) /\
    (forall (before : list Group) (B : Group) (after : list Group)
            (st : State W),
        fst (Bot4.harvest_and_post_media env fuel target before st)
          <> Out_of_fuel ->
        Bot4.harvest_and_post_media env fuel target (before ++ B :: after) st =
        (Bot4.harvest_group env fuel target B ;;
         Bot4.harvest_and_post_media env fuel target after)
          (snd (Bot4.harvest_and_post_media env fuel target before st))).
Proof.
  intros W env fuel target. repeat split.
  - intros A st st' e Hbody. unfold Bot3.harvest_group, try_except.
    rewrite Hbody. reflexivity.
  - intros before B after st Hfuel.
    exact (guarded_loop_reaches
             (fun g => Bot3.harvest_body env fuel g target)
             (fun g e => Error_harvesting (group_name g) e)
             before B after st Hfuel).
  - intros A st st' e Hbody. unfold Bot4.harvest_group, try_except.
    rewrite Hbody. reflexivity.
  - intros before B after st Hfuel.
    exact (guarded_loop_reaches
             (fun g => Bot4.harvest_body env fuel g target)
             (fun g e => Error_harvesting (group_name g) e)
             before B after st Hfuel).
Qed.

Lemma failed_group_does_not_stop_the_run_witness :
  Bot3.harvest_and_post_media Sim.env 5 "t"
    ([Scenario2.first_channel] ++ Scenario2.second_channel :: [])
    (Sim.start Scenario2.locked_first) =
  (Bot3.harvest_group Sim.env 5 "t" Scenario2.second_channel ;;
   Bot3.harvest_and_post_media Sim.env 5 "t" [])
    (snd (Bot3.harvest_and_post_media Sim.env 5 "t"
            [Scenario2.first_channel] (Sim.start Scenario2.locked_first))) /\
  trace (snd (Bot3.harvest_and_post_media Sim.env 5 "t"
                [Scenario2.first_channel; Scenario2.second_channel]
                (Sim.start Scenario2.locked_first))) =
  [Log ERROR (Error_harvesting "a" OSError);
   Log INFO (Fetching_messages "b");
   Log INFO (Found 1 0 "b");
   Log INFO (Downloading 1 0 "b");
   Download_started 4 "media/b";
   Log INFO (Already_exists "media/b/4.bin");
   Log INFO (Completed "b")].
Proof.
  split.
  - apply (proj1 (proj2 (failed_group_does_not_stop_the_run Sim.env 5 "t"))).
    vm_compute. discriminate.
  - vm_compute. reflexivity.
Defined.

(** C9. Both scripts call [os.path.exists(file_name)] on the world the
    download has left. So, when a download that returns a path has put its
    file there, no step of the fetch pass assigns a variable or calls
    [post_media_to_group]: the test finds the file of every finished
    download, the counters are never incremented, and at whatever point the
    fetch pass of either script stops, both counters are at zero and
    nothing has been posted. *)
Theorem download_then_exists_counts_nothing :
  forall {W} (env : Env W),
    materializes env ->
    (forall dir target message (st : State W),
        let st' := snd (Bot3.fetch_message env dir target message st) in
        vars st' = vars st /\ posts (trace st') = posts (trace st)) /\
    (forall dir target message kind (st : State W),
        let st' := snd (Bot4.finish_task env dir target message kind st) in
        vars st' = vars st /\ posts (trace st') = posts (trace st)) /\
    (forall fuel group target (st : State W),
        nothing_counted st (snd (Bot3.second_pass env fuel group target st)) /\
        nothing_counted st (snd (Bot4.second_pass env fuel group target st))).
Proof.
  intros W env Hmat. split; [| split].
  - intros dir target message st.
    apply bot3_fetch_message_still. intros p w' Hd.
    exact (Hmat _ _ _ _ _ Hd).
  - intros dir target message kind st.
    apply bot4_finish_task_still. intros p w' Hd.
    exact (Hmat _ _ _ _ _ Hd).
  - intros fuel group target st. split.
    + exact (bot3_second_pass_idle env Hmat fuel group target st).
    + exact (bot4_second_pass_idle env Hmat fuel group target st).
Qed.

Lemma download_then_exists_counts_nothing_witness :
  vars (Scenario.asked Sim.env Scenario.mixed) download_photos = 2 /\
  downloads (trace (Scenario.fetched Sim.env Scenario.mixed)) =
    [Download_started 3 "media/g"; Download_started 2 "media/g";
     Download_started 1 "media/g"] /\
  nothing_counted (Scenario.asked Sim.env Scenario.mixed)
    (Scenario.fetched Sim.env Scenario.mixed).
Proof.
  split; [vm_compute; reflexivity |]. split; [vm_compute; reflexivity |].
  exact (proj1 (proj2 (proj2 (download_then_exists_counts_nothing
                                Sim.env sim_materializes))
                 5%nat Scenario.channel "t"
                 (Scenario.asked Sim.env Scenario.mixed))).
Defined.

(** C2. Where downloads remove no file, a step whose download returns a
    path that was already on the disk before it assigns no variable (the
    counter is not incremented, the quota and so the allowance left are
    what they were) and posts nothing, in either script; and when every
    download returns such a path, the fetch pass of either script ends, at
    whatever point, with both counters at zero. *)
Theorem existing_file_is_not_counted :
  forall {W} (env : Env W),
    keeps_files env ->
    (forall dir target message (st : State W) path w',
        download_media env message dir (world st) = (Returns (Some path), w') ->
        os_path_exists env path (world st) = true ->
        (let st' := snd (Bot3.fetch_message env dir target message st) in
         vars st' = vars st /\ posts (trace st') = posts (trace st)) /\
        (forall kind,
           let st' := snd (Bot4.finish_task env dir target message kind st) in
           vars st' = vars st /\ posts (trace st') = posts (trace st))) /\
    (files_all_exist env ->
     forall fuel group target (st : State W),
       nothing_counted st (snd (Bot3.second_pass env fuel group target st)) /\
       nothing_counted st (snd (Bot4.second_pass env fuel group target st))).
Proof.
  intros W env Hkeep. split.
  - intros dir target message st path w' Hd Hbefore.
    assert (Hlocal : forall p w'',
               download_media env message dir (world st)
                 = (Returns (Some p), w'') ->
               os_path_exists env p w'' = true).
    { intros p w'' Hd'. rewrite Hd in Hd'. injection Hd' as <- <-.
      specialize (Hkeep message dir (world st) path Hbefore).
      rewrite Hd in Hkeep. exact Hkeep. }
    split; [| intros kind].
    + apply bot3_fetch_message_still, Hlocal.
    + apply bot4_finish_task_still, Hlocal.
  - intros Hall fuel group target st.
    pose proof (keeps_all_materializes env Hkeep Hall) as Hmat.
    split.
    + exact (bot3_second_pass_idle env Hmat fuel group target st).
    + exact (bot4_second_pass_idle env Hmat fuel group target st).
Qed.

Lemma existing_file_is_not_counted_witness :
  (downloads
     (trace (snd (Bot3.fetch_message Sim.env "media/g" "t" (Sim.photo 3)
                    (Scenario.fetching 2 1 Scenario.already))))
     = [Download_started 3 "media/g"] /\
   vars (snd (Bot3.fetch_message Sim.env "media/g" "t" (Sim.photo 3)
                (Scenario.fetching 2 1 Scenario.already)))
     = vars (Scenario.fetching 2 1 Scenario.already) /\
   posts (trace (snd (Bot3.fetch_message Sim.env "media/g" "t" (Sim.photo 3)
                        (Scenario.fetching 2 1 Scenario.already))))
     = posts (trace (Scenario.fetching 2 1 Scenario.already))) /\
  nothing_counted (Scenario.fetching 2 1 Scenario.mixed)
    (snd (Bot3.second_pass Sim.rerun 5 Scenario.channel "t"
            (Scenario.fetching 2 1 Scenario.mixed))).
Proof.
  split; [split |].
  - vm_compute. reflexivity.
  - destruct (proj1 (existing_file_is_not_counted Sim.env sim_keeps_files)
                "media/g" "t" (Sim.photo 3)
                (Scenario.fetching 2 1 Scenario.already) "media/g/3.bin"
                (Sim.with_disk ("media/g/3.bin" :: Sim.disk Scenario.already)
                   Scenario.already))
      as [Hstep _]; [vm_compute; reflexivity | vm_compute; reflexivity |].
    exact Hstep.
  - exact (proj1 (proj2 (existing_file_is_not_counted Sim.rerun rerun_keeps_files)
                    rerun_files_all_exist 5%nat Scenario.channel "t"
                    (Scenario.fetching 2 1 Scenario.mixed))).
Defined.

(** C10. [download_and_post_media] gets the two counters by value: whatever
    the batch does to its copies, the caller's variables are the same after
    the call; so the second loop of bot4.py is the loop that hands every
    page the integers the caller held when the loop began, and at whatever
    point the fetch pass stops the caller's counters are at zero. *)
Theorem batch_counters_are_passed_by_value :
  forall {W} (env : Env W),
    (forall dir target messages dp dv qp qv (st : State W),
        vars (snd (Bot4.download_and_post_media env dir target messages
                     dp dv qp qv st)) = vars st) /\
    (forall fuel group target (st : State W),
        Bot4.fetch_pages env fuel group target st =
        fetch_pages_by_value env
          (vars st downloaded_photos) (vars st downloaded_videos)
          (vars st download_photos) (vars st download_videos)
          fuel group target st) /\
    (forall fuel group target (st : State W),
        let st' := snd (Bot4.second_pass env fuel group target st) in
        vars st' downloaded_photos = 0 /\ vars st' downloaded_videos = 0).
Proof.
  intros W env. split; [| split].
  - intros. apply download_and_post_media_vars.
  - intros. apply bot4_fetch_pages_by_value.
  - intros. apply bot4_second_pass_counters.
Qed.

(** An increment made inside a batch: the copy of the batch goes to 1, the
    caller's counter stays at 0. (The file must be missing when the task
    looks for it, or no increment is made at all.) *)
Example increment_stays_in_the_batch :
  vars (snd (Bot4.run_batch Sim.forgetful "media/g" "t" [Sim.photo 3]
               (Scenario.fetching 2 0 Scenario.mixed)))
    downloaded_photos = 1 /\
  vars (snd (Bot4.download_and_post_media Sim.forgetful "media/g" "t"
               [Sim.photo 3] 0 0 2 0 (Scenario.fetching 2 0 Scenario.mixed)))
    downloaded_photos = 0.
Proof.
  split; vm_compute; reflexivity.
Qed.


(** C3 (amended). In bot4.py a document with an attribute whose duration
    is over 600 seconds is never handed to [download_media], whatever the
    quota: its coroutine returns before the download, and the event loop
    never leaves its task in a download. A video none of whose attributes
    has a duration is started when the video quota is not used up.
    (bot3.py does not look at durations.) *)
Theorem long_video_is_not_started :
  forall {W} (env : Env W),
    (forall dir (message : Message) doc attr seconds,
        media message = Some (MessageMediaDocument (Some doc)) ->
        In attr (attributes doc) ->
        duration attr = Some seconds ->
        600 < seconds ->
        (forall st : State W,
            fst (Bot4.start_task dir message st) = Returned None /\
            downloads (trace (snd (Bot4.start_task dir message st)))
              = downloads (trace st)) /\
        (forall target messages i b (st : State W),
            messages !! i = Some message ->
            Bot4.tasks b !! i = Some Bot4.Waiting ->
            exists b',
              fst (Bot4.advance env dir target messages i b st) = Returned b' /\
              (Bot4.tasks b' !! i = Some Bot4.Waiting \/
               Bot4.tasks b' !! i = Some Bot4.Finished) /\
              downloads (trace (snd (Bot4.advance env dir target messages i b st)))
                = downloads (trace st))) /\
    (forall dir (message : Message) doc (st : State W),
        media message = Some (MessageMediaDocument (Some doc)) ->
        contains "video" (mime_type doc) = true ->
        (forall attr, In attr (attributes doc) -> duration attr = None) ->
        vars st downloaded_videos < vars st download_videos ->
        Bot4.start_task dir message st =
        (Returned (Some Bot4.Video),
         {| world := world st;
            trace := trace st ++ [Download_started (msg_id message) dir];
            vars := vars st |})).
Proof.
  intros W env. split.
  - intros dir message doc attr seconds Hmedia Hin Hdur Hlong.
    assert (Hfind : exists attr', List.find Bot4.too_long (attributes doc)
                                  = Some attr').
    { apply (find_too_long (attributes doc) attr Hin).
      unfold Bot4.too_long, max_video_duration. rewrite Hdur.
      apply Z.gtb_lt. lia. }
    destruct Hfind as [attr' Hfind].
    assert (Hstart : forall st : State W,
               fst (Bot4.start_task dir message st) = Returned None /\
               downloads (trace (snd (Bot4.start_task dir message st)))
                 = downloads (trace st)).
    { intros st. unfold Bot4.start_task. rewrite Hmedia. cbn [is_photo andb].
      unfold_monad. rewrite Hfind.
      destruct (contains "video" (mime_type doc) &&
                (vars st downloaded_videos <? vars st download_videos)%Z);
        cbn [fst snd trace]; split; try reflexivity.
      unfold downloads. rewrite List.filter_app. cbn. apply app_nil_r. }
    split; [exact Hstart |].
    intros target messages i b st Hmsg Htask.
    unfold Bot4.advance. rewrite Hmsg, Htask.
    destruct (Bot4.semaphore b) as [| free].
    + exists b. cbn. auto.
    + destruct (Hstart st) as [Hr Ht]. unfold_monad.
      destruct (Bot4.start_task dir message st) as [r st1].
      cbn [fst snd] in Hr, Ht. subst r. cbn [fst snd].
      eexists. split; [reflexivity |]. split; [| exact Ht].
      right. cbn [Bot4.tasks]. apply list_lookup_insert_eq.
      eapply lookup_lt_Some, Htask.
  - intros dir message doc st Hmedia Hmime Hattrs Hquota.
    unfold Bot4.start_task. rewrite Hmedia. cbn [is_photo andb].
    unfold_monad. rewrite Hmime.
    apply Z.ltb_lt in Hquota. rewrite Hquota. cbn [andb].
    rewrite find_none_too_long; [reflexivity |].
    intros attr Hin. unfold Bot4.too_long. rewrite (Hattrs attr Hin).
    reflexivity.
Qed.

Lemma long_video_is_not_started_witness :
  fst (Bot4.start_task "media/g" (Sim.video 2 (Some 700))
         (Scenario.fetching 0 5 Scenario.mixed)) = Returned None /\
  downloads (trace (snd (Bot4.start_task "media/g" (Sim.video 2 (Some 700))
                           (Scenario.fetching 0 5 Scenario.mixed)))) = [] /\
  fst (Bot4.start_task "media/g" (Sim.video 2 None)
         (Scenario.fetching 0 5 Scenario.mixed))
    = Returned (Some Bot4.Video).
Proof.
  destruct (proj1 (long_video_is_not_started Sim.env) "media/g"
              (Sim.video 2 (Some 700))
              {| mime_type := "video/mp4";
                 attributes := [ {| duration := Some 700 |} ] |}
              {| duration := Some 700 |} 700) as [Hstart _];
    [reflexivity | left; reflexivity | reflexivity | lia |].
  destruct (Hstart (Scenario.fetching 0 5 Scenario.mixed)) as [Hr Ht].
  split; [exact Hr |]. split; [exact Ht |].
  rewrite (proj2 (long_video_is_not_started Sim.env) "media/g"
             (Sim.video 2 None)
             {| mime_type := "video/mp4";
                attributes := [ {| duration := None |} ] |}
             (Scenario.fetching 0 5 Scenario.mixed));
    [reflexivity | reflexivity | reflexivity | | vm_compute; reflexivity].
  intros attr [<- | []]. reflexivity.
Defined.

(** C3 as stated fails in bot3.py: with video quota left, its fetch step
    downloads a video of 700 seconds. *)
Lemma bot3_downloads_a_long_video :
  downloads
    (trace (snd (Bot3.fetch_message Sim.env "media/g" "t"
                   (Sim.video 2 (Some 700))
                   (Scenario.fetching 0 1 Scenario.mixed))))
  = [Download_started 2 "media/g"].
Proof. vm_compute. reflexivity. Qed.

(** C4 (the code does otherwise). One unit of photo quota, two photos in
    the page: the event loop runs the first coroutine up to its download,
    then the second; the second reads the counter the first has not yet
    incremented, passes the same check, and both downloads are under way.
    In the simulated run of the whole batch both downloads are made. *)
Theorem both_tasks_pass_the_check_for_the_last_unit :
  forall {W} (env : Env W) (w : W) (dir target : string),
    (b1 <- Bot4.advance env dir target Scenario2.two_photos 0
             {| Bot4.semaphore := 5;
                Bot4.tasks := [Bot4.Waiting; Bot4.Waiting] |} ;;
     Bot4.advance env dir target Scenario2.two_photos 1 b1)
      {| world := w; trace := []; vars := Bot4.parameters 0 0 1 0 |} =
    (Returned Scenario2.both_in_download,
     {| world := w;
        trace := [Download_started 2 dir; Download_started 1 dir];
        vars := Bot4.parameters 0 0 1 0 |}) /\
    downloads
      (trace (snd (Bot4.download_and_post_media Sim.env "media/g" "t"
                     Scenario2.two_photos 0 0 1 0
                     (Sim.start Scenario.mixed))))
    = [Download_started 2 "media/g"; Download_started 1 "media/g"].
Proof.
  intros W env w dir target. split.
  - reflexivity.
  - vm_compute. reflexivity.
Qed.

(** C5 (amended). In bot4.py nothing catches a failure inside a task, and
    no task logs an error. A failure ends its own coroutine only: [gather]
    cancels nothing, and what it leaves is what the steps of the schedule
    leave, the steps made after the failure included. The exception
    [gather] raises is that of the first task to fail, once the later steps
    of the schedule have been made; with it the second loop of the group
    ends, no further page being asked for, and the handler around the group
    logs the error and returns. *)
Theorem task_failure_ends_the_fetch_of_the_group :
  forall {W} (env : Env W),
    (forall dir target messages schedule b (st : State W),
        errors (trace (snd (steps env dir target messages schedule b st)))
        = errors (trace st)) /\
    (forall dir target messages schedule b (st : State W),
        snd (Bot4.gather env dir target messages schedule b st)
        = snd (steps env dir target messages schedule b st)) /\
    (forall dir target messages schedule (st : State W) b' st',
        steps env dir target messages schedule (fresh_batch messages) st
          = (Returned b', st') ->
        existsb has_failed (Bot4.tasks b') = true ->
        exists before i later b1 st1 b2 st2 e,
          schedule = before ++ i :: later /\
          steps env dir target messages before (fresh_batch messages) st
            = (Returned b1, st1) /\
          existsb has_failed (Bot4.tasks b1) = false /\
          Bot4.advance env dir target messages i b1 st1 = (Returned b2, st2) /\
          Bot4.tasks b2 !! i = Some (Bot4.Failed e) /\
          steps env dir target messages later b2 st2 = (Returned b', st') /\
          Bot4.gather env dir target messages schedule (fresh_batch messages) st
            = (Raised e, st')) /\
    (forall fuel group target (st : State W) messages w1 b' st2,
        get_messages env (group_id group) (vars st offset_id) limit (world st)
          = (Returns messages, w1) ->
        messages <> [] ->
        steps env (group_dir group) target messages
          (event_loop env messages w1) (fresh_batch messages)
          {| world := w1; trace := trace st;
             vars := Bot4.parameters
                       (vars st downloaded_photos) (vars st downloaded_videos)
                       (vars st download_photos) (vars st download_videos) |}
          = (Returned b', st2) ->
        existsb has_failed (Bot4.tasks b') = true ->
        exists e,
          In (Bot4.Failed e) (Bot4.tasks b') /\
          Bot4.fetch_pages env (S fuel) group target st =
            (Raised e,
             {| world := world st2; trace := trace st2; vars := vars st |})) /\
    (forall fuel group target (st st' : State W) e,
        Bot4.harvest_body env fuel group target st = (Raised e, st') ->
        Bot4.harvest_group env fuel target group st =
        (Returned tt,
         {| world := world st';
            trace := trace st'
                     ++ [Log ERROR (Error_harvesting (group_name group) e)];
            vars := vars st' |})).
Proof.
  intros W env. split; [| split; [| split; [| split]]].
  - intros dir target messages schedule b st.
    apply (preserves_steps env (fun s => errors (trace s) = errors (trace st)));
      [| reflexivity].
    intros i b0. apply bot4_advance_logs_no_error.
  - intros dir target messages schedule b st. apply gather_state.
  - intros dir target messages schedule st b' st' Hrun Hfailed.
    destruct (fresh_batch_counts messages) as (_ & _ & Hok).
    exact (gather_raises_the_first_failure env dir target messages schedule
             (fresh_batch messages) st b' st' Hok Hrun Hfailed).
  - intros fuel group target st messages w1 b' st2 Hget Hne Hrun Hfailed.
    destruct (fresh_batch_counts messages) as (_ & _ & Hok).
    destruct (gather_raises_the_first_failure env _ _ _ _ _ _ _ _
                Hok Hrun Hfailed)
      as (before & i & later & b1 & st1 & b2 & st3 & e
          & _ & _ & _ & _ & Hi & Hlater & Hgather).
    exists e. split.
    + apply list_elem_of_In, list_elem_of_lookup. exists i.
      exact (steps_keep_failures env _ _ _ _ _ _ _ _ _ _ Hlater Hi).
    + cbn [Bot4.fetch_pages]. unfold bind at 1. unfold read at 1.
      unfold bind at 1. unfold call at 1. rewrite Hget.
      destruct messages as [| m ms]; [congruence |].
      unfold Bot4.download_and_post_media, with_frame, Bot4.run_batch.
      unfold bind, read, peek. cbn [world trace vars fst snd].
      change {| Bot4.semaphore := 5;
                Bot4.tasks := map (fun _ => Bot4.Waiting) (m :: ms) |}
        with (fresh_batch (m :: ms)).
      rewrite Hgather. reflexivity.
  - intros fuel group target st st' e Hbody.
    unfold Bot4.harvest_group, try_except. rewrite Hbody. reflexivity.
Qed.

Lemma task_failure_ends_the_fetch_of_the_group_witness :
  downloads (trace Scenario3.delivered)
    = map (fun m => Download_started (msg_id m) "media/g") Scenario3.seven /\
  (exists e,
      Bot4.gather Sim.env "media/g" "t" Scenario3.seven
        (Sim.round_robin Scenario3.seven Scenario3.seven_photos)
        (fresh_batch Scenario3.seven) Scenario3.loop_head
      = (Raised e, snd Scenario3.after_page)) /\
  exists e,
    In (Bot4.Failed e) (Bot4.tasks Scenario3.left_behind) /\
    Bot4.fetch_pages Sim.env 1 Scenario.channel "t" Scenario3.loop_head
      = (Raised e, Scenario3.delivered).
Proof.
  split; [vm_compute; reflexivity |]. split.
  - destruct (proj1 (proj2 (proj2
                (task_failure_ends_the_fetch_of_the_group Sim.env)))
                "media/g" "t" Scenario3.seven
                (Sim.round_robin Scenario3.seven Scenario3.seven_photos)
                Scenario3.loop_head Scenario3.left_behind
                (snd Scenario3.after_page))
      as (before & i & later & b1 & st1 & b2 & st2 & e & _ & _ & _ & _ & _
          & _ & Hgather).
    + vm_compute. reflexivity.
    + vm_compute. reflexivity.
    + exists e. exact Hgather.
  - apply (proj1 (proj2 (proj2 (proj2
             (task_failure_ends_the_fetch_of_the_group Sim.env))))
             0%nat Scenario.channel "t" Scenario3.loop_head Scenario3.seven
             Scenario3.seven_photos Scenario3.left_behind
             (snd Scenario3.after_page)).
    + vm_compute. reflexivity.
    + discriminate.
    + vm_compute. reflexivity.
    + vm_compute. reflexivity.
Defined.

(** C5 as stated fails: the download of the first of two pages raises;
    the exception leaves the page's batch, the error is logged for the
    whole group, and the second page (photo 1) is never asked for. *)
Lemma download_failure_ends_the_group :
  fst (Bot4.download_and_post_media Sim.env "media/g" "t" [Sim.photo 2]
         0 0 2 0 (Sim.start Scenario2.broken_first)) = Raised RPCError /\
  trace (snd (Bot4.harvest_group Sim.env 5 "t" Scenario.channel
                (Sim.start Scenario2.broken_first))) =
  [Log INFO (Fetching_messages "g");
   Log INFO (Found 2 0 "g");
   Log INFO (Downloading 2 0 "g");
   Download_started 2 "media/g";
   Log ERROR (Error_harvesting "g" RPCError)].
Proof. split; vm_compute; reflexivity. Qed.

(** * Further properties of the two scripts *)

(** ** bot3.py: [post_media_to_group] *)

(** X1. [post_media_to_group] of bot3.py never raises: it records the call,
    tries [send_file] once, and logs either the success or the exception;
    the local variables are untouched. *)
Theorem bot3_post_media_to_group_never_raises :
  forall {W} (env : Env W) (target path : string) (st : State W),
    exists st',
      Bot3.post_media_to_group env target path st = (Returned tt, st') /\
      vars st' = vars st /\
      ((send_file env target path (world st) = (Returns tt, world st') /\
        trace st' = trace st ++ [Post_called target path;
                                 Log INFO (Successfully_sent path target)]) \/
       (exists e,
          send_file env target path (world st) = (Raises e, world st') /\
          trace st' = trace st ++ [Post_called target path;
                                   Log ERROR (Failed_to_send path target e)])).
Proof.
  intros W env target path st.
  unfold Bot3.post_media_to_group. unfold_monad.
  destruct (send_file env target path (world st)) as [[[] | e] w] eqn:Hsend;
    eexists; (split; [reflexivity |]); cbn [vars world trace];
    (split; [reflexivity |]).
  - left. split; [reflexivity |]. rewrite <- app_assoc. reflexivity.
  - right. exists e. split; [reflexivity |]. rewrite <- app_assoc. reflexivity.
Qed.

(** ** bot4.py posts nothing *)

Ltac no_post_leaf :=
  idtac;
  match goal with
  | |- preserves (fun st => posts (trace st) = ?n) (call _) =>
      apply (trace_call (fun t => posts t = n))
  | |- preserves (fun st => posts (trace st) = ?n) (assign _ _) =>
      apply (trace_assign (fun t => posts t = n))
  | |- preserves (fun st => posts (trace st) = ?n) (emit _) =>
      apply (trace_emit (fun t => posts t = n));
      let t := fresh "t" in let H := fresh "H" in
      intros t H; same_posts; exact H
  | |- preserves (fun st => posts (trace st) = ?n) (logging _ _) =>
      apply (trace_emit (fun t => posts t = n));
      let t := fresh "t" in let H := fresh "H" in
      intros t H; same_posts; exact H
  end.

Section NoPost.
Context {W : Type} (env : Env W).
Variable n : list Event.

Local Abbreviation P := (fun st : State W => posts (trace st) = n).

Lemma first_pass_no_post fuel group : preserves P (first_pass env fuel group).
Proof.
  induction fuel as [| fuel IH]; cbn [first_pass].
  - apply preserves_out_of_fuel.
  - walk ltac:(first [ no_post_leaf | exact IH
                     | progress unfold count_message ]).
Qed.

Lemma count_media_no_post fuel group : preserves P (count_media env fuel group).
Proof.
  unfold count_media. walk ltac:(first [no_post_leaf | apply first_pass_no_post]).
Qed.

Lemma ask_quota_no_post group : preserves P (ask_quota env group).
Proof. unfold ask_quota. walk no_post_leaf. Qed.

Lemma bot4_advance_no_post dir target messages i b :
  preserves P (Bot4.advance env dir target messages i b).
Proof.
  unfold Bot4.advance, Bot4.start_task, Bot4.finish_task,
    Bot4.post_media_to_group.
  walk no_post_leaf.
Qed.

Lemma bot4_gather_no_post dir target messages schedule : forall b,
  preserves P (Bot4.gather env dir target messages schedule b).
Proof.
  apply preserves_gather. intros i b. apply bot4_advance_no_post.
Qed.

Lemma bot4_download_and_post_media_no_post dir target messages dp dv qp qv :
  preserves P
    (Bot4.download_and_post_media env dir target messages dp dv qp qv).
Proof.
  unfold Bot4.download_and_post_media.
  apply (trace_with_frame (fun t => posts t = n)).
  unfold Bot4.run_batch. walk ltac:(apply bot4_gather_no_post).
Qed.

Lemma bot4_fetch_pages_no_post fuel group target :
  preserves P (Bot4.fetch_pages env fuel group target).
Proof.
  induction fuel as [| fuel IH]; cbn [Bot4.fetch_pages].
  - apply preserves_out_of_fuel.
  - walk ltac:(first [ no_post_leaf
                     | apply bot4_download_and_post_media_no_post
                     | exact IH ]).
Qed.

Lemma bot4_harvest_group_no_post fuel target group :
  preserves P (Bot4.harvest_group env fuel target group).
Proof.
  unfold Bot4.harvest_group, Bot4.harvest_body, Bot4.second_pass.
  walk ltac:(first [ apply count_media_no_post
                   | apply ask_quota_no_post
                   | apply bot4_fetch_pages_no_post
                   | no_post_leaf ]).
Qed.
End NoPost.

(** X2. bot4.py never calls [post_media_to_group], whatever the server,
    the disk and the event loop do: no run of its [harvest_and_post_media]
    adds a post to the trace (the one place that would post raises
    [NameError] first). *)
Theorem bot4_never_posts :
  forall {W} (env : Env W) (fuel : nat) (target : string)
         (selected_groups : list Group) (st : State W),
    posts (trace (snd (Bot4.harvest_and_post_media env fuel target
                         selected_groups st)))
    = posts (trace st).
Proof.
  intros W env fuel target selected_groups st.
  apply (preserves_for_each (fun st' => posts (trace st') = posts (trace st)));
    [| reflexivity].
  intros group. apply bot4_harvest_group_no_post.
Qed.

(** ** A quota of zero skips the kind *)

(** Closes a branch that a used-up quota does not let through. *)
Ltac quota_is_spent :=
  match goal with
  | Hq : quotas_spent _, G : _ && (_ <? _)%Z = true |- _ =>
      exfalso; destruct Hq as [? ?];
      apply andb_prop in G as [_ G]; apply Z.ltb_lt in G; lia
  end.

Ltac still_skipping Hq Hn :=
  split;
  [ destruct Hq as [? ?]; unfold quotas_spent; lookup; split; lia
  | cbn [trace]; same_downloads; exact Hn ].

Section Skipping.
Context {W : Type} (env : Env W).
Variable n : list Event.

Lemma skipping_call {A} (f : W -> Reply A * W) :
  preserves (skipping n) (call f).
Proof.
  intros st H. unfold call. destruct (f (world st)) as [[a | e] w]; exact H.
Qed.

Lemma skipping_offset v : preserves (skipping (W := W) n) (assign offset_id v).
Proof. intros st [Hq Hn]. unfold_monad. still_skipping Hq Hn. Qed.

Lemma bot3_fetch_message_skipping dir target message :
  preserves (skipping n) (Bot3.fetch_message env dir target message).
Proof.
  intros st [Hq Hn].
  unfold Bot3.fetch_message, Bot3.download, Bot3.path_exists,
    Bot3.post_media_to_group.
  unfold_monad. repeat split_next; try quota_is_spent.
  all: still_skipping Hq Hn.
Qed.

Lemma bot3_fetch_pages_skipping fuel group target :
  preserves (skipping n) (Bot3.fetch_pages env fuel group target).
Proof.
  induction fuel as [| fuel IH]; cbn [Bot3.fetch_pages].
  - apply preserves_out_of_fuel.
  - walk ltac:(first [ apply skipping_call | apply skipping_offset
                     | apply bot3_fetch_message_skipping | exact IH ]).
Qed.

Lemma bot4_start_task_skipping dir message :
  preserves (skipping (W := W) n) (Bot4.start_task dir message).
Proof.
  intros st [Hq Hn]. unfold Bot4.start_task.
  unfold_monad. repeat split_next; try quota_is_spent.
  all: still_skipping Hq Hn.
Qed.

Lemma bot4_finish_task_skipping dir target message kind :
  preserves (skipping n) (Bot4.finish_task env dir target message kind).
Proof.
  intros st [Hq Hn].
  unfold Bot4.finish_task, Bot4.post_media_to_group.
  unfold_monad. repeat split_next.
  all: still_skipping Hq Hn.
Qed.

Lemma bot4_advance_skipping dir target messages i b :
  preserves (skipping n) (Bot4.advance env dir target messages i b).
Proof.
  unfold Bot4.advance.
  walk ltac:(first [ apply bot4_start_task_skipping
                   | apply bot4_finish_task_skipping ]).
Qed.

Lemma bot4_gather_skipping dir target messages schedule : forall b,
  preserves (skipping n) (Bot4.gather env dir target messages schedule b).
Proof.
  apply preserves_gather. intros i b. apply bot4_advance_skipping.
Qed.

Lemma bot4_batch_starts_nothing dir target messages dp dv qp qv :
  qp <= dp -> qv <= dv ->
  preserves (fun st => downloads (trace st) = n)
    (Bot4.download_and_post_media env dir target messages dp dv qp qv).
Proof.
  intros Hp Hv st Hn.
  unfold Bot4.download_and_post_media, with_frame, Bot4.run_batch.
  match goal with |- context [bind ?m ?k ?s] =>
    assert (Hin : skipping n (snd (bind m k s)));
    [| destruct (bind m k s) as [r st']; exact (proj2 Hin)]
  end.
  apply preserves_bind.
  - walk ltac:(apply bot4_gather_skipping).
  - intros b. apply preserves_ret.
  - split; [| exact Hn]. unfold quotas_spent, Bot4.parameters. cbn [vars].
    lookup. split; assumption.
Qed.

Lemma by_value_starts_nothing dp dv qp qv fuel group target :
  qp <= dp -> qv <= dv ->
  preserves (fun st => downloads (trace st) = n)
    (fetch_pages_by_value env dp dv qp qv fuel group target).
Proof.
  intros Hp Hv. induction fuel as [| fuel IH]; cbn [fetch_pages_by_value].
  - apply preserves_out_of_fuel.
  - walk ltac:(first
      [ apply (trace_call (fun t => downloads t = n))
      | apply (trace_assign (fun t => downloads t = n))
      | apply bot4_batch_starts_nothing; assumption
      | exact IH ]).
Qed.
End Skipping.

(** X3. A quota of zero (or less) skips the kind, as the prompt says
    ("0 to skip"): when neither quota is above zero, the fetch pass of
    either script starts no download at all, at whatever point it stops. *)
Theorem no_quota_no_download :
  forall {W} (env : Env W) (fuel : nat) (group : Group) (target : string)
         (st : State W),
    vars st download_photos <= 0 ->
    vars st download_videos <= 0 ->
    downloads (trace (snd (Bot3.second_pass env fuel group target st)))
      = downloads (trace st) /\
    downloads (trace (snd (Bot4.second_pass env fuel group target st)))
      = downloads (trace st).
Proof.
  intros W env fuel group target st Hp Hv. split.
  - unfold Bot3.second_pass. unfold_monad.
    apply (bot3_fetch_pages_skipping env (downloads (trace st))).
    split; [| reflexivity]. unfold quotas_spent. lookup. split; assumption.
  - unfold Bot4.second_pass. unfold_monad.
    rewrite bot4_fetch_pages_by_value. cbn [vars]. lookup.
    apply (by_value_starts_nothing env (downloads (trace st)));
      [assumption | assumption | reflexivity].
Qed.

(** ** The tasks of a batch under a schedule *)

Section Schedules.
Context {W : Type} (env : Env W).

Lemma steps_keep_the_permits dir target messages schedule :
  forall b (st : State W),
    exists b' st',
      steps env dir target messages schedule b st = (Returned b', st') /\
      (Bot4.semaphore b' + in_flight b' = Bot4.semaphore b + in_flight b)%nat.
Proof.
  induction schedule as [| i rest IH]; intros b st; cbn [steps].
  - exists b, st. split; reflexivity.
  - destruct (bot4_advance_counts env dir target messages i b st)
      as (b1 & st1 & Hadv & _ & Hsem & _).
    destruct (IH b1 st1) as (b' & st' & Hrun & Hsem').
    exists b', st'. unfold bind. rewrite Hadv. split; [exact Hrun | lia].
Qed.

(** A task that has left the semaphore behind does not wait again. *)
Lemma advance_never_waits_again dir target messages i b (st : State W) b' st' j :
  Bot4.advance env dir target messages i b st = (Returned b', st') ->
  Bot4.tasks b !! j <> Some Bot4.Waiting ->
  Bot4.tasks b' !! j <> Some Bot4.Waiting.
Proof.
  intros Hadv Hj. destruct (decide (j = i)) as [Heq | Hne].
  - subst j. revert Hadv. unfold Bot4.advance.
    destruct (messages !! i) as [message |];
      [| intros Hadv; injection Hadv as <- _; exact Hj].
    destruct (Bot4.tasks b !! i) as [[| kind | |] |] eqn:Htask;
      try (intros Hadv; injection Hadv as <- _; rewrite Htask; discriminate).
    + contradiction.
    + unfold_monad.
      destruct (Bot4.finish_task env dir target message kind st)
        as [[[] | e |] st1];
        try discriminate; intros Hadv; injection Hadv as <- _;
        cbn [Bot4.tasks];
        rewrite list_lookup_insert_eq by (eapply lookup_lt_Some; exact Htask);
        discriminate.
  - rewrite (advance_others env _ _ _ _ _ _ _ _ j Hadv Hne). exact Hj.
Qed.

(** A step of the event loop starts a download only for a task that was
    waiting, and that task waits no more. *)
Lemma bot4_advance_starts dir target messages i b (st : State W) :
  exists b' st',
    Bot4.advance env dir target messages i b st = (Returned b', st') /\
    (downloads (trace st') = downloads (trace st) \/
     (Bot4.tasks b !! i = Some Bot4.Waiting /\
      Bot4.tasks b' !! i <> Some Bot4.Waiting /\
      exists m, messages !! i = Some m /\
        downloads (trace st') =
          downloads (trace st) ++ [Download_started (msg_id m) dir])).
Proof.
  unfold Bot4.advance.
  destruct (messages !! i) as [message |] eqn:Hm;
    [| exists b, st; split; [reflexivity | left; reflexivity]].
  destruct (Bot4.tasks b !! i) as [[| kind | |] |] eqn:Htask;
    try (exists b, st; split; [reflexivity | left; reflexivity]).
  - destruct (Bot4.semaphore b) as [| free] eqn:Hsem;
      [exists b, st; split; [reflexivity | left; reflexivity] |].
    destruct (bot4_start_task_once dir message st)
      as (r & st' & Hrun & [(kind & -> & Ht) | (Hnot & Ht)]).
    + unfold bind. rewrite Hrun. unfold ret.
      eexists; eexists; (split; [reflexivity |]). right.
      split; [reflexivity |]. split.
      * cbn [Bot4.tasks].
        rewrite list_lookup_insert_eq by (eapply lookup_lt_Some; exact Htask).
        discriminate.
      * exists message. split; [reflexivity | exact Ht].
    + unfold bind. rewrite Hrun. unfold ret.
      eexists; eexists; (split; [reflexivity |]). left. exact Ht.
  - destruct (bot4_finish_task_starts_nothing env dir target message kind st)
      as (r & st' & Hrun & Ht).
    unfold bind. rewrite Hrun. unfold ret.
    eexists; eexists; (split; [reflexivity |]). left. exact Ht.
Qed.

(** The downloads started by the steps of a schedule are those of tasks
    that wait no more, one for each. *)
Lemma steps_start_each_once dir target messages schedule :
  forall b (st : State W) started base,
    NoDup started ->
    Forall (fun i => (i < length messages)%nat /\
                     Bot4.tasks b !! i <> Some Bot4.Waiting) started ->
    downloads (trace st) = base ++ omap (download_of dir messages) started ->
    exists started',
      NoDup started' /\
      Forall (fun i => (i < length messages)%nat) started' /\
      downloads (trace (snd (steps env dir target messages schedule b st)))
        = base ++ omap (download_of dir messages) started'.
Proof.
  induction schedule as [| i rest IH];
    intros b st started base Hnodup Hall Hdl; cbn [steps].
  - exists started. split; [exact Hnodup |]. split; [| exact Hdl].
    eapply Forall_impl; [exact Hall |]. intros j [Hj _]. exact Hj.
  - destruct (bot4_advance_starts dir target messages i b st)
      as (b1 & st1 & Hadv & Hstep).
    unfold bind. rewrite Hadv.
    assert (Hkeep : Forall (fun j => (j < length messages)%nat /\
                              Bot4.tasks b1 !! j <> Some Bot4.Waiting) started).
    { eapply Forall_impl; [exact Hall |]. intros j [Hj Hw].
      split; [exact Hj |].
      exact (advance_never_waits_again _ _ _ _ _ _ _ _ j Hadv Hw). }
    destruct Hstep as [Hsame | (Hwaiting & Hnow & m & Hm & Hnew)].
    + apply (IH b1 st1 started base Hnodup Hkeep). rewrite Hsame. exact Hdl.
    + apply (IH b1 st1 (started ++ [i]) base).
      * apply NoDup_app. split; [exact Hnodup |]. split.
        -- intros j Hj Hji. apply list_elem_of_singleton in Hji. subst j.
           rewrite Forall_forall in Hall.
           destruct (Hall i Hj) as [_ Hw]. exact (Hw Hwaiting).
        -- apply NoDup_singleton.
      * apply Forall_app. split; [exact Hkeep |].
        apply Forall_singleton. split; [| exact Hnow].
        eapply lookup_lt_Some. exact Hm.
      * assert (Hi : omap (download_of dir messages) [i]
                     = [Download_started (msg_id m) dir]).
        { cbn. unfold download_of. rewrite Hm. reflexivity. }
        rewrite Hnew, Hdl, omap_app, Hi, app_assoc. reflexivity.
Qed.

(** One turn of the loop of bot3.py starts at most the download of its
    own message. *)
Lemma bot3_fetch_message_once dir target message (st : State W) :
  exists taken : bool,
    downloads (trace (snd (Bot3.fetch_message env dir target message st)))
    = downloads (trace st)
      ++ (if taken then [Download_started (msg_id message) dir] else []).
Proof.
  unfold Bot3.fetch_message, Bot3.download, Bot3.path_exists,
    Bot3.post_media_to_group.
  unfold_monad. repeat split_next.
  all: cbn [trace]; same_downloads.
  all: first [ exists false; rewrite app_nil_r; reflexivity
             | exists true; reflexivity ].
Qed.

Lemma fresh_batch_starts_each_once dir target messages schedule
    (st : State W) :
  exists started,
    NoDup started /\
    Forall (fun i => (i < length messages)%nat) started /\
    downloads (trace (snd (steps env dir target messages schedule
                             (fresh_batch messages) st)))
    = downloads (trace st) ++ omap (download_of dir messages) started.
Proof.
  apply (steps_start_each_once dir target messages schedule
           (fresh_batch messages) st [] (downloads (trace st))).
  - apply NoDup_nil_2.
  - apply Forall_nil_2.
  - cbn. rewrite app_nil_r. reflexivity.
Qed.

Lemma bot3_page_each_once dir target messages : forall st : State W,
  exists taken,
    sublist taken messages /\
    downloads (trace (snd (for_each (Bot3.fetch_message env dir target)
                             messages st)))
    = downloads (trace st)
      ++ map (fun m => Download_started (msg_id m) dir) taken.
Proof.
  induction messages as [| m ms IH]; intros st; cbn [for_each].
  - exists []. split; [apply sublist_nil |]. cbn. rewrite app_nil_r.
    reflexivity.
  - destruct (bot3_fetch_message_once dir target m st) as [taken Hm].
    unfold bind.
    destruct (Bot3.fetch_message env dir target m st) as [[[] | e |] st1];
      cbn [snd] in *.
    + destruct (IH st1) as (rest & Hsub & Hrest).
      exists ((if taken then [m] else []) ++ rest). split.
      * destruct taken; cbn [app];
          [apply sublist_skip | apply sublist_cons]; exact Hsub.
      * rewrite Hrest, Hm, map_app, <- app_assoc.
        destruct taken; reflexivity.
    + exists (if taken then [m] else []). split.
      * destruct taken; [apply sublist_skip |]; apply sublist_nil_l.
      * rewrite Hm. destruct taken; reflexivity.
    + exists (if taken then [m] else []). split.
      * destruct taken; [apply sublist_skip |]; apply sublist_nil_l.
      * rewrite Hm. destruct taken; reflexivity.
Qed.

End Schedules.

(** X4. The semaphore of bot4.py holds: after any steps of the event loop
    on the batch of a page, the permits left and the downloads in flight
    add up to 5, so at most 5 downloads are in flight at any time. *)
Theorem at_most_five_downloads_in_flight :
  forall {W} (env : Env W) (dir target : string) (messages : list Message)
         (schedule : list nat) (st : State W),
    exists b' st',
      steps env dir target messages schedule (fresh_batch messages) st
        = (Returned b', st') /\
      (Bot4.semaphore b' + in_flight b' = 5)%nat /\
      (in_flight b' <= 5)%nat.
Proof.
  intros W env dir target messages schedule st.
  destruct (steps_keep_the_permits env dir target messages schedule
              (fresh_batch messages) st) as (b' & st' & Hrun & Hsem).
  destruct (fresh_batch_counts messages) as (Hin & _ & _).
  rewrite Hin in Hsem. cbn in Hsem.
  exists b', st'. split; [exact Hrun |]. lia.
Qed.

(** X5. Neither script asks twice for the media of a message while it goes
    through a page. In bot3.py the downloads of a page are those of some of
    its messages, each once and in the order of the page. In bot4.py,
    under any schedule and whether or not a task has failed, the downloads
    of a batch are those of distinct tasks, one message each; so are those
    made up to the moment [download_and_post_media] returns or raises. *)
Theorem at_most_one_download_per_message :
  forall {W} (env : Env W) (dir target : string) (messages : list Message)
         (st : State W),
    (exists taken,
        sublist taken messages /\
        downloads (trace (snd (for_each (Bot3.fetch_message env dir target)
                                 messages st)))
        = downloads (trace st)
          ++ map (fun m => Download_started (msg_id m) dir) taken) /\
    (forall schedule,
        exists started,
          NoDup started /\
          Forall (fun i => (i < length messages)%nat) started /\
          downloads (trace (snd (steps env dir target messages schedule
                                   (fresh_batch messages) st)))
          = downloads (trace st) ++ omap (download_of dir messages) started) /\
    (forall dp dv qp qv,
        exists started,
          NoDup started /\
          Forall (fun i => (i < length messages)%nat) started /\
          downloads (trace (snd (Bot4.download_and_post_media env dir target
                                   messages dp dv qp qv st)))
          = downloads (trace st) ++ omap (download_of dir messages) started).
Proof.
  intros W env dir target messages st. split; [| split].
  - apply bot3_page_each_once.
  - intros schedule. apply fresh_batch_starts_each_once.
  - intros dp dv qp qv. rewrite batch_trace.
    apply (fresh_batch_starts_each_once env dir target messages
             (event_loop env messages (world st))
             {| world := world st; trace := trace st;
                vars := Bot4.parameters dp dv qp qv |}).
Qed.

(** X6. [download_and_post_media] of bot4.py returns normally only when
    every coroutine of the page has returned: if the batch returns, it has
    one task per message and each of them is finished. *)
Theorem batch_returns_when_all_tasks_finished :
  forall {W} (env : Env W) (dir target : string) (messages : list Message)
         (st : State W) b' st',
    Bot4.run_batch env dir target messages st = (Returned b', st') ->
    length (Bot4.tasks b') = length messages /\
    Forall (fun t => t = Bot4.Finished) (Bot4.tasks b').
Proof.
  intros W env dir target messages st b' st' Hrun.
  unfold Bot4.run_batch in Hrun. unfold_monad.
  apply gather_returned in Hrun as [Hlen Hfin].
  - split; [| exact Hfin]. rewrite Hlen. cbn [Bot4.tasks].
    apply length_map.
  - exact (proj2 (proj2 (fresh_batch_counts messages))).
Qed.

(** ** The quota that is never used up *)

Section Everything.
Context {W : Type} (env : Env W).
Hypothesis Hmat : materializes env.

Lemma bot3_fetch_message_takes_it dir target message (st st' : State W) :
  vars st downloaded_photos < vars st download_photos ->
  vars st downloaded_videos < vars st download_videos ->
  Bot3.fetch_message env dir target message st = (Returned tt, st') ->
  vars st' = vars st /\
  downloads (trace st') =
    downloads (trace st) ++
    (if is_wanted message then [Download_started (msg_id message) dir] else []).
Proof.
  intros Hp Hv. apply Z.ltb_lt in Hp, Hv.
  unfold Bot3.fetch_message, Bot3.download, Bot3.path_exists,
    Bot3.post_media_to_group, is_wanted, is_photo_message, is_video_message.
  destruct (media message) as [[| [doc |] |] |]; cbn [is_photo andb orb];
    unfold_monad; rewrite ?Hp, ?Hv, ?andb_true_r; cbn [andb].
  all: repeat split_next;
    try file_is_there ltac:(fun Hd => exact (Hmat _ _ _ _ _ Hd));
    try discriminate.
  all: intros [= <-]; cbn [vars trace]; split; [reflexivity |].
  all: same_downloads; reflexivity.
Qed.
End Everything.

(** X7. In bot3.py a quota of one is as good as any: when a finished
    download has left its file in place, a page that the sequential loop
    gets through without an exception has had every photo and every video
    of it downloaded, in order, however many the operator asked for, as
    long as both quotas were above the counters. *)
Theorem bot3_downloads_every_media_of_the_page :
  forall {W} (env : Env W),
    materializes env ->
    forall (dir target : string) (messages : list Message) (st st' : State W),
      vars st downloaded_photos < vars st download_photos ->
      vars st downloaded_videos < vars st download_videos ->
      for_each (Bot3.fetch_message env dir target) messages st
        = (Returned tt, st') ->
      vars st' = vars st /\
      downloads (trace st') =
        downloads (trace st) ++
        map (fun m => Download_started (msg_id m) dir)
            (List.filter is_wanted messages).
Proof.
  intros W env Hmat dir target messages.
  induction messages as [| m ms IH]; intros st st' Hp Hv Hrun;
    cbn [for_each] in Hrun.
  - injection Hrun as <-. cbn. rewrite app_nil_r. split; reflexivity.
  - unfold bind in Hrun.
    destruct (Bot3.fetch_message env dir target m st) as [[[] | e |] st1]
      eqn:Hm; try discriminate.
    destruct (bot3_fetch_message_takes_it env Hmat dir target m st st1 Hp Hv Hm)
      as [Hvars Hd].
    rewrite <- Hvars in Hp, Hv.
    destruct (IH st1 st' Hp Hv Hrun) as [Hvars' Hd'].
    split; [congruence |].
    rewrite Hd', Hd, <- app_assoc. cbn [List.filter].
    destruct (is_wanted m); reflexivity.
Qed.

(** ** Edges of the fetch step *)

(** X8. A document without a content type is passed over by the counting
    pass (it counts as neither kind) but ends the fetch step of either
    script with [AttributeError], whatever the quotas and before anything
    is downloaded. *)
Theorem document_without_mime_type :
  forall {W} (env : Env W) (dir target : string) (message : Message)
         (st : State W),
    media message = Some (MessageMediaDocument None) ->
    count_message message st = (Returned tt, st) /\
    Bot3.fetch_message env dir target message st = (Raised AttributeError, st) /\
    Bot4.start_task dir message st = (Raised AttributeError, st).
Proof.
  intros W env dir target message st Hmedia.
  unfold count_message, Bot3.fetch_message, Bot4.start_task.
  rewrite Hmedia. cbn [is_photo andb]. unfold_monad.
  repeat split.
Qed.

(** X9. When [download_media] returns [None] for a photo that the quota
    lets through, bot3.py hands it to [os.path.exists] and the step ends
    with [TypeError], nothing counted; bot4.py tests the name first and its
    task returns with nothing counted and nothing posted. *)
Theorem download_that_returns_nothing :
  forall {W} (env : Env W) (dir target : string) (message : Message)
         (st : State W) (w' : W),
    media message = Some MessageMediaPhoto ->
    vars st downloaded_photos < vars st download_photos ->
    download_media env message dir (world st) = (Returns None, w') ->
    Bot3.fetch_message env dir target message st =
      (Raised TypeError,
       {| world := w';
          trace := trace st ++ [Download_started (msg_id message) dir];
          vars := vars st |}) /\
    forall kind,
      Bot4.finish_task env dir target message kind st =
        (Returned tt, {| world := w'; trace := trace st; vars := vars st |}).
Proof.
  intros W env dir target message st w' Hmedia Hq Hd.
  apply Z.ltb_lt in Hq. split.
  - unfold Bot3.fetch_message, Bot3.download, Bot3.path_exists.
    rewrite Hmedia. cbn [is_photo andb]. unfold_monad.
    rewrite Hq, Hd. reflexivity.
  - intros kind. unfold Bot4.finish_task. unfold_monad. rewrite Hd.
    reflexivity.
Qed.

(** X10. An answer that is not an integer at the photo prompt ends the
    group there: the video prompt is not shown, the quota variables keep
    whatever they held, and the handler of the group logs the exception
    without a download having been started. *)
Theorem answer_that_is_not_a_number :
  forall {W} (env : Env W) (fuel : nat) (target : string) (group : Group)
         (st st1 : State W) (e : Exn) (w' : W),
    count_media env fuel group st = (Returned tt, st1) ->
    input_int env (photos_prompt group) (world st1) = (Raises e, w') ->
    (Bot3.harvest_group env fuel target group st =
       (Returned tt,
        {| world := w';
           trace := trace st1
                    ++ [Log ERROR (Error_harvesting (group_name group) e)];
           vars := vars st1 |})) /\
    (Bot4.harvest_group env fuel target group st =
       (Returned tt,
        {| world := w';
           trace := trace st1
                    ++ [Log ERROR (Error_harvesting (group_name group) e)];
           vars := vars st1 |})).
Proof.
  intros W env fuel target group st st1 e w' Hcount Hask.
  assert (Hq : ask_quota env group st1 =
               (Raised e, {| world := w'; trace := trace st1;
                             vars := vars st1 |})).
  { unfold ask_quota. unfold_monad. rewrite Hask. reflexivity. }
  split.
  - unfold Bot3.harvest_group, Bot3.harvest_body, try_except, bind.
    rewrite Hcount, Hq. reflexivity.
  - unfold Bot4.harvest_group, Bot4.harvest_body, try_except, bind.
    rewrite Hcount, Hq. reflexivity.
Qed.

(** * The prompts, [join_groups] and the credentials of bot4.py *)

(** ** Splitting at the commas *)

Lemma split_commas_not_nil s : split_commas s <> [].
Proof.
  destruct s as [| c s]; cbn [split_commas]; [discriminate |].
  destruct (Ascii.eqb c ","); [discriminate |].
  destruct (split_commas s); discriminate.
Qed.

Lemma contains_comma_cons c s :
  has_comma (String c s) = Ascii.eqb c "," || has_comma s.
Proof.
  unfold has_comma. cbn [contains String.prefix].
  destruct (Ascii.ascii_dec "," c) as [<- | Hne].
  - rewrite Ascii.eqb_refl. destruct s; reflexivity.
  - apply not_eq_sym in Hne. apply Ascii.eqb_neq in Hne. rewrite Hne.
    reflexivity.
Qed.

(** X11. [split(",")] as the scripts use it loses nothing: the pieces,
    joined with commas again, are the line that was typed; no piece holds
    a comma; and there is always at least one piece (an empty line gives
    the one empty piece). *)
Theorem split_commas_round_trip :
  forall s : string,
    String.concat "," (split_commas s) = s /\
    Forall (fun piece => has_comma piece = false) (split_commas s) /\
    (1 <= length (split_commas s))%nat.
Proof.
  intros s. split; [| split].
  - induction s as [| c s IH]; cbn [split_commas]; [reflexivity |].
    destruct (Ascii.eqb c ",") eqn:Hc.
    + apply Ascii.eqb_eq in Hc. subst c.
      pose proof (split_commas_not_nil s) as Hne.
      cbn [String.concat]. destruct (split_commas s) as [| p ps];
        [congruence |]. rewrite IH. reflexivity.
    + pose proof (split_commas_not_nil s) as Hne.
      destruct (split_commas s) as [| p ps]; [congruence |].
      rewrite <- IH. cbn [String.concat]. destruct ps; reflexivity.
  - induction s as [| c s IH]; cbn [split_commas].
    + constructor; [reflexivity | constructor].
    + destruct (Ascii.eqb c ",") eqn:Hc.
      * constructor; [reflexivity | exact IH].
      * pose proof (split_commas_not_nil s) as Hne.
        destruct (split_commas s) as [| p ps]; [congruence |].
        inversion IH as [| ? ? Hp Hps]; subst.
        constructor; [| exact Hps].
        rewrite contains_comma_cons, Hc, Hp. reflexivity.
  - pose proof (split_commas_not_nil s).
    destruct (split_commas s); cbn [length]; [congruence | lia].
Qed.

(** ** Choosing the groups *)


(** X12. Only what was listed can be harvested: every group the selection
    yields is one of the dialogs [get_dialogs] returned, and is a group or
    a channel. *)
Theorem selected_groups_were_listed :
  forall (dialogs : list Dialog) (selected_indices : list Z) (group : Dialog),
    In group (selected_groups (groups_of dialogs) selected_indices) ->
    In group dialogs /\ is_group group || is_channel group = true.
Proof.
  intros dialogs selected_indices group Hin.
  unfold selected_groups in Hin. apply in_flat_map in Hin as (idx & _ & Hin).
  destruct ((0 <=? idx)%Z && _); [| destruct Hin].
  destruct (groups_of dialogs !! Z.to_nat idx) as [g |] eqn:Hg;
    [| destruct Hin].
  destruct Hin as [<- | []].
  apply list_elem_of_lookup_2, list_elem_of_In in Hg.
  unfold groups_of in Hg. apply List.filter_In in Hg. exact Hg.
Qed.



Section Early.
Context {W : Type} (env : Env W) (host : Host W).

Lemma indices_of_quiet pieces : forall (st : State W),
  trace (snd (indices_of host pieces st)) = trace st /\
  vars (snd (indices_of host pieces st)) = vars st.
Proof.
  induction pieces as [| idx rest IH]; intros st; cbn [indices_of].
  - split; reflexivity.
  - unfold_monad.
    destruct (int_of_str host (strip host idx)) as [number | e];
      [| split; reflexivity].
    match goal with |- context [indices_of host rest ?s] =>
      destruct (IH s) as [Ht Hv];
      destruct (indices_of host rest s) as [[indices | e |] st1]
    end; cbn [fst snd trace vars] in *; split; assumption.
Qed.

Lemma choose_groups_quiet (st : State W) :
  trace (snd (choose_groups host st)) = trace st /\
  vars (snd (choose_groups host st)) = vars st.
Proof.
  unfold choose_groups. unfold_monad.
  destruct (get_dialogs host (world st)) as [[dialogs | e] w1];
    [| split; reflexivity].
  destruct (groups_of dialogs) as [| g gs]; [split; reflexivity |].
  cbn [world trace vars].
  destruct (input host numbers_prompt w1) as [[line | e] w2];
    [| split; reflexivity].
  match goal with |- context [indices_of host ?p ?s] =>
    destruct (indices_of_quiet p s) as [Ht Hv];
    destruct (indices_of host p s) as [[indices | e |] st1]
  end; cbn [fst snd trace vars] in *; try (split; assumption).
  destruct (selected_groups (g :: gs) indices); split; assumption.
Qed.
End Early.

(** X14. When [harvest_and_post_media] of either script ends in one of its
    early returns (no group or channel among the dialogs, or no valid
    number typed), no group has been touched: nothing was logged for a
    group, no download was started and no variable of the loop assigned
    (the [logging.error] line of the early return itself is the result
    value). *)
Theorem early_return_harvests_nothing :
  forall {W} (env : Env W) (host : Host W) (fuel : nat) (st st' : State W)
         (how : Harvest),
    how <> Harvested ->
    (Script3.harvest_and_post_media env host fuel st = (Returned how, st') ->
     trace st' = trace st /\ vars st' = vars st) /\
    (Script4.harvest_and_post_media env host fuel st = (Returned how, st') ->
     trace st' = trace st /\ vars st' = vars st).
Proof.
  intros W env host fuel st st' how Hhow. split.
  - unfold Script3.harvest_and_post_media. unfold bind at 1. unfold call.
    destruct (input host Script3.target_prompt (world st)) as [[line | e] w1];
      [| discriminate].
    unfold bind at 1.
    match goal with |- context [choose_groups host ?s] =>
      destruct (choose_groups_quiet host s) as [Ht Hv];
      destruct (choose_groups host s) as [[[early | selected] | e |] st1]
    end; try discriminate; cbn [fst snd trace vars] in *.
    + unfold ret. intros [= <- <-]. split; assumption.
    + unfold bind, ret.
      destruct (Bot3.harvest_and_post_media _ _ _ _ _) as [[[] | e |] st2];
        try discriminate.
      intros [= <- _]. congruence.
  - unfold Script4.harvest_and_post_media. unfold bind at 1.
    destruct (choose_groups_quiet host st) as [Ht Hv].
    destruct (choose_groups host st) as [[[early | selected] | e |] st1];
      try discriminate; cbn [fst snd trace vars] in *.
    + unfold ret. intros [= <- <-]. split; assumption.
    + unfold bind, ret, call.
      destruct (input host Script4.target_prompt (world st1))
        as [[line | e] w1]; [| discriminate].
      destruct (Bot4.harvest_and_post_media _ _ _ _ _) as [[[] | e |] st2];
        try discriminate.
      intros [= <- _]. congruence.
Qed.

(** X15. A piece of the numbers line that is not an integer is not
    handled: [harvest_and_post_media] of bot4.py raises the exception of
    [int] and asks for no target group, and no group is harvested. In
    particular an empty line, which splits into the one empty piece, raises
    what [int("")] raises. *)
Theorem number_that_is_not_a_number :
  forall {W} (env : Env W) (host : Host W) (fuel : nat) (st : State W)
         (dialogs : list Dialog) (w1 w2 : W) (line : string) (e : Exn)
         (before : list string) (piece : string) (after : list string),
    get_dialogs host (world st) = (Returns dialogs, w1) ->
    groups_of dialogs <> [] ->
    input host numbers_prompt w1 = (Returns line, w2) ->
    split_commas line = before ++ piece :: after ->
    Forall (fun p => exists n, int_of_str host (strip host p) = Returns n)
           before ->
    int_of_str host (strip host piece) = Raises e ->
    Script4.harvest_and_post_media env host fuel st =
      (Raised e, {| world := w2; trace := trace st; vars := vars st |}).
Proof.
  intros W env host fuel st dialogs w1 w2 line e before piece after
    Hd Hg Hin Hsplit Hbefore Hpiece.
  unfold Script4.harvest_and_post_media, choose_groups. unfold_monad.
  rewrite Hd. destruct (groups_of dialogs) as [| g gs]; [congruence |].
  cbn [world trace vars]. rewrite Hin, Hsplit. cbn [world trace vars].
  assert (Hidx : forall s : State W,
             indices_of host (before ++ piece :: after) s = (Raised e, s)).
  { clear -Hbefore Hpiece. induction Hbefore as [| p ps [n Hn] _ IH];
      intros s; cbn [indices_of app]; unfold_monad.
    - rewrite Hpiece. destruct s; reflexivity.
    - rewrite Hn. destruct s as [w t v]. cbn [world trace vars].
      rewrite IH. reflexivity. }
  rewrite Hidx. reflexivity.
Qed.

(** ** [join_groups] *)

Section Joining.
Context {W : Type} (host : Host W).

Lemma join_each_sends_all items : forall w : W,
  snd (Script4.join_each host items w) = requests_sent host items w /\
  length (fst (Script4.join_each host items w)) = length items /\
  forall before item later,
    items = before ++ item :: later ->
    fst (Script4.join_each host items w) !! length before =
    Some (match fst (join_channel host item (requests_sent host before w)) with
          | Returns _ =>
              if String.prefix "@" item then Script4.Joined_username item
              else Script4.Joined_invite_link item
          | Raises e => Script4.Failed_to_join item e
          end).
Proof.
  induction items as [| item0 rest IH]; intros w; cbn [Script4.join_each].
  - repeat split. intros [| x before] item later H; discriminate.
  - destruct (IH (snd (join_channel host item0 w))) as (Hw & Hlen & Hlines).
    destruct (join_channel host item0 w) as [r w1] eqn:Hfirst.
    cbn [snd] in *.
    destruct (Script4.join_each host rest w1) as [lines w2].
    cbn [fst snd length] in *. split; [| split].
    + unfold requests_sent in *. cbn [fold_left]. rewrite Hfirst. exact Hw.
    + rewrite Hlen. reflexivity.
    + intros [| x before] item later Hsplit; cbn [app] in Hsplit;
        injection Hsplit as <- Hrest.
      * unfold requests_sent. cbn [fold_left length]. rewrite Hfirst.
        reflexivity.
      * cbn [length]. change ((?x :: lines) !! S ?n) with (lines !! n).
        rewrite (Hlines before item later Hrest).
        unfold requests_sent. cbn [fold_left]. rewrite Hfirst. reflexivity.
Qed.
End Joining.

(** X16. [join_groups] sends a request for every piece of the line,
    stripped, in order, whatever the answers to the others are: the world
    it leaves is the one after all the requests; the request for a piece is
    sent in the world the requests for the pieces before it have left,
    whether they succeeded or failed; and it logs one line per piece, in
    order, which says joined when that request returned and failed, with
    the exception, when it raised. *)
Theorem join_groups_tries_every_item :
  forall {W} (host : Host W) (w w1 : W) (line : string),
    input host Script4.join_prompt w = (Returns line, w1) ->
    exists lines,
      Script4.join_groups host w =
        (Returns lines,
         requests_sent host (map (strip host) (split_commas line)) w1) /\
      length lines = length (split_commas line) /\
      forall before item later,
        map (strip host) (split_commas line) = before ++ item :: later ->
        lines !! length before =
        Some (match fst (join_channel host item
                           (requests_sent host before w1)) with
              | Returns _ =>
                  if String.prefix "@" item then Script4.Joined_username item
                  else Script4.Joined_invite_link item
              | Raises e => Script4.Failed_to_join item e
              end).
Proof.
  intros W host w w1 line Hin. unfold Script4.join_groups. rewrite Hin.
  destruct (join_each_sends_all host (map (strip host) (split_commas line)) w1)
    as (Hw & Hlen & Hlines).
  destruct (Script4.join_each host _ w1) as [lines w2].
  cbn [fst snd] in *. exists lines. split; [rewrite Hw; reflexivity |].
  split; [rewrite Hlen, length_map; reflexivity | exact Hlines].
Qed.

(** ** The credentials file *)

(** X17. What [save_credentials] writes is what [get_credentials] reads
    back: the tuple built from the dictionary of four values is these four
    values, under the same four keys. *)
Theorem saved_credentials_round_trip :
  forall api_id api_hash session_name phone_number : Value,
    Script4.saved_tuple
      (Dict (Script4.credentials_dict api_id api_hash session_name
               phone_number))
    = Script4.Gives (api_id, api_hash, session_name, phone_number).
Proof.
  intros. unfold Script4.saved_tuple, Script4.credentials_dict.
  by simplify_map_eq.
Qed.

(** X18. Of the four keys only the phone number may be missing from the
    file: the saved credentials are usable exactly when ["API_ID"],
    ["API_HASH"] and ["SESSION_NAME"] are there, and a missing
    ["PHONE_NUMBER"] reads as [None]; a missing required key is a
    [KeyError]. *)
Theorem saved_credentials_need_three_keys :
  forall d : gmap string Value,
    ((exists t, Script4.saved_tuple (Dict d) = Script4.Gives t) <->
     is_Some (d !! "API_ID") /\ is_Some (d !! "API_HASH") /\
     is_Some (d !! "SESSION_NAME")) /\
    (forall a b c p,
        Script4.saved_tuple (Dict d) = Script4.Gives (a, b, c, p) ->
        d !! "PHONE_NUMBER" = None -> p = Null) /\
    ((forall t, Script4.saved_tuple (Dict d) <> Script4.Gives t) ->
     exists key, Script4.saved_tuple (Dict d) = Script4.Fails (Script4.KeyError key)
                 /\ d !! key = None).
Proof.
  intros d. unfold Script4.saved_tuple.
  destruct (d !! "API_ID") as [a |] eqn:Ha;
    [destruct (d !! "API_HASH") as [b |] eqn:Hb;
       [destruct (d !! "SESSION_NAME") as [c |] eqn:Hc |] |].
  all: split; [split |].
  all: try (intros [t Ht]; discriminate).
  all: try (intros (H1 & H2 & H3);
            first [destruct H1 as [? H1] | idtac];
            first [ destruct H3 as [? H3]; discriminate
                  | destruct H2 as [? H2]; discriminate
                  | discriminate ]).
  all: try (intros _; repeat split; eauto).
  all: try (eexists; reflexivity).
  all: split.
  all: try (intros a' b' c' p' [= <- <- <- <-] ->; reflexivity).
  all: try (intros a' b' c' p' Hx; discriminate).
  all: try (intros Hno; exfalso; eapply Hno; reflexivity).
  all: intros _; eexists; split; [reflexivity | assumption].
Qed.

Lemma credentials_dict_not_empty a b c p :
  Script4.credentials_dict a b c p <> ∅.
Proof. unfold Script4.credentials_dict. apply insert_non_empty. Qed.

(** X19. When the file holds what [save_credentials] wrote and the
    operator answers yes, [get_credentials] returns the four saved values
    and asks nothing else; the file is not written. *)
Theorem get_credentials_reuses_the_saved_ones :
  forall {W} (host : Host W) (w w1 w2 : W) (answer : string)
         (api_id api_hash session_name phone_number : Value),
    read_credentials host w =
      (Returns (Some (Dict (Script4.credentials_dict api_id api_hash
                              session_name phone_number))), w1) ->
    input host "Saved credentials found. Do you want to use them? (yes/no): "
      w1 = (Returns answer, w2) ->
    Script4.says_yes host answer = true ->
    Script4.get_credentials host w =
      (Script4.Gives (api_id, api_hash, session_name, phone_number), w2).
Proof.
  intros W host w w1 w2 answer a b c p Hread Hin Hyes.
  unfold Script4.get_credentials, Script4.load_credentials. rewrite Hread.
  unfold Script4.truthy.
  rewrite bool_decide_eq_false_2 by apply credentials_dict_not_empty.
  cbn [negb]. unfold Script4.ask. rewrite Hin, Hyes.
  unfold Script4.saved_tuple, Script4.credentials_dict.
  by simplify_map_eq.
Qed.

(** X20. The credentials typed at the prompts come back stripped, and the
    file is written only on a yes to the last prompt, with exactly those
    four values; when that write fails the function raises and the typed
    values are not returned. *)
Theorem new_credentials_are_saved_on_yes :
  forall {W} (host : Host W) (w w1 w2 w3 w4 w5 : W)
         (api_id api_hash session_name phone_number save : string),
    input host "Enter your API ID: " w = (Returns api_id, w1) ->
    input host "Enter your API Hash: " w1 = (Returns api_hash, w2) ->
    input host "Enter a session name: " w2 = (Returns session_name, w3) ->
    input host
      "Enter your phone number (with country code, e.g., +123456789): " w3
      = (Returns phone_number, w4) ->
    input host
      "Do you want to save these credentials for future use? (yes/no): " w4
      = (Returns save, w5) ->
    let typed := (Str (strip host api_id), Str (strip host api_hash),
                  Str (strip host session_name),
                  Str (strip host phone_number)) in
    let written :=
      Dict (Script4.credentials_dict (Str (strip host api_id))
              (Str (strip host api_hash)) (Str (strip host session_name))
              (Str (strip host phone_number))) in
    (Script4.says_yes host save = false ->
     Script4.new_credentials host w = (Script4.Gives typed, w5)) /\
    (Script4.says_yes host save = true ->
     forall w6,
       (write_credentials host written w5 = (Returns tt, w6) ->
        Script4.new_credentials host w = (Script4.Gives typed, w6)) /\
       (forall e,
           write_credentials host written w5 = (Raises e, w6) ->
           Script4.new_credentials host w
             = (Script4.Fails (Script4.Raised_by_host e), w6))).
Proof.
  intros W host w w1 w2 w3 w4 w5 a b s p save H1 H2 H3 H4 H5 typed written.
  unfold Script4.new_credentials, Script4.ask.
  rewrite H1, H2, H3, H4, H5. split.
  - intros ->. reflexivity.
  - intros -> w6. unfold Script4.save_credentials. fold written.
    split; [intros -> | intros e ->]; reflexivity.
Qed.

(** X21. What the file decides before any prompt: without a file, or with
    a file that holds the empty object, [get_credentials] goes straight to
    the prompts for new credentials; a file that is not JSON makes it
    raise, with no prompt at all. *)
Theorem credentials_file_edges :
  forall {W} (host : Host W) (w w1 : W),
    (read_credentials host w = (Returns None, w1) ->
     Script4.get_credentials host w = Script4.new_credentials host w1) /\
    (read_credentials host w = (Returns (Some (Dict ∅)), w1) ->
     Script4.get_credentials host w = Script4.new_credentials host w1) /\
    (read_credentials host w = (Returns (Some Not_json), w1) ->
     Script4.get_credentials host w
       = (Script4.Fails Script4.JSONDecodeError, w1)).
Proof.
  intros W host w w1.
  unfold Script4.get_credentials, Script4.load_credentials.
  repeat split; intros ->; reflexivity.
Qed.

(** * The properties above, on concrete runs *)

Lemma no_quota_no_download_witness :
  downloads
    (trace (snd (Bot3.second_pass Sim.env 5 Scenario.channel "t"
                   (Scenario.asked Sim.env Desk2.nothing_wanted))))
    = downloads (trace (Scenario.asked Sim.env Desk2.nothing_wanted)) /\
  downloads
    (trace (snd (Bot4.second_pass Sim.env 5 Scenario.channel "t"
                   (Scenario.asked Sim.env Desk2.nothing_wanted))))
    = downloads (trace (Scenario.asked Sim.env Desk2.nothing_wanted)).
Proof.
  apply (no_quota_no_download Sim.env 5 Scenario.channel "t"
           (Scenario.asked Sim.env Desk2.nothing_wanted));
    vm_compute; discriminate.
Defined.

Lemma batch_returns_when_all_tasks_finished_witness :
  length (Bot4.tasks Desk2.both_finished) = length Desk2.photo_and_text /\
  Forall (fun t => t = Bot4.Finished) (Bot4.tasks Desk2.both_finished).
Proof.
  eapply (batch_returns_when_all_tasks_finished Sim.env "media/g" "t"
            Desk2.photo_and_text (Scenario.fetching 1 0 Scenario.mixed)).
  vm_compute. reflexivity.
Defined.

Lemma bot3_downloads_every_media_of_the_page_witness :
  downloads
    (trace (snd (for_each (Bot3.fetch_message Sim.env "media/g" "t")
                   Desk2.first_page (Scenario.fetching 1 1 Scenario.mixed))))
  = downloads (trace (Scenario.fetching 1 1 Scenario.mixed)) ++
    map (fun m => Download_started (msg_id m) "media/g")
        (List.filter is_wanted Desk2.first_page).
Proof.
  eapply (bot3_downloads_every_media_of_the_page Sim.env sim_materializes
            "media/g" "t" Desk2.first_page
            (Scenario.fetching 1 1 Scenario.mixed)).
  - vm_compute. reflexivity.
  - vm_compute. reflexivity.
  - vm_compute. reflexivity.
Defined.

Lemma document_without_mime_type_witness :
  count_message Desk2.bare_document (Scenario.fetching 1 1 Scenario.mixed)
    = (Returned tt, Scenario.fetching 1 1 Scenario.mixed) /\
  Bot3.fetch_message Sim.env "media/g" "t" Desk2.bare_document
    (Scenario.fetching 1 1 Scenario.mixed)
    = (Raised AttributeError, Scenario.fetching 1 1 Scenario.mixed) /\
  Bot4.start_task "media/g" Desk2.bare_document
    (Scenario.fetching 1 1 Scenario.mixed)
    = (Raised AttributeError, Scenario.fetching 1 1 Scenario.mixed).
Proof.
  apply (document_without_mime_type Sim.env "media/g" "t"
           Desk2.bare_document (Scenario.fetching 1 1 Scenario.mixed)).
  reflexivity.
Defined.

Lemma download_that_returns_nothing_witness :
  fst (Bot3.fetch_message Desk2.silent "media/g" "t" (Sim.photo 3)
         (Scenario.fetching 1 0 Scenario.mixed)) = Raised TypeError /\
  fst (Bot4.finish_task Desk2.silent "media/g" "t" (Sim.photo 3) Bot4.Photo
         (Scenario.fetching 1 0 Scenario.mixed)) = Returned tt.
Proof.
  destruct (download_that_returns_nothing Desk2.silent "media/g" "t"
              (Sim.photo 3) (Scenario.fetching 1 0 Scenario.mixed)
              Scenario.mixed) as [H3 H4];
    [reflexivity | vm_compute; reflexivity | reflexivity |].
  rewrite H3, (H4 Bot4.Photo). split; reflexivity.
Defined.

Lemma answer_that_is_not_a_number_witness :
  trace (snd (Bot3.harvest_group Sim.env 5 "t" Scenario.channel
                (Sim.start Desk2.word_typed)))
  = [Log INFO (Fetching_messages "g"); Log INFO (Found 2 1 "g");
     Log ERROR (Error_harvesting "g" ValueError)].
Proof.
  destruct (answer_that_is_not_a_number Sim.env 5 "t" Scenario.channel
              (Sim.start Desk2.word_typed)
              (Scenario.counted Sim.env Desk2.word_typed) ValueError
              (Sim.with_typed [] Scenario.mixed)) as [H3 _];
    [vm_compute; reflexivity | vm_compute; reflexivity |].
  rewrite H3. vm_compute. reflexivity.
Defined.

Lemma selected_groups_were_listed_witness :
  In Desk.club [Desk.chat; Desk.club; Desk.news] /\
  is_group Desk.club || is_channel Desk.club = true.
Proof.
  apply (selected_groups_were_listed [Desk.chat; Desk.club; Desk.news] [0]).
  left. reflexivity.
Defined.

Lemma early_return_harvests_nothing_witness :
  Script4.harvest_and_post_media Desk.env Desk.host 5 (Desk.start ["9"])
    = (Returned No_valid_groups,
       {| world := (Desk.desk [], Scenario.mixed); trace := [];
          vars := no_locals |}) /\
  trace (Desk.start ["9"]) = [].
Proof.
  assert (Hrun : Script4.harvest_and_post_media Desk.env Desk.host 5
                   (Desk.start ["9"])
                 = (Returned No_valid_groups,
                    {| world := (Desk.desk [], Scenario.mixed); trace := [];
                       vars := no_locals |})) by (vm_compute; reflexivity).
  split; [exact Hrun |].
  destruct (proj2 (early_return_harvests_nothing Desk.env Desk.host 5
                     (Desk.start ["9"]) _ No_valid_groups
                     ltac:(discriminate)) Hrun) as [Ht _].
  symmetry. exact Ht.
Defined.

Lemma number_that_is_not_a_number_witness :
  Script4.harvest_and_post_media Desk.env Desk.host 5 (Desk.start ["2,x"])
  = (Raised ValueError,
     {| world := (Desk.desk [], Scenario.mixed); trace := [];
        vars := no_locals |}).
Proof.
  apply (number_that_is_not_a_number Desk.env Desk.host 5
           (Desk.start ["2,x"]) [Desk.chat; Desk.club; Desk.news]
           (Desk.desk ["2,x"], Scenario.mixed) (Desk.desk [], Scenario.mixed)
           "2,x" ValueError ["2"] "x" []).
  - reflexivity.
  - discriminate.
  - reflexivity.
  - reflexivity.
  - constructor; [exists 2; reflexivity | constructor].
  - reflexivity.
Defined.

Lemma join_groups_tries_every_item_witness :
  exists lines,
    Script4.join_groups Desk.host
      (Desk.desk ["@closed, @open ,x"], Scenario.mixed)
    = (Returns lines,
       requests_sent Desk.host ["@closed"; "@open"; "x"]
         (Desk.desk [], Scenario.mixed)) /\
    lines !! 0%nat = Some (Script4.Failed_to_join "@closed" RPCError) /\
    lines !! 1%nat = Some (Script4.Joined_username "@open") /\
    lines !! 2%nat = Some (Script4.Joined_invite_link "x").
Proof.
  destruct (join_groups_tries_every_item Desk.host
              (Desk.desk ["@closed, @open ,x"], Scenario.mixed)
              (Desk.desk [], Scenario.mixed) "@closed, @open ,x" eq_refl)
    as (lines & Hrun & _ & Hlines).
  exists lines. split; [exact Hrun |]. split; [| split].
  - exact (Hlines [] "@closed" ["@open"; "x"] eq_refl).
  - exact (Hlines ["@closed"] "@open" ["x"] eq_refl).
  - exact (Hlines ["@closed"; "@open"] "x" [] eq_refl).
Defined.

Lemma get_credentials_reuses_the_saved_ones_witness :
  Script4.get_credentials Desk.host
    (Desk.with_file (Some Desk.saved) (Desk.desk [" Yes"]), Scenario.mixed)
  = (Script4.Gives (Str "12345", Str "abc", Str "me", Str "+100"),
     (Desk.with_file (Some Desk.saved) (Desk.desk []), Scenario.mixed)).
Proof.
  apply (get_credentials_reuses_the_saved_ones Desk.host _
           (Desk.with_file (Some Desk.saved) (Desk.desk [" Yes"]),
            Scenario.mixed) _ " Yes");
    reflexivity.
Defined.

Lemma new_credentials_are_saved_on_yes_witness :
  Script4.new_credentials Desk.host
    (Desk.desk [" 12345"; "abc"; "me "; "+100"; "yes"], Scenario.mixed)
  = (Script4.Gives (Str "12345", Str "abc", Str "me", Str "+100"),
     (Desk.with_file (Some Desk.saved) (Desk.desk []), Scenario.mixed)).
Proof.
  apply (proj1 (proj2 (new_credentials_are_saved_on_yes Desk.host
           (Desk.desk [" 12345"; "abc"; "me "; "+100"; "yes"], Scenario.mixed)
           (Desk.desk ["abc"; "me "; "+100"; "yes"], Scenario.mixed)
           (Desk.desk ["me "; "+100"; "yes"], Scenario.mixed)
           (Desk.desk ["+100"; "yes"], Scenario.mixed)
           (Desk.desk ["yes"], Scenario.mixed)
           (Desk.desk [], Scenario.mixed)
           " 12345" "abc" "me " "+100" "yes"
           eq_refl eq_refl eq_refl eq_refl eq_refl) eq_refl
         (Desk.with_file (Some Desk.saved) (Desk.desk []), Scenario.mixed))).
  reflexivity.
Defined.

Lemma credentials_file_edges_witness :
  Script4.get_credentials Desk.host (Desk.desk ["a"], Scenario.mixed)
  = Script4.new_credentials Desk.host (Desk.desk ["a"], Scenario.mixed).
Proof.
  apply (proj1 (credentials_file_edges Desk.host
                  (Desk.desk ["a"], Scenario.mixed)
                  (Desk.desk ["a"], Scenario.mixed))).
  reflexivity.
Defined.
